(** * CineMorph: request composer and generation pipeline

    A shallow embedding of the decision-bearing code of the repository:
    - [services/geminiService.ts] (functions [fileToBase64],
      [analyzeImageStructure], [generateFinalPoster], [refinePoster]);
    - [App.tsx] (the React state of the [App] component and its handlers
      [handleAnalyze], [updateStep], [handleGenerate], [handleRefine]).

    The service is embedded in its version with four modes, where the
    actor file and the reference file are optional and a creative prompt
    is the last parameter.

    JavaScript strings are modelled by [string]; a character stands for one
    code unit in the range 0..255.  A value that may be [null] or
    [undefined] is an [option].  Asynchronous functions are modelled by a
    small program type [Prog] whose only effect is the call to the
    generation backend, so that "no network call was made" is a statement
    about the shape of a program. *)

From Stdlib Require Import String Ascii List Bool Arith Lia.
Import ListNotations.
Open Scope string_scope.

(** ** JavaScript string and truthiness helpers *)

Module Js.

(** The double quote character, written through its code. *)
Definition dq : string := String "034"%char EmptyString.

(** The line break of a template literal. *)
Definition nl : string := String "010"%char EmptyString.

(** Truthiness of a string: every string but the empty one. *)
Definition truthyStr (s : string) : bool :=
  match s with
  | EmptyString => false
  | String _ _ => true
  end.

(** Truthiness of a value of type [string | null | undefined]. *)
Definition truthy (o : option string) : bool :=
  match o with
  | Some s => truthyStr s
  | None => false
  end.

(** [a || b] on a possibly undefined string with a string default. *)
Definition orElse (o : option string) (d : string) : string :=
  match o with
  | Some (String c s) => String c s
  | _ => d
  end.

(** [s.split(sep)] for a one-character separator. *)
Fixpoint split (sep : ascii) (s : string) : list string :=
  match s with
  | EmptyString => [EmptyString]
  | String c rest =>
      if Ascii.eqb c sep then EmptyString :: split sep rest
      else match split sep rest with
           | h :: t => String c h :: t
           | [] => [String c EmptyString]
           end
  end.

(** White space removed by [String.prototype.trim], among the code units
    below 256: TAB, LF, VT, FF, CR, SPACE and NBSP. *)
Definition isWhiteSpace (c : ascii) : bool :=
  let n := nat_of_ascii c in
  ((9 <=? n)%nat && (n <=? 13)%nat) || (n =? 32)%nat || (n =? 160)%nat.

Fixpoint trimStart (s : string) : string :=
  match s with
  | EmptyString => EmptyString
  | String c rest => if isWhiteSpace c then trimStart rest else s
  end.

(** Removes the trailing white space: a character is kept when it is not
    white space or when something is kept after it. *)
Fixpoint trimEnd (s : string) : string :=
  match s with
  | EmptyString => EmptyString
  | String c rest =>
      match trimEnd rest with
      | EmptyString => if isWhiteSpace c then EmptyString
                       else String c EmptyString
      | kept => String c kept
      end
  end.

Definition trim (s : string) : string := trimEnd (trimStart s).

(** [s.includes(p)]. *)
Fixpoint includes (p s : string) : bool :=
  String.prefix p s ||
  match s with
  | EmptyString => false
  | String _ rest => includes p rest
  end.

End Js.

(** ** The generation service ([services/geminiService.ts]) *)

Module GeminiService.
Import Js.

(** *** Data exchanged with the backend *)

(** [Part.inlineData]: a MIME type and a base64 payload. *)
Record Blob := { mimeType : option string; data : option string }.

(** A part of a request or of a response: media, text, or neither. *)
Record Part := { inlineData : option Blob; text : option string }.

Definition inlineDataPart (mime data : option string) : Part :=
  {| inlineData := Some {| mimeType := mime; data := data |}; text := None |}.

Definition textOnlyPart (s : string) : Part :=
  {| inlineData := None; text := Some s |}.

Record Content := { parts : option (list Part) }.

Record Candidate := { content : option Content }.

(** The response of [ai.models.generateContent]; [responseText] is the
    value of its [text] accessor. *)
Record GenerateContentResponse :=
  { candidates : option (list Candidate); responseText : option string }.

Record ImageConfig := { aspectRatio : string; imageSize : string }.

(** The argument of [ai.models.generateContent]. *)
Record GenerateContentParameters :=
  { model : string; contents : list Part; imageConfig : option ImageConfig }.

(** A thrown value, of which the code only reads [message]. *)
Record Thrown := { message : option string }.

(** [new Error(msg)]. *)
Definition newError (msg : string) : Thrown := {| message := Some msg |}.

(** How the backend call settles. *)
Inductive Reply :=
| Resolved (response : GenerateContentResponse)
| Rejected (error : Thrown).

(** How a [FileReader] settles on a file. *)
Inductive ReadResult :=
| Loaded (result : string)
| ReadFailed (error : Thrown).

(** A [File]: its MIME type and what [FileReader.readAsDataURL] yields. *)
Record File := { type : string; readAsDataURL : ReadResult }.

(** *** Asynchronous programs *)

(** A program returns, throws, or awaits the backend on a request and goes
    on with the reply. *)
Inductive Prog (A : Type) : Type :=
| Return (a : A)
| Throw (e : Thrown)
| Await (req : GenerateContentParameters) (k : Reply -> Prog A).

Arguments Return {A} a.
Arguments Throw {A} e.
Arguments Await {A} req k.

Fixpoint bind {A B : Type} (p : Prog A) (f : A -> Prog B) : Prog B :=
  match p with
  | Return a => f a
  | Throw e => Throw e
  | Await req k => Await req (fun r => bind (k r) f)
  end.

Notation "x <- p ;; q" := (bind p (fun x => q))
  (at level 61, p at next level, right associativity).

(** [try { p } catch (error) { h error }]. *)
Fixpoint tryCatch {A : Type} (p : Prog A) (h : Thrown -> Prog A) : Prog A :=
  match p with
  | Return a => Return a
  | Throw e => h e
  | Await req k => Await req (fun r => tryCatch (k r) h)
  end.

(** [await ai.models.generateContent(req)]. *)
Definition generateContent (req : GenerateContentParameters)
  : Prog GenerateContentResponse :=
  Await req (fun r => match r with
                      | Resolved response => Return response
                      | Rejected error => Throw error
                      end).

(** The settled value of a promise. *)
Inductive Outcome (A : Type) : Type :=
| Fulfilled (a : A)
| Failed (e : Thrown).

Arguments Fulfilled {A} a.
Arguments Failed {A} e.

(** Running a program against a backend: the requests sent, in order, and
    the outcome. *)
Fixpoint run {A : Type} (backend : GenerateContentParameters -> Reply)
  (p : Prog A) : list GenerateContentParameters * Outcome A :=
  match p with
  | Return a => ([], Fulfilled a)
  | Throw e => ([], Failed e)
  | Await req k =>
      let (sent, o) := run backend (k (backend req)) in (req :: sent, o)
  end.

Definition requests {A : Type} (backend : GenerateContentParameters -> Reply)
  (p : Prog A) : list GenerateContentParameters := fst (run backend p).

Definition outcome {A : Type} (backend : GenerateContentParameters -> Reply)
  (p : Prog A) : Outcome A := snd (run backend p).

(** *** [getAiClient] and [fileToBase64] *)

(** [getAiClient]: throws when [process.env.API_KEY] is falsy. *)
Definition getAiClient (API_KEY : option string) : Prog unit :=
  if truthy API_KEY then Return tt
  else Throw (newError "API Key not found. Please select an API Key.").

(** [fileToBase64]: [result.split(',')[1]] of the data URL, [undefined]
    when the URL has no comma; rejects when the read fails. *)
Definition fileToBase64 (file : File) : Prog (option string) :=
  match readAsDataURL file with
  | Loaded result => Return (nth_error (split ","%char result) 1)
  | ReadFailed error => Throw error
  end.

(** *** Interpreting a response *)

(** [part.inlineData && part.inlineData.data]. *)
Definition imageData (p : Part) : option string :=
  match inlineData p with
  | Some b => if truthy (data b) then data b else None
  | None => None
  end.

(** The [for (const part of parts)] loop: the payload of the first part
    that bears an image. *)
Fixpoint firstImage (ps : list Part) : option string :=
  match ps with
  | [] => None
  | p :: rest =>
      match imageData p with
      | Some d => Some d
      | None => firstImage rest
      end
  end.

(** [parts.find(p => p.text)]. *)
Definition findText (ps : list Part) : option Part :=
  find (fun p => truthy (text p)) ps.

(** [candidates[0].content?.parts] under the guard
    [candidates && candidates.length > 0]; [None] when the guard or the
    test [if (parts)] fails. *)
Definition firstCandidateParts (response : GenerateContentResponse)
  : option (list Part) :=
  match candidates response with
  | Some (c :: _) =>
      match content c with
      | Some ct => parts ct
      | None => None
      end
  | _ => None
  end.

Definition dataUri (d : string) : string := "data:image/png;base64," ++ d.

(** *** [analyzeImageStructure] *)

Definition analysisPrompt : string :=
    "Act as a Technical Director for VFX. Analyze this image for a compositing task." ++ nl
    ++ "            Return a structured report covering:" ++ nl
    ++ "            1. CAMERA: Estimated Focal Length (e.g., 35mm, 85mm), Depth of Field." ++ nl
    ++ "            2. LIGHTING: Direction (clock face), Hardness (softbox vs hard sunlight), Color Temp (Kelvin), and Ratio (Key:Fill)." ++ nl
    ++ "            3. PERSPECTIVE: Horizon line height, Camera Angle (High/Low/Eye-level)." ++ nl
    ++ "            4. TEXTURE: Grain structure, specularity of skin/surfaces." ++ nl
    ++ "            " ++ nl
    ++ "            Keep it concise but highly technical.".

(** Every failure inside the [try] is turned into a fallback text. *)
Definition analyzeImageStructure (API_KEY : option string) (imageFile : File)
  : Prog string :=
  tryCatch
    (_ <- getAiClient API_KEY ;;
     base64Data <- fileToBase64 imageFile ;;
     response <- generateContent
       {| model := "gemini-3-pro-preview";
          contents := [ inlineDataPart (Some (type imageFile)) base64Data;
                        textOnlyPart analysisPrompt ];
          imageConfig := None |} ;;
     Return (orElse (responseText response) "Analysis failed to produce text."))
    (fun _ => Return "Analysis unavailable.").

(** *** [generateFinalPoster] *)

(** Step 2, "Prepare Format Instructions": the pair
    [(aspectRatio, formatInstruction)]. *)
Definition prepareFormat (outputType landingPosition : string)
  : string * string :=
  if outputType =? "ad_stories" then
    ("9:16", "FORMAT: SOCIAL MEDIA STORY (9:16). Vertical Composition.")
  else if outputType =? "thumbnail" then
    ("16:9", "FORMAT: YOUTUBE THUMBNAIL (16:9). High Contrast, Rule of Thirds.")
  else if outputType =? "landing_hero" then
    ("16:9",
     "FORMAT: CINEMATIC WEB HEADER (16:9)." ++
     (if landingPosition =? "left" then
        " LAYOUT: Subject Anchored LEFT. Right side: Negative space."
      else if landingPosition =? "right" then
        " LAYOUT: Subject Anchored RIGHT. Left side: Negative space."
      else " LAYOUT: Center Composition."))
  else if outputType =? "landing_mobile" then
    ("9:16",
     "FORMAT: MOBILE LANDING PAGE (Vertical 9:16)." ++
     (if landingPosition =? "top" then
        " LAYOUT: Subject in TOP half. Clean negative space at BOTTOM."
      else if landingPosition =? "bottom" then
        " LAYOUT: Subject in BOTTOM half. Clean negative space at TOP."
      else EmptyString))
  else ("1:1", "FORMAT: SQUARE AD (1:1).").

(** The three text instructions the code can emit. *)
Definition renderInstruction (customText : string) : string :=
  "TEXT RENDER: Render the title " ++ dq ++ customText ++ dq
  ++ " in the image with cinematic typography fitting the scene.".

Definition cleanInstruction : string := "TEXT: No text. Clean image.".

(** Step 3, "Prepare Text Overlay Instructions". *)
Definition prepareText (preserveText : bool) (customText : string) : string :=
  if truthyStr customText && (0 <? String.length (trim customText))%nat then
    renderInstruction customText
  else if negb preserveText then cleanInstruction
  else EmptyString.

(** The four modes of the function's documentation. *)
Inductive Scenario :=
| IdentityTransfer       (* 1. Actor + Reference *)
| GenerativePlacement    (* 2. Actor + Prompt *)
| GuidedReimagination    (* 3. Reference + Prompt *)
| PureSynthesis.         (* 4. Prompt only *)

Definition techSpecs (analysisContext : option string) : string :=
  match analysisContext with
  | Some (String c s) => "- TECH SPECS: " ++ String c s
  | _ => EmptyString
  end.

Definition additionalInstruction (creativePrompt : string) : string :=
  if truthyStr creativePrompt then
    "- ADDITIONAL INSTRUCTION: " ++ creativePrompt
  else EmptyString.

Definition identityTransferPrompt (formatInstruction : string)
  (analysisContext : option string) (creativePrompt textInstruction : string)
  : string :=
    nl
    ++ "      ROLE: Senior VFX Compositor." ++ nl
    ++ "      TASK: Face Replacement & Relighting." ++ nl
    ++ "      " ++ formatInstruction ++ nl
    ++ "      " ++ nl
    ++ "      INPUTS:" ++ nl
    ++ "      - IMAGE_1 (Base Plate): Master Reference." ++ nl
    ++ "      - IMAGE_2 (Source): User Identity." ++ nl
    ++ "      " ++ techSpecs analysisContext ++ nl
    ++ "      " ++ additionalInstruction creativePrompt ++ nl
    ++ nl
    ++ "      INSTRUCTIONS:" ++ nl
    ++ "      1. Replace the face in IMAGE_1 with the face from IMAGE_2." ++ nl
    ++ "      2. PRESERVE IMAGE_1's lighting, shadows, and color grading exactly." ++ nl
    ++ "      3. Adapt IMAGE_2's head geometry to match IMAGE_1's angle." ++ nl
    ++ "      4. " ++ textInstruction ++ nl
    ++ "    ".

Definition generativePlacementPrompt
  (formatInstruction creativePrompt textInstruction : string) : string :=
    nl
    ++ "      ROLE: Movie Poster Concept Artist." ++ nl
    ++ "      TASK: Create a scene featuring the Actor." ++ nl
    ++ "      " ++ formatInstruction ++ nl
    ++ "      " ++ nl
    ++ "      INPUTS:" ++ nl
    ++ "      - IMAGE_1: The Main Actor." ++ nl
    ++ "      - SCENE DESCRIPTION: " ++ dq ++ creativePrompt ++ dq ++ nl
    ++ nl
    ++ "      INSTRUCTIONS:" ++ nl
    ++ "      1. GENERATE a high-end cinematic environment based on the SCENE DESCRIPTION." ++ nl
    ++ "      2. PLACE the actor from IMAGE_1 into this scene." ++ nl
    ++ "      3. Match lighting and reflections on the actor to the new environment." ++ nl
    ++ "      4. " ++ textInstruction ++ nl
    ++ "    ".

Definition guidedReimaginationPrompt
  (formatInstruction creativePrompt textInstruction : string) : string :=
    nl
    ++ "      ROLE: Creative Director / Art Director." ++ nl
    ++ "      TASK: Reimagine the Reference Image." ++ nl
    ++ "      " ++ formatInstruction ++ nl
    ++ "      " ++ nl
    ++ "      INPUTS:" ++ nl
    ++ "      - IMAGE_1: Visual Reference (Composition/Lighting Base)." ++ nl
    ++ "      - CREATIVE DIRECTION: " ++ dq ++ creativePrompt ++ dq ++ nl
    ++ nl
    ++ "      INSTRUCTIONS:" ++ nl
    ++ "      1. Generate a NEW image that respects the composition and lighting structure of IMAGE_1." ++ nl
    ++ "      2. APPLY the CREATIVE DIRECTION to transform the content, style, or subject matter." ++ nl
    ++ "      3. If the prompt asks to change the person/character, generate a new fictional character fitting the description." ++ nl
    ++ "      4. Maintain the professional " ++ dq ++ "movie poster" ++ dq ++ " aesthetic of the reference." ++ nl
    ++ "      5. " ++ textInstruction ++ nl
    ++ "    ".

Definition pureSynthesisPrompt
  (formatInstruction creativePrompt textInstruction : string) : string :=
    nl
    ++ "      ROLE: AI Image Generator." ++ nl
    ++ "      TASK: Create a Movie Poster from scratch." ++ nl
    ++ "      " ++ formatInstruction ++ nl
    ++ "      " ++ nl
    ++ "      PROMPT: " ++ dq ++ creativePrompt ++ dq ++ nl
    ++ nl
    ++ "      INSTRUCTIONS:" ++ nl
    ++ "      1. Generate a Photorealistic, 8k resolution cinematic image based on the PROMPT." ++ nl
    ++ "      2. Ensure high dynamic range and dramatic lighting." ++ nl
    ++ "      3. " ++ textInstruction ++ nl
    ++ "    ".

Definition invalidInput : string :=
  "Invalid Input Combination. Please provide at least an Actor, a Reference, or a Prompt.".

(** Truthiness of a value of type [File | null]. *)
Definition isFile (f : option File) : bool :=
  match f with
  | Some _ => true
  | None => false
  end.

(** What step 4 builds: the branch taken, the media pushed on
    [contentParts] and [systemPrompt]. *)
Record Composed :=
  { scenario : Scenario; mediaParts : list Part; systemPrompt : string }.

(** Step 4, "Build Prompt & Content Parts based on Scenario": the
    [if / else if] chain in the order of the source, its last branch
    throwing. *)
Definition buildScenario (actorFile : option File) (actorBase64 : option string)
  (referenceFile : option File) (referenceBase64 : option string)
  (formatInstruction : string) (analysisContext : option string)
  (creativePrompt textInstruction : string) : Prog Composed :=
  if isFile actorFile && truthy actorBase64
     && isFile referenceFile && truthy referenceBase64 then
    Return
      {| scenario := IdentityTransfer;
         mediaParts :=
           [ inlineDataPart (option_map type referenceFile) referenceBase64;
             inlineDataPart (option_map type actorFile) actorBase64 ];
         systemPrompt :=
           identityTransferPrompt formatInstruction analysisContext
             creativePrompt textInstruction |}
  else if isFile actorFile && truthy actorBase64
          && negb (isFile referenceFile) then
    Return
      {| scenario := GenerativePlacement;
         mediaParts :=
           [ inlineDataPart (option_map type actorFile) actorBase64 ];
         systemPrompt :=
           generativePlacementPrompt formatInstruction creativePrompt
             textInstruction |}
  else if negb (isFile actorFile)
          && isFile referenceFile && truthy referenceBase64 then
    Return
      {| scenario := GuidedReimagination;
         mediaParts :=
           [ inlineDataPart (option_map type referenceFile) referenceBase64 ];
         systemPrompt :=
           guidedReimaginationPrompt formatInstruction creativePrompt
             textInstruction |}
  else if negb (isFile actorFile) && negb (isFile referenceFile)
          && truthyStr creativePrompt then
    Return
      {| scenario := PureSynthesis;
         mediaParts := [];
         systemPrompt :=
           pureSynthesisPrompt formatInstruction creativePrompt
             textInstruction |}
  else Throw (newError invalidInput).

(** The reading of the response inside the [try] of
    [generateFinalPoster]. *)
Definition readGenerated (response : GenerateContentResponse) : Prog string :=
  let noImage := Throw (newError "No image data returned.") in
  match firstCandidateParts response with
  | Some ps =>
      match firstImage ps with
      | Some d => Return (dataUri d)
      | None =>
          match findText ps with
          | Some textPart =>
              match text textPart with
              | Some (String c s) =>
                  Throw (newError ("Model Refusal: " ++ String c s))
              | _ => noImage
              end
          | None => noImage
          end
      end
  | None => noImage
  end.

(** Step 1: [fileToBase64] of a file that may be [null]. *)
Definition prepareInput (f : option File) : Prog (option string) :=
  match f with
  | Some file => fileToBase64 file
  | None => Return None
  end.

(** The [catch] of [generateFinalPoster]:
    [throw new Error(error.message || "Failed to generate poster.")]. *)
Definition rethrowGenerate (error : Thrown) : Prog string :=
  Throw (newError (orElse (message error) "Failed to generate poster.")).

(** [generateFinalPoster] up to its [try]: the credential, the inputs,
    steps 2 to 4 and the push of the prompt.  It yields the branch taken
    and the argument of [ai.models.generateContent]. *)
Definition composeRequest (API_KEY : option string)
  (actorFile referenceFile : option File)
  (outputType landingPosition : string) (analysisContext : option string)
  (preserveText : bool) (customText creativePrompt : string)
  : Prog (Scenario * GenerateContentParameters) :=
  _ <- getAiClient API_KEY ;;
  actorBase64 <- prepareInput actorFile ;;
  referenceBase64 <- prepareInput referenceFile ;;
  let (aspectRatio, formatInstruction) :=
    prepareFormat outputType landingPosition in
  let textInstruction := prepareText preserveText customText in
  composed <- buildScenario actorFile actorBase64 referenceFile
                referenceBase64 formatInstruction analysisContext
                creativePrompt textInstruction ;;
  let contentParts :=
    (mediaParts composed ++ [ textOnlyPart (systemPrompt composed) ])%list in
  Return (scenario composed,
          {| model := "gemini-3-pro-image-preview";
             contents := contentParts;
             imageConfig :=
               Some {| aspectRatio := aspectRatio; imageSize := "4K" |} |}).

Definition generateFinalPoster (API_KEY : option string)
  (actorFile referenceFile : option File)
  (outputType landingPosition : string) (analysisContext : option string)
  (preserveText : bool) (customText creativePrompt : string) : Prog string :=
  composed <- composeRequest API_KEY actorFile referenceFile outputType
                landingPosition analysisContext preserveText customText
                creativePrompt ;;
  tryCatch
    (response <- generateContent (snd composed) ;;
     readGenerated response)
    rethrowGenerate.

(** *** [refinePoster] *)

Definition refineAspectRatio (outputType : string) : string :=
  if (outputType =? "ad_stories") || (outputType =? "landing_mobile") then
    "9:16"
  else if (outputType =? "thumbnail") || (outputType =? "landing_hero") then
    "16:9"
  else "1:1".

Definition retouchPrompt (refinementPrompt aspectRatio : string) : string :=
    nl
    ++ "    ROLE: Senior Photo Retoucher." ++ nl
    ++ "    TASK: Detailed Image Refinement." ++ nl
    ++ "    USER REQUEST: " ++ dq ++ refinementPrompt ++ dq ++ nl
    ++ "    INSTRUCTIONS: Fix the image according to the request. Keep original quality. Output 4K." ++ nl
    ++ "    Output Ratio: " ++ aspectRatio ++ "." ++ nl
    ++ "  ".

(** The reading of the response inside the [try] of [refinePoster]. *)
Definition readRefined (response : GenerateContentResponse) : Prog string :=
  let failed := Throw (newError "Refinement failed.") in
  match firstCandidateParts response with
  | Some ps =>
      match firstImage ps with
      | Some d => Return (dataUri d)
      | None => failed
      end
  | None => failed
  end.

(** The [catch] of [refinePoster]. *)
Definition rethrowRefine (error : Thrown) : Prog string :=
  Throw (newError (orElse (message error) "Failed to refine image.")).

Definition refinePoster (API_KEY : option string)
  (currentImageBase64 refinementPrompt outputType : string) : Prog string :=
  _ <- getAiClient API_KEY ;;
  let base64Data := nth_error (split ","%char currentImageBase64) 1 in
  let aspectRatio := refineAspectRatio outputType in
  let prompt := retouchPrompt refinementPrompt aspectRatio in
  tryCatch
    (response <- generateContent
       {| model := "gemini-3-pro-image-preview";
          contents := [ inlineDataPart (Some "image/png") base64Data;
                        textOnlyPart prompt ];
          imageConfig :=
            Some {| aspectRatio := aspectRatio; imageSize := "4K" |} |} ;;
     readRefined response)
    rethrowRefine.

(** *** Vocabulary of the statements *)

(** A supplied image encodes when its read succeeds and the base64 payload
    cut out of its data URL is truthy; an absent image encodes trivially. *)
Definition encodes (f : option File) : bool :=
  match f with
  | None => true
  | Some file =>
      match readAsDataURL file with
      | Loaded result => truthy (nth_error (split ","%char result) 1)
      | ReadFailed _ => false
      end
  end.

(** The scenario the specification assigns to the presence of the subject
    image and of the reference image. *)
Definition scenarioFor (subjectPresent referencePresent : bool) : Scenario :=
  match subjectPresent, referencePresent with
  | true, true => IdentityTransfer
  | true, false => GenerativePlacement
  | false, true => GuidedReimagination
  | false, false => PureSynthesis
  end.

End GeminiService.

(** ** The application state and its handlers ([App.tsx], [types.ts]) *)

Module App.
Import Js GeminiService.

Inductive OutputType :=
| AD_FEED | AD_STORIES | LANDING_HERO | LANDING_MOBILE | THUMBNAIL.

Definition outputTypeValue (o : OutputType) : string :=
  match o with
  | AD_FEED => "ad_feed"
  | AD_STORIES => "ad_stories"
  | LANDING_HERO => "landing_hero"
  | LANDING_MOBILE => "landing_mobile"
  | THUMBNAIL => "thumbnail"
  end.

Inductive LandingPosition := LEFT | CENTER | RIGHT | TOP | BOTTOM.

Definition landingPositionValue (p : LandingPosition) : string :=
  match p with
  | LEFT => "left"
  | CENTER => "center"
  | RIGHT => "right"
  | TOP => "top"
  | BOTTOM => "bottom"
  end.

(** [ProcessingStep['status']]. *)
Inductive Status := Pending | Processing | Completed | Error.

Record ProcessingStep :=
  { id : string; name : string; status : Status; details : option string }.

(** The [useState] cells of [App] that its handlers read or write (the two
    preview URLs and [landingDevice] only feed the rendering). *)
Record State :=
  { apiKeySet : bool;
    actorFile : option File;
    refFile : option File;
    outputType : OutputType;
    landingPos : LandingPosition;
    preserveText : bool;
    customText : string;
    isProcessing : bool;
    isAnalyzing : bool;
    analysisText : option string;
    generatedImage : option string;
    steps : list ProcessingStep;
    refinePrompt : string;
    isRefining : bool }.

Definition initialSteps : list ProcessingStep :=
  [ {| id := "1"; name := "Segmentation Engine"; status := Pending;
       details := Some "Waiting for inputs" |};
    {| id := "2"; name := "Hero Replacement"; status := Pending;
       details := None |};
    {| id := "3"; name := "Relighting & Texture"; status := Pending;
       details := None |};
    {| id := "4"; name := "Identity Blocker"; status := Pending;
       details := None |};
    {| id := "5"; name := "Final 4K Render"; status := Pending;
       details := None |} ].

Definition initialState : State :=
  {| apiKeySet := false; actorFile := None; refFile := None;
     outputType := AD_FEED; landingPos := CENTER;
     preserveText := false; customText := EmptyString;
     isProcessing := false; isAnalyzing := false;
     analysisText := None; generatedImage := None;
     steps := initialSteps;
     refinePrompt := EmptyString; isRefining := false |}.

(** *** State setters *)

Definition setApiKeySet (v : bool) (s : State) : State :=
  {| apiKeySet := v; actorFile := actorFile s; refFile := refFile s;
     outputType := outputType s; landingPos := landingPos s;
     preserveText := preserveText s; customText := customText s;
     isProcessing := isProcessing s; isAnalyzing := isAnalyzing s;
     analysisText := analysisText s; generatedImage := generatedImage s;
     steps := steps s; refinePrompt := refinePrompt s;
     isRefining := isRefining s |}.

Definition setActorFile (v : option File) (s : State) : State :=
  {| apiKeySet := apiKeySet s; actorFile := v; refFile := refFile s;
     outputType := outputType s; landingPos := landingPos s;
     preserveText := preserveText s; customText := customText s;
     isProcessing := isProcessing s; isAnalyzing := isAnalyzing s;
     analysisText := analysisText s; generatedImage := generatedImage s;
     steps := steps s; refinePrompt := refinePrompt s;
     isRefining := isRefining s |}.

Definition setRefFile (v : option File) (s : State) : State :=
  {| apiKeySet := apiKeySet s; actorFile := actorFile s; refFile := v;
     outputType := outputType s; landingPos := landingPos s;
     preserveText := preserveText s; customText := customText s;
     isProcessing := isProcessing s; isAnalyzing := isAnalyzing s;
     analysisText := analysisText s; generatedImage := generatedImage s;
     steps := steps s; refinePrompt := refinePrompt s;
     isRefining := isRefining s |}.

Definition setOutputType (v : OutputType) (s : State) : State :=
  {| apiKeySet := apiKeySet s; actorFile := actorFile s;
     refFile := refFile s; outputType := v; landingPos := landingPos s;
     preserveText := preserveText s; customText := customText s;
     isProcessing := isProcessing s; isAnalyzing := isAnalyzing s;
     analysisText := analysisText s; generatedImage := generatedImage s;
     steps := steps s; refinePrompt := refinePrompt s;
     isRefining := isRefining s |}.

Definition setLandingPos (v : LandingPosition) (s : State) : State :=
  {| apiKeySet := apiKeySet s; actorFile := actorFile s;
     refFile := refFile s; outputType := outputType s; landingPos := v;
     preserveText := preserveText s; customText := customText s;
     isProcessing := isProcessing s; isAnalyzing := isAnalyzing s;
     analysisText := analysisText s; generatedImage := generatedImage s;
     steps := steps s; refinePrompt := refinePrompt s;
     isRefining := isRefining s |}.

Definition setPreserveText (v : bool) (s : State) : State :=
  {| apiKeySet := apiKeySet s; actorFile := actorFile s;
     refFile := refFile s; outputType := outputType s;
     landingPos := landingPos s; preserveText := v;
     customText := customText s; isProcessing := isProcessing s;
     isAnalyzing := isAnalyzing s; analysisText := analysisText s;
     generatedImage := generatedImage s; steps := steps s;
     refinePrompt := refinePrompt s; isRefining := isRefining s |}.

Definition setCustomText (v : string) (s : State) : State :=
  {| apiKeySet := apiKeySet s; actorFile := actorFile s;
     refFile := refFile s; outputType := outputType s;
     landingPos := landingPos s; preserveText := preserveText s;
     customText := v; isProcessing := isProcessing s;
     isAnalyzing := isAnalyzing s; analysisText := analysisText s;
     generatedImage := generatedImage s; steps := steps s;
     refinePrompt := refinePrompt s; isRefining := isRefining s |}.

Definition setIsProcessing (v : bool) (s : State) : State :=
  {| apiKeySet := apiKeySet s; actorFile := actorFile s;
     refFile := refFile s; outputType := outputType s;
     landingPos := landingPos s; preserveText := preserveText s;
     customText := customText s; isProcessing := v;
     isAnalyzing := isAnalyzing s; analysisText := analysisText s;
     generatedImage := generatedImage s; steps := steps s;
     refinePrompt := refinePrompt s; isRefining := isRefining s |}.

Definition setIsAnalyzing (v : bool) (s : State) : State :=
  {| apiKeySet := apiKeySet s; actorFile := actorFile s;
     refFile := refFile s; outputType := outputType s;
     landingPos := landingPos s; preserveText := preserveText s;
     customText := customText s; isProcessing := isProcessing s;
     isAnalyzing := v; analysisText := analysisText s;
     generatedImage := generatedImage s; steps := steps s;
     refinePrompt := refinePrompt s; isRefining := isRefining s |}.

Definition setAnalysisText (v : option string) (s : State) : State :=
  {| apiKeySet := apiKeySet s; actorFile := actorFile s;
     refFile := refFile s; outputType := outputType s;
     landingPos := landingPos s; preserveText := preserveText s;
     customText := customText s; isProcessing := isProcessing s;
     isAnalyzing := isAnalyzing s; analysisText := v;
     generatedImage := generatedImage s; steps := steps s;
     refinePrompt := refinePrompt s; isRefining := isRefining s |}.

Definition setGeneratedImage (v : option string) (s : State) : State :=
  {| apiKeySet := apiKeySet s; actorFile := actorFile s;
     refFile := refFile s; outputType := outputType s;
     landingPos := landingPos s; preserveText := preserveText s;
     customText := customText s; isProcessing := isProcessing s;
     isAnalyzing := isAnalyzing s; analysisText := analysisText s;
     generatedImage := v; steps := steps s; refinePrompt := refinePrompt s;
     isRefining := isRefining s |}.

(** [setSteps(prev => f prev)]. *)
Definition setSteps (f : list ProcessingStep -> list ProcessingStep)
  (s : State) : State :=
  {| apiKeySet := apiKeySet s; actorFile := actorFile s;
     refFile := refFile s; outputType := outputType s;
     landingPos := landingPos s; preserveText := preserveText s;
     customText := customText s; isProcessing := isProcessing s;
     isAnalyzing := isAnalyzing s; analysisText := analysisText s;
     generatedImage := generatedImage s; steps := f (steps s);
     refinePrompt := refinePrompt s; isRefining := isRefining s |}.

Definition setRefinePrompt (v : string) (s : State) : State :=
  {| apiKeySet := apiKeySet s; actorFile := actorFile s;
     refFile := refFile s; outputType := outputType s;
     landingPos := landingPos s; preserveText := preserveText s;
     customText := customText s; isProcessing := isProcessing s;
     isAnalyzing := isAnalyzing s; analysisText := analysisText s;
     generatedImage := generatedImage s; steps := steps s;
     refinePrompt := v; isRefining := isRefining s |}.

Definition setIsRefining (v : bool) (s : State) : State :=
  {| apiKeySet := apiKeySet s; actorFile := actorFile s;
     refFile := refFile s; outputType := outputType s;
     landingPos := landingPos s; preserveText := preserveText s;
     customText := customText s; isProcessing := isProcessing s;
     isAnalyzing := isAnalyzing s; analysisText := analysisText s;
     generatedImage := generatedImage s; steps := steps s;
     refinePrompt := refinePrompt s; isRefining := v |}.

(** [prev.map(s => s.id === id ? f s : s)]. *)
Definition mapStep (i : string) (f : ProcessingStep -> ProcessingStep)
  (prev : list ProcessingStep) : list ProcessingStep :=
  map (fun s => if id s =? i then f s else s) prev.

(** [updateStep(id, status, details)]: [{ ...s, status, details }] on the
    steps whose id is [id]. *)
Definition updateStep (i : string) (st : Status) (d : option string)
  : State -> State :=
  setSteps (mapStep i (fun s =>
    {| id := id s; name := name s; status := st; details := d |})).

(** The two [setSteps] calls of [handleAnalyze]:
    [{ ...s, status: 'completed', details }] on step 1. *)
Definition markAnalyzed (d : string) : State -> State :=
  setSteps (mapStep "1" (fun s =>
    {| id := id s; name := name s; status := Completed;
       details := Some d |})).

(** The first [setSteps] of [handleGenerate], "Reset steps but keep
    analysis if done". *)
Definition resetSteps (analysisText : option string) : State -> State :=
  setSteps (map (fun s =>
    if (id s =? "1") && truthy analysisText then s
    else {| id := id s; name := name s; status := Pending;
            details := None |})).

(** *** Handlers in flight

    A handler runs in synchronous segments separated by its [await]s.  A
    segment is the list of the state updates it queues, in order; the
    values a handler reads from its closure are those of the state the
    segment starts from, and those a later segment of the same call needs
    are kept with the pending continuation. *)

(** What a running [handleGenerate] has captured for its call to
    [generateFinalPoster]. *)
Record GenClosure :=
  { g_actorFile : File;
    g_refFile : File;
    g_outputType : OutputType;
    g_landingPos : LandingPosition;
    g_analysisText : option string;
    g_preserveText : bool;
    g_customText : string }.

(** Where a call of [handleGenerate] is suspended. *)
Inductive GenPhase :=
| GenIdle
| AwaitTimer1 (c : GenClosure)
| AwaitTimer2 (c : GenClosure)
| AwaitPoster (c : GenClosure)
| AwaitKey.

(** What a running [handleRefine] has passed to [refinePoster]. *)
Record RefineClosure :=
  { r_generatedImage : string;
    r_refinePrompt : string;
    r_outputType : OutputType }.

(** The component: its state, whether [window.aistudio] exists, and the
    suspended calls of [handleGenerate], [handleRefine] and
    [handleAnalyze]. *)
Record Sys :=
  { ui : State;
    aistudio : bool;
    generating : GenPhase;
    refining : option RefineClosure;
    analyzing : list File }.

Definition onUi (f : State -> State) (y : Sys) : Sys :=
  {| ui := f (ui y); aistudio := aistudio y; generating := generating y;
     refining := refining y; analyzing := analyzing y |}.

Definition setGenerating (g : GenPhase) (y : Sys) : Sys :=
  {| ui := ui y; aistudio := aistudio y; generating := g;
     refining := refining y; analyzing := analyzing y |}.

Definition setRefining (r : option RefineClosure) (y : Sys) : Sys :=
  {| ui := ui y; aistudio := aistudio y; generating := generating y;
     refining := r; analyzing := analyzing y |}.

Definition setAnalyzing (l : list File) (y : Sys) : Sys :=
  {| ui := ui y; aistudio := aistudio y; generating := generating y;
     refining := refining y; analyzing := l |}.

Definition initialSys (aistudio : bool) : Sys :=
  {| ui := initialState; aistudio := aistudio; generating := GenIdle;
     refining := None; analyzing := [] |}.

(** The environment a service call runs in. *)
Record Env :=
  { API_KEY : option string;
    backend : GenerateContentParameters -> Reply }.

Fixpoint removeNth {A : Type} (n : nat) (l : list A) : list A :=
  match l, n with
  | [], _ => []
  | _ :: t, O => t
  | h :: t, S m => h :: removeNth m t
  end.

(** [handleAnalyze], up to its [await]. *)
Definition handleAnalyze_start (y : Sys) (file : File) : list (Sys -> Sys) :=
  if apiKeySet (ui y) then
    [ onUi (setIsAnalyzing true);
      onUi (setAnalysisText None);
      setAnalyzing (analyzing y ++ [file])%list ]
  else [].

(** [handleAnalyze], once [analyzeImageStructure] has settled. *)
Definition handleAnalyze_settled (o : Outcome string) : list (Sys -> Sys) :=
  match o with
  | Fulfilled text =>
      [ onUi (setAnalysisText (Some text));
        onUi (markAnalyzed "Lighting topology mapped");
        onUi (setIsAnalyzing false) ]
  | Failed _ =>
      [ onUi (markAnalyzed "Analysis skipped (auto-mode)");
        onUi (setIsAnalyzing false) ]
  end.

(** [handleFileUpload], for the two kinds of file. *)
Definition handleFileUpload_actor (file : File) : list (Sys -> Sys) :=
  [ onUi (setActorFile (Some file)) ].

Definition handleFileUpload_ref (y : Sys) (file : File) : list (Sys -> Sys) :=
  onUi (setRefFile (Some file)) :: handleAnalyze_start y file.

(** [handleGenerate], up to the first timer. *)
Definition handleGenerate_start (y : Sys) : list (Sys -> Sys) :=
  let s := ui y in
  match actorFile s, refFile s with
  | Some actor, Some ref =>
      if apiKeySet s then
        [ onUi (setIsProcessing true);
          onUi (setGeneratedImage None);
          onUi (resetSteps (analysisText s)) ]
        ++ (if truthy (analysisText s) then []
            else [ onUi (updateStep "1" Completed
                           (Some "Using fast segmentation")) ])
        ++ [ onUi (updateStep "2" Processing
                     (Some "Skeleton mapping & Pose transfer..."));
             setGenerating (AwaitTimer1
               {| g_actorFile := actor; g_refFile := ref;
                  g_outputType := outputType s;
                  g_landingPos := landingPos s;
                  g_analysisText := analysisText s;
                  g_preserveText := preserveText s;
                  g_customText := customText s |}) ]
      else []
  | _, _ => []
  end%list.

(** [handleGenerate], between the two timers. *)
Definition handleGenerate_timer1 (c : GenClosure) : list (Sys -> Sys) :=
  [ onUi (updateStep "2" Completed None);
    onUi (updateStep "3" Processing (Some "Raytraced Shadow & Skin SSS..."));
    setGenerating (AwaitTimer2 c) ].

(** [handleGenerate], from the second timer to the call of
    [generateFinalPoster]. *)
Definition handleGenerate_timer2 (c : GenClosure) : list (Sys -> Sys) :=
  [ onUi (updateStep "3" Completed None);
    onUi (updateStep "4" Processing
            (Some "Compositing Layout & Breathing Room..."));
    onUi (updateStep "4" Completed None);
    onUi (updateStep "5" Processing (Some "Final 4K Texture Grading..."));
    setGenerating (AwaitPoster c) ].

(** The call [generateFinalPoster(actorFile, refFile, outputType,
    landingPos, analysisText || undefined, preserveText, customText)];
    [creativePrompt] takes its default, the empty string. *)
Definition posterCall (e : Env) (c : GenClosure) : Prog string :=
  generateFinalPoster (API_KEY e)
    (Some (g_actorFile c)) (Some (g_refFile c))
    (outputTypeValue (g_outputType c))
    (landingPositionValue (g_landingPos c))
    (if truthy (g_analysisText c) then g_analysisText c else None)
    (g_preserveText c) (g_customText c) EmptyString.

(** The end of the [catch] of [handleGenerate], then its [finally]. *)
Definition handleGenerate_failed (msg : string) : list (Sys -> Sys) :=
  let displayMsg :=
    if (50 <? String.length msg)%nat then
      "Generation failed: Check console for details"
    else msg in
  [ onUi (updateStep "5" Error (Some displayMsg));
    onUi (setIsProcessing false);
    setGenerating GenIdle ].

(** [handleGenerate], once [generateFinalPoster] has settled. *)
Definition handleGenerate_settled (y : Sys) (o : Outcome string)
  : list (Sys -> Sys) :=
  match o with
  | Fulfilled resultImageUrl =>
      [ onUi (setGeneratedImage (Some resultImageUrl));
        onUi (updateStep "5" Completed (Some "Render finished"));
        onUi (setIsProcessing false);
        setGenerating GenIdle ]
  | Failed e =>
      let msg := orElse (message e) "Unknown error" in
      if includes "Requested entity was not found" msg then
        onUi (setApiKeySet false)
        :: (if aistudio y then [ setGenerating AwaitKey ]
            else handleGenerate_failed msg)
      else handleGenerate_failed msg
  end.

(** [handleGenerate], once [aiStudio.openSelectKey()] has settled: on
    success the rest of the [catch] branch, then in both cases the
    [finally]. *)
Definition handleGenerate_keySelected (selected : bool) : list (Sys -> Sys) :=
  (if selected then
     [ onUi (setApiKeySet true);
       onUi (updateStep "5" Error
               (Some "API Key refreshed. Please click Generate again.")) ]
   else [])
  ++ [ onUi (setIsProcessing false); setGenerating GenIdle ].

(** [handleRefine], up to its [await]. *)
Definition handleRefine_start (y : Sys) : list (Sys -> Sys) :=
  let s := ui y in
  match generatedImage s with
  | Some image =>
      if truthyStr image && truthyStr (trim (refinePrompt s))
         && negb (isRefining s) then
        [ onUi (setIsRefining true);
          onUi (updateStep "5" Processing (Some "Applying Magic Fix..."));
          setRefining (Some {| r_generatedImage := image;
                               r_refinePrompt := refinePrompt s;
                               r_outputType := outputType s |}) ]
      else []
  | None => []
  end.

(** The call [refinePoster(generatedImage, refinePrompt, outputType)]. *)
Definition refineCall (e : Env) (c : RefineClosure) : Prog string :=
  refinePoster (API_KEY e) (r_generatedImage c) (r_refinePrompt c)
    (outputTypeValue (r_outputType c)).

(** [handleRefine], once [refinePoster] has settled. *)
Definition handleRefine_settled (o : Outcome string) : list (Sys -> Sys) :=
  match o with
  | Fulfilled refinedImageUrl =>
      [ onUi (setGeneratedImage (Some refinedImageUrl));
        onUi (setRefinePrompt EmptyString);
        onUi (updateStep "5" Completed
                (Some "Refinement applied successfully"));
        onUi (setIsRefining false);
        setRefining None ]
  | Failed _ =>
      [ onUi (updateStep "5" Error (Some "Refinement failed. Try again."));
        onUi (setIsRefining false);
        setRefining None ]
  end.

(** *** Events *)

(** What can happen to the component: an action of the user on a control
    the page offers, or the settling of something a handler awaits.
    [KeyDetected] stands for the mount effect [checkKey] and for
    [handleApiKeySelect], which both end in [setApiKeySet(true)].  The
    output format controls, and the effect that normalises the landing
    position, are covered by the free choice of [SetOutputType] and
    [SetLandingPos].  The environment of a service call (the API key and
    the backend) comes with the event that settles the call. *)
Inductive Event :=
| KeyDetected
| UploadActor (file : File)
| UploadRef (file : File)
| AnalysisSettled (n : nat) (e : Env)
| SetOutputType (o : OutputType)
| SetLandingPos (p : LandingPosition)
| SelectCleanPlate
| SelectLayoutText
| TypeCustomText (t : string)
| TypeRefinePrompt (t : string)
| ClickGenerate
| Timer1Fired
| Timer2Fired
| PosterSettled (e : Env)
| KeySelectionSettled (selected : bool)
| SubmitRefine
| RefineSettled (e : Env).

(** [disabled] of the generate button. *)
Definition generateDisabled (s : State) : bool :=
  negb (isFile (actorFile s)) || negb (isFile (refFile s))
  || isProcessing s || isRefining s.

(** The refinement bar is rendered under [generatedImage && !isProcessing]
    and its input is disabled while refining. *)
Definition refineBarActive (s : State) : bool :=
  truthy (generatedImage s) && negb (isProcessing s) && negb (isRefining s).

Definition guard {A : Type} (b : bool) (a : A) : option A :=
  if b then Some a else None.

(** The segment an event runs, [None] when the page does not offer the
    control (the main page is rendered under [apiKeySet]) or when nothing
    awaits the settling. *)
Definition segment (y : Sys) (ev : Event) : option (list (Sys -> Sys)) :=
  let s := ui y in
  match ev with
  | KeyDetected => Some [ onUi (setApiKeySet true) ]
  | UploadActor file => guard (apiKeySet s) (handleFileUpload_actor file)
  | UploadRef file => guard (apiKeySet s) (handleFileUpload_ref y file)
  | AnalysisSettled n e =>
      match nth_error (analyzing y) n with
      | Some file =>
          Some (handleAnalyze_settled
                  (outcome (backend e)
                     (analyzeImageStructure (API_KEY e) file))
                ++ [ setAnalyzing (removeNth n (analyzing y)) ])%list
      | None => None
      end
  | SetOutputType o => guard (apiKeySet s) [ onUi (setOutputType o) ]
  | SetLandingPos p => guard (apiKeySet s) [ onUi (setLandingPos p) ]
  | SelectCleanPlate =>
      guard (apiKeySet s)
        [ onUi (setPreserveText false); onUi (setCustomText EmptyString) ]
  | SelectLayoutText => guard (apiKeySet s) [ onUi (setPreserveText true) ]
  | TypeCustomText t =>
      guard (apiKeySet s && preserveText s) [ onUi (setCustomText t) ]
  | TypeRefinePrompt t =>
      guard (apiKeySet s && refineBarActive s) [ onUi (setRefinePrompt t) ]
  | ClickGenerate =>
      guard (apiKeySet s && negb (generateDisabled s))
        (handleGenerate_start y)
  | Timer1Fired =>
      match generating y with
      | AwaitTimer1 c => Some (handleGenerate_timer1 c)
      | _ => None
      end
  | Timer2Fired =>
      match generating y with
      | AwaitTimer2 c => Some (handleGenerate_timer2 c)
      | _ => None
      end
  | PosterSettled e =>
      match generating y with
      | AwaitPoster c =>
          Some (handleGenerate_settled y
                  (outcome (backend e) (posterCall e c)))
      | _ => None
      end
  | KeySelectionSettled selected =>
      match generating y with
      | AwaitKey => Some (handleGenerate_keySelected selected)
      | _ => None
      end
  | SubmitRefine =>
      guard (apiKeySet s && refineBarActive s) (handleRefine_start y)
  | RefineSettled e =>
      match refining y with
      | Some c =>
          Some (handleRefine_settled (outcome (backend e) (refineCall e c)))
      | None => None
      end
  end.

(** The states a segment goes through: after each of its updates. *)
Fixpoint through (us : list (Sys -> Sys)) (y : Sys) : list Sys :=
  match us with
  | [] => []
  | u :: rest => u y :: through rest (u y)
  end.

Definition applyAll (us : list (Sys -> Sys)) (y : Sys) : Sys :=
  fold_left (fun acc u => u acc) us y.

(** One event: the state once its segment has run. *)
Definition step (y : Sys) (ev : Event) : option Sys :=
  option_map (fun us => applyAll us y) (segment y ev).

(** A sequence of events, from a state. *)
Fixpoint runEvents (y : Sys) (evs : list Event) : option Sys :=
  match evs with
  | [] => Some y
  | ev :: rest =>
      match step y ev with
      | Some y' => runEvents y' rest
      | None => None
      end
  end.

(** The states between events that a run from the initial state reaches. *)
Definition reachable (y : Sys) : Prop :=
  exists ais evs, runEvents (initialSys ais) evs = Some y.

(** Every state the component is ever in: a reachable state, or a state
    inside a segment started from one. *)
Definition observable (y : Sys) : Prop :=
  reachable y \/
  exists y0 ev us, reachable y0 /\ segment y0 ev = Some us
                   /\ In y (through us y0).

(** *** The pipeline property *)

Definition statuses (y : Sys) : list Status := map status (steps (ui y)).

(** No stage is [Processing] while an earlier one is not [Completed]. *)
Definition leftToRight (l : list Status) : Prop :=
  forall i j, i < j -> nth_error l j = Some Processing ->
              nth_error l i = Some Completed.

(** A decision procedure for [leftToRight]: [allCompleted] tells whether
    every stage seen so far is [Completed]. *)
Definition isCompleted (s : Status) : bool :=
  match s with
  | Completed => true
  | _ => false
  end.

Fixpoint leftToRightFrom (allCompleted : bool) (l : list Status) : bool :=
  match l with
  | [] => true
  | s :: rest =>
      (match s with
       | Processing => allCompleted
       | _ => true
       end)
      && leftToRightFrom (allCompleted && isCompleted s) rest
  end.

Definition leftToRightb (l : list Status) : bool := leftToRightFrom true l.

(** *** The invariant of the states between events *)

Definition stepIds : list string := ["1"; "2"; "3"; "4"; "5"].

(** The statuses and flags that go with each suspended call. *)
Definition phaseInv (y : Sys) : Prop :=
  match generating y, refining y with
  | GenIdle, None =>
      isProcessing (ui y) = false /\ isRefining (ui y) = false /\
      ((exists s1, statuses y = [s1; Pending; Pending; Pending; Pending]
                   /\ (s1 = Pending \/ s1 = Completed)
                   /\ generatedImage (ui y) = None)
       \/ (exists s5, statuses y
                      = [Completed; Completed; Completed; Completed; s5]))
  | GenIdle, Some c =>
      isProcessing (ui y) = false /\ isRefining (ui y) = true /\
      statuses y = [Completed; Completed; Completed; Completed; Processing] /\
      generatedImage (ui y) = Some (r_generatedImage c)
  | AwaitTimer1 _, None =>
      isProcessing (ui y) = true /\ isRefining (ui y) = false /\
      statuses y = [Completed; Processing; Pending; Pending; Pending] /\
      generatedImage (ui y) = None
  | AwaitTimer2 _, None =>
      isProcessing (ui y) = true /\ isRefining (ui y) = false /\
      statuses y = [Completed; Completed; Processing; Pending; Pending] /\
      generatedImage (ui y) = None
  | AwaitPoster _, None | AwaitKey, None =>
      isProcessing (ui y) = true /\ isRefining (ui y) = false /\
      statuses y = [Completed; Completed; Completed; Completed; Processing] /\
      generatedImage (ui y) = None
  | _, Some _ => False
  end.

Definition Inv (y : Sys) : Prop :=
  map id (steps (ui y)) = stepIds /\
  (truthy (analysisText (ui y)) = true ->
   nth_error (statuses y) 0 = Some Completed) /\
  phaseInv y.

(** A segment is good when the pipeline is left to right after each of
    its updates and the invariant holds at its end. *)
Definition Good (y : Sys) (us : list (Sys -> Sys)) : Prop :=
  Forall (fun y' => leftToRight (statuses y')) (through us y)
  /\ Inv (applyAll us y).

(** [y'] has the first four stages of [y], and the ids and names of all. *)
Definition sameButLast (y y' : Sys) : Prop :=
  firstn 4 (steps (ui y')) = firstn 4 (steps (ui y)) /\
  map id (steps (ui y')) = map id (steps (ui y)) /\
  map name (steps (ui y')) = map name (steps (ui y)).

End App.

(** ** Concrete inputs *)

Module Examples.
Import Js GeminiService App.

Definition portrait : File :=
  {| type := "image/jpeg";
     readAsDataURL := Loaded "data:image/jpeg;base64,UE9SVFJBSVQ=" |}.

Definition poster : File :=
  {| type := "image/png";
     readAsDataURL := Loaded "data:image/png;base64,UE9TVEVS" |}.

(** A file of no bytes: its data URL ends at the comma. *)
Definition emptyImage : File :=
  {| type := "image/png"; readAsDataURL := Loaded "data:image/png;base64," |}.

Definition replyWith (ps : list Part) (t : option string) : Reply :=
  Resolved {| candidates := Some [ {| content := Some {| parts := Some ps |} |} ];
              responseText := t |}.

(** A backend that answers with a caption and a JPEG image. *)
Definition paintingEnv : Env :=
  {| API_KEY := Some "key";
     backend := fun _ =>
       replyWith [ textOnlyPart "Here is your poster.";
                   inlineDataPart (Some "image/jpeg") (Some "UkVOREVS") ]
                 (Some "Here is your poster.") |}.

(** A backend that answers with text only. *)
Definition refusingEnv : Env :=
  {| API_KEY := Some "key";
     backend := fun _ =>
       replyWith [ textOnlyPart "I cannot generate that image." ]
                 (Some "I cannot generate that image.") |}.

(** A backend whose call rejects. *)
Definition failingEnv : Env :=
  {| API_KEY := Some "key";
     backend := fun _ => Rejected (newError "503 Service Unavailable") |}.

(** The request of an identity transfer for a left-anchored web header. *)
Definition transferRequest : GenerateContentParameters :=
  Eval vm_compute in
    match composeRequest (Some "key") (Some portrait) (Some poster)
            "landing_hero" "left" None false EmptyString EmptyString with
    | Return (_, req) => req
    | _ => {| model := EmptyString; contents := []; imageConfig := None |}
    end.

Definition stateAfter (y : Sys) (evs : list Event) : Sys :=
  match runEvents y evs with
  | Some y' => y'
  | None => y
  end.

(** A first generation that succeeds. *)
Definition firstGeneration : list Event :=
  [ KeyDetected; UploadActor portrait; UploadRef poster;
    AnalysisSettled 0 paintingEnv;
    ClickGenerate; Timer1Fired; Timer2Fired; PosterSettled paintingEnv ].

Definition afterGeneration : Sys :=
  Eval vm_compute in stateAfter (initialSys false) firstGeneration.

(** A second generation, whose backend call fails. *)
Definition regenerating : Sys :=
  Eval vm_compute in stateAfter afterGeneration [ ClickGenerate ].

Definition awaitingPoster : Sys :=
  Eval vm_compute in stateAfter regenerating [ Timer1Fired; Timer2Fired ].

Definition afterFailedRegeneration : Sys :=
  Eval vm_compute in stateAfter awaitingPoster [ PosterSettled failingEnv ].

(** A refinement of the first artifact, whose backend call fails. *)
Definition refiningNow : Sys :=
  Eval vm_compute in
    stateAfter afterGeneration
      [ TypeRefinePrompt "Fix the index finger"; SubmitRefine ].

Definition afterFailedRefine : Sys :=
  Eval vm_compute in stateAfter refiningNow [ RefineSettled failingEnv ].

End Examples.

(** ** Notions of the further statements *)

Module Notions.
Import Js GeminiService App.

(** [s] holds no comma, as base64 text and MIME types do. *)
Fixpoint commaFree (s : string) : bool :=
  match s with
  | EmptyString => true
  | String c rest => negb (Ascii.eqb c ","%char) && commaFree rest
  end.

(** The names of the five stages of [App.tsx]. *)
Definition stageNames : list string :=
  [ "Segmentation Engine"; "Hero Replacement"; "Relighting & Texture";
    "Identity Blocker"; "Final 4K Render" ].

(** [y'] has the stages of [y], by id and by name. *)
Definition sameStages (y y' : Sys) : Prop :=
  map id (steps (ui y')) = map id (steps (ui y)) /\
  map name (steps (ui y')) = map name (steps (ui y)).

(** The details of the stage at position [n]. *)
Definition detailsAt (n : nat) (y : Sys) : option string :=
  match nth_error (steps (ui y)) n with
  | Some s => details s
  | None => None
  end.

(** What a suspended [handleGenerate] has captured, if it has yet to
    call [generateFinalPoster]. *)
Definition closureOf (g : GenPhase) : option GenClosure :=
  match g with
  | AwaitTimer1 c | AwaitTimer2 c | AwaitPoster c => Some c
  | GenIdle | AwaitKey => None
  end.

(** In clean plate mode no custom text is held, in the state and in
    what a running generation has captured. *)
Definition cleanPlateOk (y : Sys) : Prop :=
  (preserveText (ui y) = false -> customText (ui y) = EmptyString) /\
  (forall c, closureOf (generating y) = Some c ->
             g_preserveText c = false -> g_customText c = EmptyString).

End Notions.

(** ** The landing page controls ([App.tsx]) *)

Module Landing.
Import Js GeminiService.
Import App (OutputType, AD_FEED, AD_STORIES, LANDING_HERO, LANDING_MOBILE,
            THUMBNAIL, LandingPosition, LEFT, CENTER, RIGHT, TOP, BOTTOM,
            outputTypeValue, landingPositionValue).

(** ['desktop' | 'mobile']. *)
Inductive LandingDevice := desktop | mobile.

(** The three [useState] cells the output format controls write. *)
Record Config :=
  { outputType : OutputType;
    landingPos : LandingPosition;
    landingDevice : LandingDevice }.

Definition initialConfig : Config :=
  {| outputType := AD_FEED; landingPos := CENTER; landingDevice := desktop |}.

Definition setOutputType (v : OutputType) (c : Config) : Config :=
  {| outputType := v; landingPos := landingPos c;
     landingDevice := landingDevice c |}.

Definition setLandingPos (v : LandingPosition) (c : Config) : Config :=
  {| outputType := outputType c; landingPos := v;
     landingDevice := landingDevice c |}.

Definition setLandingDevice (v : LandingDevice) (c : Config) : Config :=
  {| outputType := outputType c; landingPos := landingPos c;
     landingDevice := v |}.

(** [outputType === LANDING_HERO || outputType === LANDING_MOBILE]. *)
Definition isLanding (o : OutputType) : bool :=
  match o with
  | LANDING_HERO | LANDING_MOBILE => true
  | _ => false
  end.

(** The effect "Update OutputType based on device selection when in
    Landing mode": the updates it queues, read from the rendered state. *)
Definition landingEffect (c : Config) : list (Config -> Config) :=
  if isLanding (outputType c) then
    match landingDevice c with
    | desktop =>
        setOutputType LANDING_HERO
        :: match landingPos c with
           | TOP | BOTTOM => [ setLandingPos CENTER ]
           | _ => []
           end
    | mobile =>
        setOutputType LANDING_MOBILE
        :: match landingPos c with
           | LEFT | RIGHT | CENTER => [ setLandingPos TOP ]
           | _ => []
           end
    end
  else [].

Definition applyUpdates (us : list (Config -> Config)) (c : Config) : Config :=
  fold_left (fun acc u => u acc) us c.

(** One run of the effect. *)
Definition afterEffect (c : Config) : Config :=
  applyUpdates (landingEffect c) c.

(** The clicks the page offers: the four format buttons, and, in landing
    mode, the device toggle and the position buttons of the device. *)
Inductive Click :=
| ClickFormat (o : OutputType)
| ClickDevice (d : LandingDevice)
| ClickPosition (p : LandingPosition).

Definition offersPosition (d : LandingDevice) (p : LandingPosition) : bool :=
  match d, p with
  | desktop, (LEFT | CENTER | RIGHT) => true
  | mobile, (TOP | BOTTOM) => true
  | _, _ => false
  end.

Definition onClick (c : Config) (k : Click) : option (list (Config -> Config)) :=
  match k with
  | ClickFormat LANDING_MOBILE => None
  | ClickFormat o => Some [ setOutputType o; setLandingDevice desktop ]
  | ClickDevice d =>
      if isLanding (outputType c) then Some [ setLandingDevice d ] else None
  | ClickPosition p =>
      if isLanding (outputType c) && offersPosition (landingDevice c) p
      then Some [ setLandingPos p ] else None
  end.

(** A click, then the effect of the render that follows. *)
Definition click (c : Config) (k : Click) : option Config :=
  option_map (fun us => afterEffect (applyUpdates us c)) (onClick c k).

Fixpoint clicks (c : Config) (ks : list Click) : option Config :=
  match ks with
  | [] => Some c
  | k :: rest =>
      match click c k with
      | Some c' => clicks c' rest
      | None => None
      end
  end.

Definition reachable (c : Config) : Prop :=
  exists ks, clicks initialConfig ks = Some c.

(** The positions that go with each landing format, and the device. *)
Definition consistent (c : Config) : bool :=
  match outputType c, landingDevice c, landingPos c with
  | LANDING_HERO, desktop, (LEFT | CENTER | RIGHT) => true
  | LANDING_MOBILE, mobile, (TOP | BOTTOM) => true
  | (LANDING_HERO | LANDING_MOBILE), _, _ => false
  | _, desktop, _ => true
  | _, mobile, _ => false
  end.

End Landing.

(** ** The assistant ([sendChatMessage], [components/ChatAssistant.tsx]) *)

Module ChatAssistant.
Import Js GeminiService.

(** ['user' | 'model']. *)
Inductive Role := RoleUser | RoleModel.

Definition roleValue (r : Role) : string :=
  match r with
  | RoleUser => "user"
  | RoleModel => "model"
  end.

(** [interface Message]. *)
Record Message := { role : Role; text : string }.

(** An entry of the history given to [ai.chats.create]. *)
Record ChatContent := { contentRole : Role; contentParts : list Part }.

(** What one exchange hands to the chat backend: the arguments of
    [ai.chats.create] and of [chat.sendMessage]. *)
Record ChatParameters :=
  { chatModel : string;
    history : list ChatContent;
    systemInstruction : string;
    newMessage : string }.

(** How [chat.sendMessage] settles; [responseText] is the value of the
    [text] accessor of the response. *)
Inductive ChatReply :=
| ChatResolved (responseText : option string)
| ChatRejected (error : Thrown).

(** [sendChatMessage] throws before its call, or makes its one call and
    settles on the reply. *)
Inductive ChatProg :=
| ChatThrow (e : Thrown)
| ChatAwait (call : ChatParameters) (k : ChatReply -> Outcome string).

Definition sendChatMessage (API_KEY : option string)
  (history : list Message) (newMessage : string) : ChatProg :=
  match getAiClient API_KEY with
  | Throw e => ChatThrow e
  | _ =>
      ChatAwait
        {| chatModel := "gemini-3-pro-preview";
           history :=
             map (fun h => {| contentRole := role h;
                              contentParts := [ textOnlyPart (text h) ] |})
                 history;
           systemInstruction := "You are a helper for CineMorph SaaS.";
           newMessage := newMessage |}
        (fun r =>
           match r with
           | ChatResolved responseText =>
               Fulfilled (orElse responseText "I couldn't generate a response.")
           | ChatRejected error => Failed error
           end)
  end.

Definition runChat (backend : ChatParameters -> ChatReply) (p : ChatProg)
  : list ChatParameters * Outcome string :=
  match p with
  | ChatThrow e => ([], Failed e)
  | ChatAwait call k => ([call], k (backend call))
  end.

(** The [useState] cells of [ChatAssistant]. *)
Record State :=
  { isOpen : bool;
    messages : list Message;
    input : string;
    isLoading : bool }.

Definition greeting : Message :=
  {| role := RoleModel;
     text := "Hello! I am your CineMorph assistant. Ask me anything about creating movie posters or using the platform." |}.

Definition apology : Message :=
  {| role := RoleModel;
     text := "Sorry, I encountered an error. Please check your API key." |}.

Definition initialState : State :=
  {| isOpen := false; messages := [ greeting ]; input := EmptyString;
     isLoading := false |}.

Definition setIsOpen (v : bool) (s : State) : State :=
  {| isOpen := v; messages := messages s; input := input s;
     isLoading := isLoading s |}.

(** [setMessages(prev => f prev)]. *)
Definition setMessages (f : list Message -> list Message) (s : State) : State :=
  {| isOpen := isOpen s; messages := f (messages s); input := input s;
     isLoading := isLoading s |}.

Definition setInput (v : string) (s : State) : State :=
  {| isOpen := isOpen s; messages := messages s; input := v;
     isLoading := isLoading s |}.

Definition setIsLoading (v : bool) (s : State) : State :=
  {| isOpen := isOpen s; messages := messages s; input := input s;
     isLoading := v |}.

(** [prev => [...prev, m]]. *)
Definition push (m : Message) (prev : list Message) : list Message :=
  (prev ++ [ m ])%list.

(** The component and, while [handleSend] awaits, the two arguments it
    gave to [sendChatMessage]: the messages of its closure and the text
    typed. *)
Record Sys :=
  { ui : State;
    sending : option (list Message * string) }.

Definition onUi (f : State -> State) (y : Sys) : Sys :=
  {| ui := f (ui y); sending := sending y |}.

Definition setSending (v : option (list Message * string)) (y : Sys) : Sys :=
  {| ui := ui y; sending := v |}.

Definition initialSys : Sys := {| ui := initialState; sending := None |}.

Record Env :=
  { API_KEY : option string;
    backend : ChatParameters -> ChatReply }.

(** [handleSend], up to its [await]. *)
Definition handleSend_start (y : Sys) : list (Sys -> Sys) :=
  let s := ui y in
  if negb (truthyStr (trim (input s))) || isLoading s then []
  else
    let userMsg := input s in
    [ onUi (setInput EmptyString);
      onUi (setMessages (push {| role := RoleUser; text := userMsg |}));
      onUi (setIsLoading true);
      setSending (Some (messages s, userMsg)) ].

(** [handleSend], once [sendChatMessage] has settled. *)
Definition handleSend_settled (o : Outcome string) : list (Sys -> Sys) :=
  (match o with
   | Fulfilled responseText =>
       [ onUi (setMessages (push {| role := RoleModel;
                                    text := responseText |})) ]
   | Failed _ => [ onUi (setMessages (push apology)) ]
   end
   ++ [ onUi (setIsLoading false); setSending None ])%list.

Inductive Event :=
| OpenChat
| CloseChat
| TypeInput (t : string)
| Send
| ReplySettled (e : Env).

Definition guard {A : Type} (b : bool) (a : A) : option A :=
  if b then Some a else None.

(** The segment an event runs: the open button shows while the panel is
    closed; the close button, the input and the send controls are in the
    panel. *)
Definition segment (y : Sys) (ev : Event) : option (list (Sys -> Sys)) :=
  let s := ui y in
  match ev with
  | OpenChat => guard (negb (isOpen s)) [ onUi (setIsOpen true) ]
  | CloseChat => guard (isOpen s) [ onUi (setIsOpen false) ]
  | TypeInput t => guard (isOpen s) [ onUi (setInput t) ]
  | Send => guard (isOpen s) (handleSend_start y)
  | ReplySettled e =>
      match sending y with
      | Some (closureMessages, userMsg) =>
          Some (handleSend_settled
                  (snd (runChat (backend e)
                          (sendChatMessage (API_KEY e) closureMessages
                             userMsg))))
      | None => None
      end
  end.

Definition applyAll (us : list (Sys -> Sys)) (y : Sys) : Sys :=
  fold_left (fun acc u => u acc) us y.

Definition step (y : Sys) (ev : Event) : option Sys :=
  option_map (fun us => applyAll us y) (segment y ev).

Fixpoint runEvents (y : Sys) (evs : list Event) : option Sys :=
  match evs with
  | [] => Some y
  | ev :: rest =>
      match step y ev with
      | Some y' => runEvents y' rest
      | None => None
      end
  end.

Definition reachable (y : Sys) : Prop :=
  exists evs, runEvents initialSys evs = Some y.

(** A conversation: a message of the model, then pairs of a message of
    the user and a message of the model. *)
Fixpoint conversation (l : list Message) : bool :=
  match l with
  | [] => false
  | m :: rest =>
      match role m, rest with
      | RoleModel, [] => true
      | RoleModel, u :: rest' =>
          match role u with
          | RoleUser => conversation rest'
          | RoleModel => false
          end
      | RoleUser, _ => false
      end
  end.

Definition chatInv (y : Sys) : Prop :=
  match sending y with
  | None => isLoading (ui y) = false /\ conversation (messages (ui y)) = true
  | Some (h, m) =>
      isLoading (ui y) = true /\ conversation h = true /\
      messages (ui y) = (h ++ [ {| role := RoleUser; text := m |} ])%list /\
      truthyStr (trim m) = true
  end.

End ChatAssistant.

(** ** Further concrete inputs *)

Module MoreExamples.
Import Js GeminiService App Examples.

(** The response of [paintingEnv]: a caption, then a JPEG image. *)
Definition paintingResponse : GenerateContentResponse :=
  {| candidates :=
       Some [ {| content :=
                   Some {| parts :=
                             Some [ textOnlyPart "Here is your poster.";
                                    inlineDataPart (Some "image/jpeg")
                                      (Some "UkVOREVS") ] |} |} ];
     responseText := Some "Here is your poster." |}.

(** The request of a guided reimagination of the poster. *)
Definition reimaginationRequest : GenerateContentParameters :=
  Eval vm_compute in
    match composeRequest (Some "key") None (Some poster) "thumbnail" "center"
            (Some "85mm, key light at ten") false EmptyString
            "make it a winter scene" with
    | Return (_, req) => req
    | _ => {| model := EmptyString; contents := []; imageConfig := None |}
    end.

(** The request of the page for [portrait] and [poster], the reference
    analysed. *)
Definition analysedRequest : GenerateContentParameters :=
  Eval vm_compute in
    match composeRequest (Some "key") (Some portrait) (Some poster)
            "ad_feed" "center" (Some "Here is your poster.") false
            EmptyString EmptyString with
    | Return (_, req) => req
    | _ => {| model := EmptyString; contents := []; imageConfig := None |}
    end.

(** The page once both files are chosen, once the reference is analysed,
    and once the timers of a generation have fired. *)
Definition uploaded : Sys :=
  Eval vm_compute in
    stateAfter (initialSys false)
      [ KeyDetected; UploadActor portrait; UploadRef poster ].

Definition analysed : Sys :=
  Eval vm_compute in
    stateAfter uploaded [ AnalysisSettled 0 paintingEnv ].

Definition firstAwaitingPoster : Sys :=
  Eval vm_compute in
    stateAfter analysed [ ClickGenerate; Timer1Fired; Timer2Fired ].

(** What [handleGenerate] has captured in [firstAwaitingPoster]. *)
Definition firstClosure : GenClosure :=
  {| g_actorFile := portrait; g_refFile := poster;
     g_outputType := AD_FEED; g_landingPos := CENTER;
     g_analysisText := Some "Here is your poster.";
     g_preserveText := false; g_customText := EmptyString |}.

End MoreExamples.

(** ** A conversation with the assistant *)

Module ChatExamples.
Import Js GeminiService ChatAssistant.

Definition helpfulEnv : Env :=
  {| API_KEY := Some "key";
     backend := fun _ => ChatResolved (Some "Upload a portrait and a poster.") |}.

Definition question : Message :=
  {| role := RoleUser; text := "How do I start?" |}.

(** The question is sent, then answered. *)
Definition asked : Sys :=
  Eval vm_compute in
    match runEvents initialSys
            [ OpenChat; TypeInput "How do I start?"; Send ] with
    | Some y => y
    | None => initialSys
    end.

Definition answered : Sys :=
  Eval vm_compute in
    match step asked (ReplySettled helpfulEnv) with
    | Some y => y
    | None => asked
    end.

End ChatExamples.

Import Js GeminiService App Examples.

(** * Properties of the service *)

(** ** Strings *)

Lemma prefix_append (p s : string) : String.prefix p (p ++ s) = true.
Proof.
  induction p as [|c p IH]; simpl.
  - destruct s; reflexivity.
  - destruct (Ascii.ascii_dec c c) as [_|n]; [exact IH | contradiction].
Qed.

Lemma includes_append_r (p a s : string) :
  includes p s = true -> includes p (a ++ s) = true.
Proof.
  intro H. induction a as [|c a IH]; simpl.
  - exact H.
  - rewrite IH. apply orb_true_r.
Qed.

Lemma includes_here (p s : string) : includes p (p ++ s) = true.
Proof.
  assert (U : forall x, String.prefix p x = true -> includes p x = true).
  { intros x E. destruct x; cbn [includes]; rewrite E; reflexivity. }
  apply U, prefix_append.
Qed.

Lemma includes_renderInstruction (t : string) :
  includes t (renderInstruction t) = true.
Proof.
  unfold renderInstruction.
  apply includes_append_r. apply includes_append_r. apply includes_here.
Qed.

(** The test [customText && customText.trim().length > 0] is decided by
    its second half. *)
Lemma trim_test (t : string) :
  truthyStr t && (0 <? String.length (trim t))%nat
  = (0 <? String.length (trim t))%nat.
Proof.
  destruct t; reflexivity.
Qed.

Lemma eqb_false_of_not_in (x : string) (l : list string) :
  ~ In x l -> forall y, In y l -> (x =? y) = false.
Proof.
  intros H y Hy. apply String.eqb_neq. intros ->. exact (H Hy).
Qed.

(** ** The shape of the two service calls *)

(** Reading a response never awaits, and throws only errors whose message
    is not empty, so the [catch] rethrows them unchanged. *)
Lemma readGenerated_settles (response : GenerateContentResponse) :
  (exists url, readGenerated response = Return url) \/
  (exists c m, readGenerated response = Throw (newError (String c m))).
Proof.
  unfold readGenerated.
  destruct (firstCandidateParts response) as [ps|];
    [|right; eexists _, _; reflexivity].
  destruct (firstImage ps) as [d|]; [left; eexists; reflexivity|].
  right.
  destruct (findText ps) as [tp|]; [|eexists _, _; reflexivity].
  destruct (text tp) as [[|c t]|]; eexists _, _; reflexivity.
Qed.

Lemma readRefined_settles (response : GenerateContentResponse) :
  (exists url, readRefined response = Return url) \/
  (exists c m, readRefined response = Throw (newError (String c m))).
Proof.
  unfold readRefined.
  destruct (firstCandidateParts response) as [ps|];
    [|right; eexists _, _; reflexivity].
  destruct (firstImage ps) as [d|]; [left; eexists; reflexivity|].
  right. eexists _, _; reflexivity.
Qed.

(** Composing a request makes no call: it returns or throws. *)
Lemma composeRequest_settles key af rf ot lp ac pt ct cp :
  (exists v, composeRequest key af rf ot lp ac pt ct cp = Return v) \/
  (exists e, composeRequest key af rf ot lp ac pt ct cp = Throw e).
Proof.
  unfold composeRequest, getAiClient.
  destruct (truthy key); simpl; [|right; eexists; reflexivity].
  assert (P : forall f, (exists b, prepareInput f = Return b)
                        \/ (exists e, prepareInput f = Throw e)).
  { intros [file|]; simpl; [|left; eexists; reflexivity].
    unfold fileToBase64. destruct (readAsDataURL file);
      [left|right]; eexists; reflexivity. }
  destruct (P af) as [[ab Ea]|[e Ea]]; rewrite Ea; simpl;
    [|right; eexists; reflexivity].
  destruct (P rf) as [[rb Er]|[e Er]]; rewrite Er; simpl;
    [|right; eexists; reflexivity].
  destruct (prepareFormat ot lp) as [ar fi].
  unfold buildScenario.
  repeat match goal with
         | |- context [if ?b then _ else _] => destruct b
         end; simpl; solve [left; eexists; reflexivity
                           | right; eexists; reflexivity].
Qed.

(** What a composed request is made of. *)
Lemma composeRequest_inv key af rf ot lp ac pt ct cp sc req :
  composeRequest key af rf ot lp ac pt ct cp = Return (sc, req) ->
  exists ab rb c,
    truthy key = true /\
    prepareInput af = Return ab /\
    prepareInput rf = Return rb /\
    buildScenario af ab rf rb (snd (prepareFormat ot lp)) ac cp
      (prepareText pt ct) = Return c /\
    sc = scenario c /\
    req = {| model := "gemini-3-pro-image-preview";
             contents := (mediaParts c ++ [textOnlyPart (systemPrompt c)])%list;
             imageConfig :=
               Some {| aspectRatio := fst (prepareFormat ot lp);
                       imageSize := "4K" |} |}.
Proof.
  unfold composeRequest, getAiClient.
  destruct (truthy key); [|discriminate]. cbn [bind].
  destruct (prepareInput af) as [ab|e|? ?]; cbn [bind]; try discriminate.
  destruct (prepareInput rf) as [rb|e|? ?] eqn:Er; cbn [bind];
    try discriminate.
  destruct (prepareFormat ot lp) as [ar fi]. cbn [fst snd].
  destruct (buildScenario af ab rf rb fi ac cp (prepareText pt ct))
    as [c|e|? ?] eqn:Eb; cbn [bind]; try discriminate.
  intro H. injection H as <- <-.
  exists ab, rb, c. repeat split; try assumption; reflexivity.
Qed.

(** [generateFinalPoster] after its composition: a thrown composition is
    thrown before any call; a composed request is the one request sent,
    and the outcome follows the reply. *)
Lemma generateFinalPoster_run key af rf ot lp ac pt ct cp backend :
  (forall e, composeRequest key af rf ot lp ac pt ct cp = Throw e ->
     generateFinalPoster key af rf ot lp ac pt ct cp = Throw e) /\
  (forall sc req,
     composeRequest key af rf ot lp ac pt ct cp = Return (sc, req) ->
     requests backend (generateFinalPoster key af rf ot lp ac pt ct cp)
     = [req] /\
     (forall e, backend req = Rejected e ->
        outcome backend (generateFinalPoster key af rf ot lp ac pt ct cp)
        = Failed (newError (orElse (message e) "Failed to generate poster."))) /\
     (forall response, backend req = Resolved response ->
        (forall url, readGenerated response = Return url ->
           outcome backend (generateFinalPoster key af rf ot lp ac pt ct cp)
           = Fulfilled url) /\
        (forall e, readGenerated response = Throw e ->
           outcome backend (generateFinalPoster key af rf ot lp ac pt ct cp)
           = Failed e))).
Proof.
  unfold generateFinalPoster, requests, outcome. split.
  - intros e H. rewrite H. reflexivity.
  - intros sc req H. rewrite H. simpl.
    destruct (backend req) as [response|e] eqn:B; simpl.
    + split; [|split].
      * destruct (readGenerated_settles response) as [[url E]|[c [m E]]];
          rewrite E; reflexivity.
      * intros e He. discriminate He.
      * intros r Hr. injection Hr as <-.
        destruct (readGenerated_settles response) as [[url E]|[c [m E]]];
          rewrite E; simpl; split; intros x Hx;
          solve [discriminate Hx | injection Hx as <-; reflexivity].
    + split; [reflexivity|split].
      * intros e' He. injection He as <-. reflexivity.
      * intros r Hr. discriminate Hr.
Qed.

(** A request sent by [generateFinalPoster] is a composed one. *)
Lemma requests_generateFinalPoster key af rf ot lp ac pt ct cp backend req :
  In req (requests backend (generateFinalPoster key af rf ot lp ac pt ct cp)) ->
  exists sc, composeRequest key af rf ot lp ac pt ct cp = Return (sc, req).
Proof.
  intro H.
  destruct (composeRequest_settles key af rf ot lp ac pt ct cp)
    as [[[sc req'] E]|[e E]].
  - destruct (generateFinalPoster_run key af rf ot lp ac pt ct cp backend)
      as [_ R]. destruct (R _ _ E) as [Q _]. rewrite Q in H.
    destruct H as [<-|[]]. exists sc. exact E.
  - destruct (generateFinalPoster_run key af rf ot lp ac pt ct cp backend)
      as [T _]. rewrite (T _ E) in H. destruct H.
Qed.

(** [refinePoster] under a credential: its one request and its outcome. *)
Lemma refinePoster_run key img prompt ot backend :
  truthy key = true ->
  exists req,
    req = {| model := "gemini-3-pro-image-preview";
             contents :=
               [ inlineDataPart (Some "image/png")
                   (nth_error (split ","%char img) 1);
                 textOnlyPart (retouchPrompt prompt (refineAspectRatio ot)) ];
             imageConfig :=
               Some {| aspectRatio := refineAspectRatio ot;
                       imageSize := "4K" |} |} /\
    requests backend (refinePoster key img prompt ot) = [req] /\
    (forall e, backend req = Rejected e ->
       outcome backend (refinePoster key img prompt ot)
       = Failed (newError (orElse (message e) "Failed to refine image."))) /\
    (forall response, backend req = Resolved response ->
       (forall url, readRefined response = Return url ->
          outcome backend (refinePoster key img prompt ot) = Fulfilled url) /\
       (forall e, readRefined response = Throw e ->
          outcome backend (refinePoster key img prompt ot) = Failed e)).
Proof.
  intro Hk. eexists. split; [reflexivity|].
  unfold refinePoster, getAiClient, requests, outcome. rewrite Hk.
  cbn [bind generateContent tryCatch run].
  match goal with
  | |- context [backend ?r] => generalize r; intro req
  end.
  destruct (backend req) as [response|e] eqn:B; cbn [bind tryCatch].
  - split; [|split].
    + destruct (readRefined_settles response) as [[url E]|[c [m E]]];
        rewrite E; reflexivity.
    + intros e He. discriminate He.
    + intros r Hr. injection Hr as <-.
      destruct (readRefined_settles response) as [[url E]|[c [m E]]];
        rewrite E; simpl; split; intros x Hx;
        solve [discriminate Hx | injection Hx as <-; reflexivity].
  - split; [reflexivity|split].
    + intros e' He. injection He as <-. reflexivity.
    + intros r Hr. discriminate Hr.
Qed.

(** ** Scenario selection *)

Lemma encodes_prepareInput (f : option File) :
  encodes f = true ->
  exists b, prepareInput f = Return b /\ truthy b = isFile f.
Proof.
  destruct f as [file|]; simpl.
  - unfold fileToBase64. destruct (readAsDataURL file); [|discriminate].
    intro H. eexists. split; [reflexivity | exact H].
  - intros _. exists None. split; reflexivity.
Qed.

(** The composition under a credential and encodable images: invalid when
    the three inputs are absent, else the scenario of the presences. *)
Lemma composeRequest_by_presence key af rf ot lp ac pt ct cp :
  truthy key = true -> encodes af = true -> encodes rf = true ->
  if negb (isFile af) && negb (isFile rf) && negb (truthyStr cp)
  then composeRequest key af rf ot lp ac pt ct cp
       = Throw (newError invalidInput)
  else exists req,
         composeRequest key af rf ot lp ac pt ct cp
         = Return (scenarioFor (isFile af) (isFile rf), req).
Proof.
  intros Hk Ha Hr.
  destruct (encodes_prepareInput af Ha) as [ab [Ea Ta]].
  destruct (encodes_prepareInput rf Hr) as [rb [Er Tr]].
  unfold composeRequest, getAiClient. rewrite Hk. cbn [bind].
  rewrite Ea, Er. cbn [bind].
  destruct (prepareFormat ot lp) as [ar fi].
  unfold buildScenario. rewrite Ta, Tr.
  destruct (isFile af), (isFile rf), (truthyStr cp); cbn;
    solve [reflexivity | eexists; reflexivity].
Qed.

(** C1, as amended.  Under a configured credential, and when every
    supplied image encodes to a non-empty payload, [generateFinalPoster]
    selects the one scenario that the presence of the subject and of the
    reference assigns, and sends one request; when the subject, the
    reference and the brief are all absent it throws the invalid-input
    error as a program that awaits nothing, so no request is sent. *)
Theorem scenario_selected_by_presence :
  forall key actorFile referenceFile outputType landingPosition
         analysisContext preserveText customText creativePrompt,
    truthy key = true ->
    encodes actorFile = true ->
    encodes referenceFile = true ->
    if negb (isFile actorFile) && negb (isFile referenceFile)
       && negb (truthyStr creativePrompt)
    then
      generateFinalPoster key actorFile referenceFile outputType
        landingPosition analysisContext preserveText customText
        creativePrompt
      = Throw (newError invalidInput)
      /\ forall backend,
           requests backend
             (generateFinalPoster key actorFile referenceFile outputType
                landingPosition analysisContext preserveText customText
                creativePrompt)
           = []
    else
      exists req,
        composeRequest key actorFile referenceFile outputType
          landingPosition analysisContext preserveText customText
          creativePrompt
        = Return (scenarioFor (isFile actorFile) (isFile referenceFile), req)
        /\ forall backend,
             requests backend
               (generateFinalPoster key actorFile referenceFile outputType
                  landingPosition analysisContext preserveText customText
                  creativePrompt)
             = [req].
Proof.
  intros key af rf ot lp ac pt ct cp Hk Ha Hr.
  pose proof (composeRequest_by_presence key af rf ot lp ac pt ct cp Hk Ha Hr)
    as C.
  destruct (negb (isFile af) && negb (isFile rf) && negb (truthyStr cp)).
  - apply (generateFinalPoster_run key af rf ot lp ac pt ct cp
             (fun _ => Rejected (newError EmptyString))) in C.
    split; [exact C|]. intro backend. rewrite C. reflexivity.
  - destruct C as [req C]. exists req. split; [exact C|].
    intro backend.
    apply (generateFinalPoster_run key af rf ot lp ac pt ct cp backend) in C.
    apply C.
Qed.

Lemma scenario_selected_by_presence_witness :
  exists req,
    composeRequest (Some "key") None (Some poster) "thumbnail" "center"
      None false EmptyString "make it a winter scene"
    = Return (GuidedReimagination, req)
    /\ forall backend,
         requests backend
           (generateFinalPoster (Some "key") None (Some poster) "thumbnail"
              "center" None false EmptyString "make it a winter scene")
         = [req].
Proof.
  exact (scenario_selected_by_presence (Some "key") None (Some poster)
           "thumbnail" "center" None false EmptyString
           "make it a winter scene" eq_refl eq_refl eq_refl).
Defined.

(** C1, counterexample.  A subject image of no bytes is supplied together
    with a brief, under a credential: the three inputs are not all
    absent, and yet the call throws the invalid-input error.  And with
    the three inputs absent but no credential, the error thrown is the
    one of [getAiClient], not the invalid-input error. *)
Lemma empty_subject_with_brief_is_rejected :
  (isFile (Some emptyImage) = true /\
   truthyStr "a castle at dusk" = true /\
   generateFinalPoster (Some "key") (Some emptyImage) None "ad_feed" "center"
     None false EmptyString "a castle at dusk"
   = Throw (newError invalidInput)) /\
  generateFinalPoster None None None "ad_feed" "center"
    None false EmptyString EmptyString
  = Throw (newError "API Key not found. Please select an API Key.").
Proof.
  repeat split.
Qed.

(** When the credential is there and both reads succeed, the invalid-input
    error is thrown exactly when a supplied image has a falsy payload or
    when the three inputs are absent. *)
Lemma invalid_input_exactly_when key af rf ot lp ac pt ct cp ab rb :
  truthy key = true ->
  prepareInput af = Return ab ->
  prepareInput rf = Return rb ->
  (composeRequest key af rf ot lp ac pt ct cp = Throw (newError invalidInput)
   <->
   isFile af && negb (truthy ab)
   || isFile rf && negb (truthy rb)
   || negb (isFile af) && negb (isFile rf) && negb (truthyStr cp) = true).
Proof.
  intros Hk Ea Er.
  unfold composeRequest, getAiClient. rewrite Hk. cbn [bind].
  rewrite Ea, Er. cbn [bind].
  destruct (prepareFormat ot lp) as [ar fi].
  unfold buildScenario.
  destruct (isFile af), (truthy ab), (isFile rf), (truthy rb),
    (truthyStr cp); cbn; split; intro H;
    solve [reflexivity | discriminate H].
Qed.

(** ** Identity transfer *)

Lemma buildScenario_identity af ab rf rb fi ac cp ti c :
  buildScenario af ab rf rb fi ac cp ti = Return c ->
  scenario c = IdentityTransfer ->
  exists actor reference a b,
    af = Some actor /\ rf = Some reference /\
    ab = Some a /\ rb = Some b /\
    mediaParts c = [ inlineDataPart (Some (type reference)) (Some b);
                     inlineDataPart (Some (type actor)) (Some a) ] /\
    systemPrompt c = identityTransferPrompt fi ac cp ti.
Proof.
  unfold buildScenario.
  destruct af as [actor|], rf as [reference|], ab as [a|], rb as [b|];
    cbn [isFile truthy negb andb];
    repeat match goal with
           | |- context [truthyStr ?x] => destruct (truthyStr x)
           end; cbn [andb];
    intros H S; try discriminate H; injection H as <-;
    try discriminate S.
  exists actor, reference, a, b. repeat split.
Qed.

(** C2.  Whenever the composition selects the identity transfer, both
    images are present and the request lists the reference image, then
    the subject image, then the one instruction text, and this is the
    request the call sends. *)
Theorem identity_transfer_reference_first :
  forall key actorFile referenceFile outputType landingPosition
         analysisContext preserveText customText creativePrompt req,
    composeRequest key actorFile referenceFile outputType landingPosition
      analysisContext preserveText customText creativePrompt
    = Return (IdentityTransfer, req) ->
    exists actor reference actorBase64 referenceBase64,
      actorFile = Some actor /\ referenceFile = Some reference /\
      fileToBase64 actor = Return (Some actorBase64) /\
      fileToBase64 reference = Return (Some referenceBase64) /\
      contents req =
        [ inlineDataPart (Some (type reference)) (Some referenceBase64);
          inlineDataPart (Some (type actor)) (Some actorBase64);
          textOnlyPart
            (identityTransferPrompt
               (snd (prepareFormat outputType landingPosition))
               analysisContext creativePrompt
               (prepareText preserveText customText)) ] /\
      forall backend,
        requests backend
          (generateFinalPoster key actorFile referenceFile outputType
             landingPosition analysisContext preserveText customText
             creativePrompt)
        = [req].
Proof.
  intros key af rf ot lp ac pt ct cp req H.
  destruct (composeRequest_inv _ _ _ _ _ _ _ _ _ _ _ H)
    as [ab [rb [c [Hk [Ea [Er [Eb [Es Ereq]]]]]]]].
  destruct (buildScenario_identity _ _ _ _ _ _ _ _ _ Eb (eq_sym Es))
    as [actor [reference [a [b [-> [-> [-> [-> [Em Ep]]]]]]]]].
  exists actor, reference, a, b.
  split; [reflexivity|]. split; [reflexivity|].
  split; [exact Ea|]. split; [exact Er|]. split.
  - subst req. cbn [contents]. rewrite Em, Ep. reflexivity.
  - intro backend.
    apply (generateFinalPoster_run key (Some actor) (Some reference)
             ot lp ac pt ct cp backend) in H.
    apply H.
Qed.

Lemma identity_transfer_reference_first_witness :
  exists actor reference actorBase64 referenceBase64,
    Some portrait = Some actor /\ Some poster = Some reference /\
    fileToBase64 actor = Return (Some actorBase64) /\
    fileToBase64 reference = Return (Some referenceBase64) /\
    contents transferRequest =
      [ inlineDataPart (Some (type reference)) (Some referenceBase64);
        inlineDataPart (Some (type actor)) (Some actorBase64);
        textOnlyPart
          (identityTransferPrompt (snd (prepareFormat "landing_hero" "left"))
             None EmptyString (prepareText false EmptyString)) ] /\
    forall backend,
      requests backend
        (generateFinalPoster (Some "key") (Some portrait) (Some poster)
           "landing_hero" "left" None false EmptyString EmptyString)
      = [transferRequest].
Proof.
  exact (identity_transfer_reference_first (Some "key") (Some portrait)
           (Some poster) "landing_hero" "left" None false EmptyString
           EmptyString transferRequest eq_refl).
Defined.

(** ** Text overlay *)

(** C3, counterexample.  With [preserveText = false] a custom text still
    yields the render instruction, not the clean one; with
    [preserveText = true] and an empty or blank custom text the
    instruction is empty, not a mockup instruction. *)
Lemma prepareText_departs_from_table :
  prepareText false "Sale Now" = renderInstruction "Sale Now" /\
  prepareText false "Sale Now" <> cleanInstruction /\
  prepareText true EmptyString = EmptyString /\
  prepareText true "   " = EmptyString.
Proof.
  repeat split. discriminate.
Qed.

(** C3, as amended.  A custom text that is not empty after trimming
    yields the render instruction, which contains the text literally,
    whatever [preserveText] is; otherwise [preserveText = false] yields
    the clean instruction and [preserveText = true] yields the empty
    instruction. *)
Theorem prepareText_cases :
  forall preserveText customText,
    (0 < String.length (trim customText) ->
       prepareText preserveText customText = renderInstruction customText /\
       includes customText (prepareText preserveText customText) = true) /\
    (String.length (trim customText) = 0 ->
       prepareText preserveText customText
       = if preserveText then EmptyString else cleanInstruction).
Proof.
  intros pt ct. unfold prepareText. rewrite trim_test. split; intro H.
  - apply Nat.ltb_lt in H. rewrite H.
    split; [reflexivity | apply includes_renderInstruction].
  - rewrite H. destruct pt; reflexivity.
Qed.

Lemma prepareText_cases_witness :
  prepareText true "Sale Now" = renderInstruction "Sale Now" /\
  includes "Sale Now" (prepareText true "Sale Now") = true.
Proof.
  apply (proj1 (prepareText_cases true "Sale Now")). vm_compute. lia.
Defined.

(** ** Model refusal *)

Lemma firstImage_none (ps : list Part) :
  Forall (fun p => imageData p = None) ps -> firstImage ps = None.
Proof.
  induction 1 as [|p ps Hp _ IH]; simpl; [reflexivity|].
  rewrite Hp. exact IH.
Qed.

Lemma findText_first (ps : list Part) :
  Exists (fun p => truthy (text p) = true) ps ->
  exists p c t, findText ps = Some p /\ In p ps /\ text p = Some (String c t).
Proof.
  intro H. apply Exists_exists in H. destruct H as [q [Hq Tq]].
  unfold findText.
  destruct (find (fun p => truthy (text p)) ps) as [p|] eqn:F.
  - apply find_some in F. destruct F as [Hin Ht].
    destruct (text p) as [[|c t]|] eqn:E; try discriminate.
    exists p, c, t. repeat split; assumption.
  - apply (find_none _ _ F) in Hq. rewrite Hq in Tq. discriminate.
Qed.

(** C5.  When the reply to the request of a generation resolves to a
    response whose parts (those of its first candidate, as the code reads
    them) bear no image and hold a text, the call fails with the error
    whose message is "Model Refusal: " followed by the text of the first
    such part. *)
Theorem text_only_response_is_model_refusal :
  forall key actorFile referenceFile outputType landingPosition
         analysisContext preserveText customText creativePrompt
         backend req response ps,
    In req (requests backend
              (generateFinalPoster key actorFile referenceFile outputType
                 landingPosition analysisContext preserveText customText
                 creativePrompt)) ->
    backend req = Resolved response ->
    firstCandidateParts response = Some ps ->
    Forall (fun p => imageData p = None) ps ->
    Exists (fun p => truthy (text p) = true) ps ->
    exists p t,
      findText ps = Some p /\ In p ps /\ text p = Some t /\
      outcome backend
        (generateFinalPoster key actorFile referenceFile outputType
           landingPosition analysisContext preserveText customText
           creativePrompt)
      = Failed (newError ("Model Refusal: " ++ t)).
Proof.
  intros key af rf ot lp ac pt ct cp backend req response ps
         Hreq Hb Hps Himg Htxt.
  destruct (requests_generateFinalPoster _ _ _ _ _ _ _ _ _ _ _ Hreq)
    as [sc E].
  destruct (findText_first ps Htxt) as [p [c [t [F [Hin Et]]]]].
  exists p, (String c t). repeat split; try assumption.
  destruct (generateFinalPoster_run key af rf ot lp ac pt ct cp backend)
    as [_ R]. destruct (R _ _ E) as [_ [_ Q]].
  apply (Q response Hb).
  unfold readGenerated. rewrite Hps, (firstImage_none ps Himg), F, Et.
  reflexivity.
Qed.

Lemma text_only_response_is_model_refusal_witness :
  exists p t,
    findText [ textOnlyPart "I cannot generate that image." ] = Some p /\
    In p [ textOnlyPart "I cannot generate that image." ] /\
    text p = Some t /\
    outcome (backend refusingEnv)
      (generateFinalPoster (Some "key") (Some portrait) (Some poster)
         "landing_hero" "left" None false EmptyString EmptyString)
    = Failed (newError ("Model Refusal: " ++ t)).
Proof.
  apply (text_only_response_is_model_refusal (Some "key") (Some portrait)
           (Some poster) "landing_hero" "left" None false EmptyString
           EmptyString (backend refusingEnv) transferRequest
           {| candidates :=
                Some [ {| content :=
                            Some {| parts :=
                                      Some [ textOnlyPart
                                               "I cannot generate that image." ]
                                 |} |} ];
              responseText := Some "I cannot generate that image." |}
           [ textOnlyPart "I cannot generate that image." ]).
  - left. reflexivity.
  - reflexivity.
  - reflexivity.
  - repeat constructor.
  - left. reflexivity.
Defined.

(** ** Format resolution *)

(** C8.  [prepareFormat] is a function into pairs, so it yields one pair
    for every pair of strings and cannot throw; its ratio is one of the
    three the backend knows; an output type outside the four recognised
    ones falls back to the square format; and whether the composition of
    a request throws does not depend on the two format arguments. *)
Theorem prepareFormat_total :
  forall outputType landingPosition,
    exists aspectRatio formatInstruction,
      prepareFormat outputType landingPosition
      = (aspectRatio, formatInstruction) /\
      In aspectRatio ["1:1"; "9:16"; "16:9"] /\
      (~ In outputType
           ["ad_stories"; "thumbnail"; "landing_hero"; "landing_mobile"] ->
       aspectRatio = "1:1" /\ formatInstruction = "FORMAT: SQUARE AD (1:1).") /\
      (forall key actorFile referenceFile analysisContext preserveText
              customText creativePrompt outputType' landingPosition' e,
         composeRequest key actorFile referenceFile outputType
           landingPosition analysisContext preserveText customText
           creativePrompt = Throw e ->
         composeRequest key actorFile referenceFile outputType'
           landingPosition' analysisContext preserveText customText
           creativePrompt = Throw e).
Proof.
  intros ot lp.
  exists (fst (prepareFormat ot lp)), (snd (prepareFormat ot lp)).
  split; [destruct (prepareFormat ot lp); reflexivity|].
  split; [|split].
  - unfold prepareFormat.
    repeat match goal with
           | |- context [if ?b then _ else _] => destruct b
           end; simpl; auto.
  - intro H. unfold prepareFormat.
    rewrite (eqb_false_of_not_in ot _ H "ad_stories") by (simpl; auto).
    rewrite (eqb_false_of_not_in ot _ H "thumbnail") by (simpl; auto).
    rewrite (eqb_false_of_not_in ot _ H "landing_hero") by (simpl; auto).
    rewrite (eqb_false_of_not_in ot _ H "landing_mobile") by (simpl; auto 6).
    split; reflexivity.
  - intros key af rf ac pt ct cp ot' lp' e.
    unfold composeRequest, getAiClient.
    destruct (truthy key); [|exact (fun H => H)]. cbn [bind].
    destruct (prepareInput af) as [ab|ea|? ?]; cbn [bind];
      try solve [exact (fun H => H) | intro X; discriminate X].
    destruct (prepareInput rf) as [rb|er|? ?]; cbn [bind];
      try solve [exact (fun H => H) | intro X; discriminate X].
    destruct (prepareFormat ot lp) as [ar fi].
    destruct (prepareFormat ot' lp') as [ar' fi'].
    unfold buildScenario.
    repeat match goal with
           | |- context [if ?b then _ else _] => destruct b
           end; cbn [bind]; solve [discriminate | exact (fun H => H)].
Qed.

(** ** Refinement requests and artifacts *)

(** C9.  Under a credential, the one request [refinePoster] sends
    carries the ratio [refineAspectRatio outputType]: 9:16 for stories
    and mobile landing pages, 16:9 for thumbnails and hero headers, 1:1
    for anything else.  The function has no landing position among its
    arguments, and what [handleRefine] captures for it is the same
    whatever the landing position of the state is. *)
Theorem refinePoster_ratio_from_outputType :
  forall key currentImageBase64 refinementPrompt outputType,
    truthy key = true ->
    (forall backend,
       exists req,
         requests backend
           (refinePoster key currentImageBase64 refinementPrompt outputType)
         = [req] /\
         imageConfig req
         = Some {| aspectRatio := refineAspectRatio outputType;
                   imageSize := "4K" |}) /\
    (In outputType ["ad_stories"; "landing_mobile"] ->
       refineAspectRatio outputType = "9:16") /\
    (In outputType ["thumbnail"; "landing_hero"] ->
       refineAspectRatio outputType = "16:9") /\
    (~ In outputType
         ["ad_stories"; "landing_mobile"; "thumbnail"; "landing_hero"] ->
       refineAspectRatio outputType = "1:1") /\
    (forall y p,
       refining (applyAll (handleRefine_start (onUi (setLandingPos p) y))
                   (onUi (setLandingPos p) y))
       = refining (applyAll (handleRefine_start y) y)).
Proof.
  intros key img prompt ot Hk. split; [|split; [|split; [|split]]].
  - intro backend.
    destruct (refinePoster_run key img prompt ot backend Hk)
      as [req [-> [R _]]].
    eexists. split; [exact R | reflexivity].
  - intros [<-|[<-|[]]]; reflexivity.
  - intros [<-|[<-|[]]]; reflexivity.
  - intro H. unfold refineAspectRatio.
    rewrite (eqb_false_of_not_in ot _ H "ad_stories") by (simpl; auto).
    rewrite (eqb_false_of_not_in ot _ H "landing_mobile") by (simpl; auto).
    rewrite (eqb_false_of_not_in ot _ H "thumbnail") by (simpl; auto).
    rewrite (eqb_false_of_not_in ot _ H "landing_hero") by (simpl; auto 6).
    reflexivity.
  - intros y p. unfold handleRefine_start. cbn [ui onUi setLandingPos
      generatedImage refinePrompt isRefining outputType].
    destruct (generatedImage (ui y)) as [image|]; [|reflexivity].
    destruct (truthyStr image && truthyStr (trim (refinePrompt (ui y)))
              && negb (isRefining (ui y))); reflexivity.
Qed.

Lemma refinePoster_ratio_from_outputType_witness :
  refineAspectRatio "landing_mobile" = "9:16".
Proof.
  apply (refinePoster_ratio_from_outputType (Some "key")
           "data:image/png;base64,UkVOREVS" "Fix the index finger"
           "landing_mobile" eq_refl).
  right. left. reflexivity.
Defined.

(** C10.  An artifact returned by [generateFinalPoster] or by
    [refinePoster] is "data:image/png;base64," followed by the payload of
    the first image-bearing part of the response, whatever MIME type that
    part declares; and the first part of the one request [refinePoster]
    sends is the payload cut out of the prior artifact, labelled
    image/png. *)
Theorem artifacts_are_png_data_uris :
  (forall key actorFile referenceFile outputType landingPosition
          analysisContext preserveText customText creativePrompt backend url,
     outcome backend
       (generateFinalPoster key actorFile referenceFile outputType
          landingPosition analysisContext preserveText customText
          creativePrompt) = Fulfilled url ->
     exists req response ps d,
       backend req = Resolved response /\
       firstCandidateParts response = Some ps /\
       firstImage ps = Some d /\
       url = "data:image/png;base64," ++ d) /\
  (forall key currentImageBase64 refinementPrompt outputType backend url,
     outcome backend
       (refinePoster key currentImageBase64 refinementPrompt outputType)
     = Fulfilled url ->
     exists req response ps d,
       backend req = Resolved response /\
       firstCandidateParts response = Some ps /\
       firstImage ps = Some d /\
       url = "data:image/png;base64," ++ d) /\
  (forall key currentImageBase64 refinementPrompt outputType backend,
     truthy key = true ->
     exists req prompt,
       requests backend
         (refinePoster key currentImageBase64 refinementPrompt outputType)
       = [req] /\
       contents req =
         [ inlineDataPart (Some "image/png")
             (nth_error (split ","%char currentImageBase64) 1);
           textOnlyPart prompt ]).
Proof.
  split; [|split].
  - intros key af rf ot lp ac pt ct cp backend url H.
    destruct (generateFinalPoster_run key af rf ot lp ac pt ct cp backend)
      as [T R].
    destruct (composeRequest_settles key af rf ot lp ac pt ct cp)
      as [[[sc req] E]|[e E]].
    + destruct (R _ _ E) as [_ [Rj Rs]].
      destruct (backend req) as [response|e] eqn:B.
      * destruct (Rs response eq_refl) as [Ok Ko].
        exists req, response.
        unfold readGenerated in Ok, Ko.
        destruct (firstCandidateParts response) as [ps|] eqn:Ep.
        2:{ rewrite (Ko _ eq_refl) in H. discriminate H. }
        destruct (firstImage ps) as [d|] eqn:Ei.
        { exists ps, d. rewrite (Ok _ eq_refl) in H. injection H as <-.
          split; [exact B | repeat split; assumption]. }
        destruct (findText ps) as [tp|].
        2:{ rewrite (Ko _ eq_refl) in H. discriminate H. }
        destruct (text tp) as [[|c t]|];
          rewrite (Ko _ eq_refl) in H; discriminate H.
      * rewrite (Rj e eq_refl) in H. discriminate H.
    + unfold outcome in H. rewrite (T _ E) in H. discriminate H.
  - intros key img prompt ot backend url H.
    destruct (truthy key) eqn:Hk.
    + destruct (refinePoster_run key img prompt ot backend Hk)
        as [req [_ [_ [Rj Rs]]]].
      destruct (backend req) as [response|e] eqn:B.
      * destruct (Rs response eq_refl) as [Ok Ko].
        exists req, response.
        unfold readRefined in Ok, Ko.
        destruct (firstCandidateParts response) as [ps|] eqn:Ep.
        2:{ rewrite (Ko _ eq_refl) in H. discriminate H. }
        destruct (firstImage ps) as [d|] eqn:Ei.
        { exists ps, d. rewrite (Ok _ eq_refl) in H. injection H as <-.
          split; [exact B | repeat split; assumption]. }
        rewrite (Ko _ eq_refl) in H. discriminate H.
      * rewrite (Rj e eq_refl) in H. discriminate H.
    + unfold outcome, refinePoster, getAiClient in H. rewrite Hk in H.
      discriminate H.
  - intros key img prompt ot backend Hk.
    destruct (refinePoster_run key img prompt ot backend Hk)
      as [req [-> [R _]]].
    eexists _, _. split; [exact R | reflexivity].
Qed.

Lemma artifacts_are_png_data_uris_witness :
  exists req response ps d,
    backend paintingEnv req = Resolved response /\
    firstCandidateParts response = Some ps /\
    firstImage ps = Some d /\
    "data:image/png;base64,UkVOREVS" = "data:image/png;base64," ++ d.
Proof.
  exact (proj1 artifacts_are_png_data_uris (Some "key") (Some portrait)
           (Some poster) "landing_hero" "left" None false EmptyString
           EmptyString (backend paintingEnv)
           "data:image/png;base64,UkVOREVS" eq_refl).
Defined.

(** * Properties of the pipeline *)

(** ** The decision procedure *)

Lemma leftToRightFrom_sound (l : list Status) :
  forall b, leftToRightFrom b l = true ->
  forall j, nth_error l j = Some Processing ->
            b = true /\ forall i, i < j -> nth_error l i = Some Completed.
Proof.
  induction l as [|s rest IH]; intros b H j Hj.
  - destruct j; discriminate Hj.
  - simpl in H. apply andb_true_iff in H. destruct H as [Hs Hr].
    destruct j as [|j]; simpl in Hj.
    + injection Hj as ->. split; [exact Hs | intros i Hi; lia].
    + destruct (IH _ Hr j Hj) as [Hb Hi].
      apply andb_true_iff in Hb. destruct Hb as [Hb Hc].
      split; [exact Hb|].
      intros [|i] Hlt; simpl.
      * destruct s; try discriminate Hc. reflexivity.
      * apply Hi. lia.
Qed.

Lemma leftToRightb_sound (l : list Status) :
  leftToRightb l = true -> leftToRight l.
Proof.
  intros H i j Hij Hj.
  destruct (leftToRightFrom_sound l true H j Hj) as [_ K]. apply K, Hij.
Qed.

(** ** The invariant *)

(** A list of steps with the five initial ids is five steps. *)
Lemma five_steps (l : list ProcessingStep) :
  map id l = stepIds ->
  exists n1 s1 d1 n2 s2 d2 n3 s3 d3 n4 s4 d4 n5 s5 d5,
    l = [ {| id := "1"; name := n1; status := s1; details := d1 |};
          {| id := "2"; name := n2; status := s2; details := d2 |};
          {| id := "3"; name := n3; status := s3; details := d3 |};
          {| id := "4"; name := n4; status := s4; details := d4 |};
          {| id := "5"; name := n5; status := s5; details := d5 |} ].
Proof.
  unfold stepIds.
  destruct l as [|[i1 n1 s1 d1] [|[i2 n2 s2 d2] [|[i3 n3 s3 d3]
    [|[i4 n4 s4 d4] [|[i5 n5 s5 d5] [|x l]]]]]]; simpl; intro H;
    try discriminate H.
  injection H as -> -> -> -> ->.
  exists n1, s1, d1, n2, s2, d2, n3, s3, d3, n4, s4, d4, n5, s5, d5.
  reflexivity.
Qed.

Ltac check_statuses :=
  apply leftToRightb_sound; reflexivity.

Ltac solve_through :=
  cbn [through];
  repeat (apply Forall_cons; [check_statuses|]); apply Forall_nil.

(** Splits a phase invariant into the concrete statuses it allows. *)
Ltac concretize Hph :=
  repeat match type of Hph with
         | _ /\ _ => let H := fresh "Hp" in destruct Hph as [H Hph]
         end;
  try match type of Hph with
      | _ \/ _ =>
          destruct Hph as [[? [Hph [[?|?] ?]]]|[[| | |] Hph]]
      end;
  repeat match goal with
         | H : [_; _; _; _; _] = [_; _; _; _; _] |- _ =>
             injection H as -> -> -> -> ->
         | H : [_; _; _; _; _] = [_; _; _; _; _] |- _ =>
             injection H as ? ? ? ? ?
         end;
  subst.

(** Splits the tests of a segment, dropping the cases it excludes. *)
Ltac split_guards H :=
  repeat match type of H with
         | context [if ?b then _ else _] =>
             let E := fresh "E" in destruct b eqn:E; try discriminate H
         | context [match ?o with Some _ => _ | None => _ end] =>
             let E := fresh "E" in destruct o eqn:E; try discriminate H
         | context [match ?o with Fulfilled _ => _ | Failed _ => _ end] =>
             let E := fresh "E" in destruct o eqn:E; try discriminate H
         end.

Ltac solve_Inv :=
  unfold Inv, phaseInv, statuses;
  cbn [applyAll fold_left];
  split; [reflexivity|];
  cbn;
  split; [try (intros _; reflexivity); try (intro; congruence);
          try assumption |];
  repeat match goal with
         | |- _ /\ _ => split
         | |- ?x = ?x => reflexivity
         end;
  try assumption;
  try solve [ left; eexists; repeat split; eauto
            | right; eexists; reflexivity ].

(** Every segment started from a state of the invariant is good. *)
Lemma segment_keeps_Inv (y : Sys) (ev : Event) (us : list (Sys -> Sys)) :
  Inv y -> segment y ev = Some us -> Good y us.
Proof.
  intros (Hids & Han & Hph) Hseg.
  destruct (five_steps _ Hids)
    as (n1 & s1 & d1 & n2 & s2 & d2 & n3 & s3 & d3 & n4 & s4 & d4
        & n5 & s5 & d5 & Hst).
  clear Hids.
  destruct y as [u ais g r an].
  destruct u as [aks af rf ot lp pt ct ip ia at_ gi st rp ir].
  unfold phaseInv, statuses in *.
  cbn [ui steps generating refining isProcessing isRefining generatedImage
       analysisText] in *.
  subst st. cbn [map status] in *.
  unfold segment, guard, handleFileUpload_actor, handleFileUpload_ref,
    handleAnalyze_start, handleAnalyze_settled, handleGenerate_start,
    handleGenerate_timer1, handleGenerate_timer2, handleGenerate_settled,
    handleGenerate_failed, handleGenerate_keySelected, handleRefine_start,
    handleRefine_settled, generateDisabled, refineBarActive in Hseg.
  cbn [ui steps generating refining isProcessing isRefining generatedImage
       analysisText apiKeySet preserveText analyzing actorFile refFile
       refinePrompt aistudio outputType landingPos customText] in Hseg.
  destruct g as [|c|c|c|], r as [rc|]; try contradiction; concretize Hph.
  all: destruct (truthy at_) eqn:Hat;
    [ specialize (Han eq_refl); try discriminate Han | clear Han ].
  all: destruct ev; try discriminate Hseg.
  all: split_guards Hseg.
  all: try (injection Hseg as <-).
  all: try match goal with
           | E : _ = true |- _ => cbn in E; discriminate E
           | E : _ = false |- _ => cbn in E; discriminate E
           end.
  all: unfold Good, resetSteps; rewrite ?Hat.
  all: split; [solve_through | solve_Inv].
Qed.

Lemma Inv_initial (ais : bool) : Inv (initialSys ais).
Proof.
  unfold Inv, phaseInv, statuses. cbn.
  split; [reflexivity|]. split; [intro H; discriminate H|].
  repeat split. left. exists Pending. repeat split. left. reflexivity.
Qed.

Lemma step_keeps_Inv (y y' : Sys) (ev : Event) :
  Inv y -> step y ev = Some y' -> Inv y'.
Proof.
  unfold step. intros I H.
  destruct (segment y ev) as [us|] eqn:S; [|discriminate H].
  injection H as <-. apply (segment_keeps_Inv y ev us I S).
Qed.

Lemma runEvents_keeps_Inv (evs : list Event) :
  forall y y', Inv y -> runEvents y evs = Some y' -> Inv y'.
Proof.
  induction evs as [|ev evs IH]; intros y y' I H; simpl in H.
  - injection H as <-. exact I.
  - destruct (step y ev) as [y1|] eqn:S; [|discriminate H].
    apply (IH y1 y' (step_keeps_Inv _ _ _ I S) H).
Qed.

Lemma reachable_Inv (y : Sys) : reachable y -> Inv y.
Proof.
  intros [ais [evs H]].
  apply (runEvents_keeps_Inv evs _ _ (Inv_initial ais) H).
Qed.

Lemma Inv_leftToRight (y : Sys) : Inv y -> leftToRight (statuses y).
Proof.
  intros (_ & _ & P). unfold phaseInv in P.
  destruct (generating y), (refining y); try contradiction;
    repeat match type of P with
           | _ /\ _ => let H := fresh in destruct P as [H P]
           end;
    try match type of P with
        | _ \/ _ => destruct P as [[s1 [P [[->| ->] _]]]|[[| | |] P]]
        end;
    match goal with
    | H : statuses y = _ |- _ => rewrite H
    end; apply leftToRightb_sound; reflexivity.
Qed.

(** ** The example states are reachable *)

Lemma reachable_afterGeneration : reachable afterGeneration.
Proof.
  exists false, firstGeneration. vm_compute. reflexivity.
Qed.

Lemma reachable_regenerating : reachable regenerating.
Proof.
  exists false, (firstGeneration ++ [ ClickGenerate ])%list.
  vm_compute. reflexivity.
Qed.

Lemma reachable_awaitingPoster : reachable awaitingPoster.
Proof.
  exists false,
    (firstGeneration ++ [ ClickGenerate; Timer1Fired; Timer2Fired ])%list.
  vm_compute. reflexivity.
Qed.

Lemma reachable_refiningNow : reachable refiningNow.
Proof.
  exists false,
    (firstGeneration
     ++ [ TypeRefinePrompt "Fix the index finger"; SubmitRefine ])%list.
  vm_compute. reflexivity.
Qed.

(** ** Left to right *)

(** C6.  In every state the component is ever in, between events or
    inside a segment, no stage is [Processing] while an earlier stage is
    not [Completed].  And a generation starts by the reset of the steps,
    after which every stage is [Pending], except the first, which is
    [Completed] when an analysis text exists. *)
Theorem pipeline_left_to_right_and_reset :
  (forall y, observable y -> leftToRight (statuses y)) /\
  (forall y us,
     reachable y -> segment y ClickGenerate = Some us ->
     (exists rest,
        us = onUi (setIsProcessing true)
             :: onUi (setGeneratedImage None)
             :: onUi (resetSteps (analysisText (ui y))) :: rest) /\
     statuses (onUi (resetSteps (analysisText (ui y))) y)
     = (if truthy (analysisText (ui y)) then Completed else Pending)
       :: [Pending; Pending; Pending; Pending]).
Proof.
  split.
  - intros y [R|[y0 [ev [us [R [S Hin]]]]]].
    + apply Inv_leftToRight, reachable_Inv, R.
    + destruct (segment_keeps_Inv y0 ev us (reachable_Inv _ R) S) as [F _].
      rewrite Forall_forall in F. apply F, Hin.
  - intros y us R S.
    destruct (reachable_Inv y R) as (Hids & Han & _).
    destruct (five_steps _ Hids)
      as (n1 & s1 & d1 & n2 & s2 & d2 & n3 & s3 & d3 & n4 & s4 & d4
          & n5 & s5 & d5 & Hst).
    split.
    + unfold segment, guard, generateDisabled, handleGenerate_start in S.
      destruct (apiKeySet (ui y)); [|discriminate S].
      destruct (actorFile (ui y)); [|discriminate S].
      destruct (refFile (ui y)); [|discriminate S].
      cbn [isFile negb orb andb] in S.
      destruct (negb (isProcessing (ui y) || isRefining (ui y)));
        [|discriminate S].
      injection S as <-. eexists. reflexivity.
    + unfold statuses in *. unfold resetSteps. cbn [ui onUi setSteps steps].
      rewrite Hst in *. cbn [map id status String.eqb Ascii.eqb Bool.eqb andb].
      destruct (truthy (analysisText (ui y))) eqn:T; [|reflexivity].
      specialize (Han eq_refl). cbn in Han. injection Han as ->.
      reflexivity.
Qed.

Lemma pipeline_left_to_right_and_reset_witness :
  leftToRight (statuses awaitingPoster).
Proof.
  apply (proj1 pipeline_left_to_right_and_reset awaitingPoster).
  left. exact reachable_awaitingPoster.
Defined.

(** ** Refinement *)

Lemma refine_segment_frame (y : Sys) (ev : Event) (us : list (Sys -> Sys)) :
  map id (steps (ui y)) = stepIds ->
  (ev = SubmitRefine \/ exists e, ev = RefineSettled e) ->
  segment y ev = Some us ->
  Forall (sameButLast y) (through us y) /\ sameButLast y (applyAll us y).
Proof.
  intros Hids Hev S.
  destruct (five_steps _ Hids)
    as (n1 & s1 & d1 & n2 & s2 & d2 & n3 & s3 & d3 & n4 & s4 & d4
        & n5 & s5 & d5 & Hst).
  destruct y as [u ais g r an].
  destruct u as [aks af rf ot lp pt ct ip ia at_ gi st rp ir].
  cbn [ui steps] in *. subst st.
  unfold segment, guard, handleRefine_start, handleRefine_settled,
    refineBarActive in S.
  cbn [ui steps generating refining isProcessing isRefining generatedImage
       apiKeySet refinePrompt outputType] in S.
  destruct Hev as [->|[e ->]]; split_guards S; injection S as <-;
    cbn [through];
    (split;
     [ repeat (apply Forall_cons; [unfold sameButLast; cbn; repeat split|]);
       apply Forall_nil
     | unfold sameButLast; cbn; repeat split ]).
Qed.

(** C7.  From a reachable state, each of the two segments of a
    refinement (its start, and the settling of [refinePoster] with
    success or failure) leaves the first four stages as they are, after
    each of its updates and at its end, and keeps the id and the name of
    every stage.  While a refinement is in flight the first four stages
    are [Completed] and the fifth is [Processing], whatever else
    happens in between. *)
Theorem refinement_changes_only_the_last_stage :
  forall y,
    reachable y ->
    (forall ev us,
       (ev = SubmitRefine \/ exists e, ev = RefineSettled e) ->
       segment y ev = Some us ->
       forall y', In y' (through us y) \/ y' = applyAll us y ->
         firstn 4 (steps (ui y')) = firstn 4 (steps (ui y)) /\
         map id (steps (ui y')) = map id (steps (ui y)) /\
         map name (steps (ui y')) = map name (steps (ui y))) /\
    (refining y <> None ->
       statuses y
       = [Completed; Completed; Completed; Completed; Processing]).
Proof.
  intros y R.
  destruct (reachable_Inv y R) as (Hids & Han & P).
  split.
  - intros ev us Hev S.
    destruct (refine_segment_frame y ev us Hids Hev S) as [F L].
    intros y' [Hin| ->]; [|exact L].
    rewrite Forall_forall in F. apply (F y' Hin).
  - intro Hr. unfold phaseInv in P.
    destruct (generating y), (refining y); try contradiction;
      try (exfalso; apply Hr; reflexivity).
    destruct P as (_ & _ & -> & _). reflexivity.
Qed.

Lemma refinement_changes_only_the_last_stage_witness :
  firstn 4 (steps (ui afterFailedRefine)) = firstn 4 (steps (ui refiningNow)) /\
  map id (steps (ui afterFailedRefine)) = map id (steps (ui refiningNow)) /\
  map name (steps (ui afterFailedRefine)) = map name (steps (ui refiningNow)).
Proof.
  refine (proj1 (refinement_changes_only_the_last_stage refiningNow
                   reachable_refiningNow)
            (RefineSettled failingEnv) _ _ _ afterFailedRefine _).
  - right. exists failingEnv. reflexivity.
  - reflexivity.
  - right. reflexivity.
Defined.

(** ** Failed attempts *)

(** C4, counterexample.  After a first generation the component holds an
    artifact; a second generation whose backend call rejects ends with no
    artifact: the failed generation has discarded the prior one. *)
Lemma failed_regeneration_discards_the_artifact :
  runEvents (initialSys false) firstGeneration = Some afterGeneration /\
  generatedImage (ui afterGeneration) = Some "data:image/png;base64,UkVOREVS" /\
  runEvents afterGeneration
    [ ClickGenerate; Timer1Fired; Timer2Fired; PosterSettled failingEnv ]
  = Some afterFailedRegeneration /\
  statuses afterFailedRegeneration
  = [Completed; Completed; Completed; Completed; Error] /\
  generatedImage (ui afterFailedRegeneration) = None.
Proof.
  repeat split; vm_compute; reflexivity.
Qed.

(** C4, as amended.  From a reachable state: a refinement that fails
    leaves the artifact it was refining in place; a generation clears
    the artifact when it starts, no artifact is held while it runs, and
    none is held after it fails, be it at the settling of
    [generateFinalPoster] or after the credential prompt. *)
Theorem failed_attempts_and_the_artifact :
  forall y,
    reachable y ->
    (forall e c err y',
       refining y = Some c ->
       outcome (backend e) (refineCall e c) = Failed err ->
       step y (RefineSettled e) = Some y' ->
       generatedImage (ui y) = Some (r_generatedImage c) /\
       generatedImage (ui y') = generatedImage (ui y)) /\
    (forall y', step y ClickGenerate = Some y' ->
       generatedImage (ui y') = None) /\
    (generating y <> GenIdle -> generatedImage (ui y) = None) /\
    (forall e c err y',
       generating y = AwaitPoster c ->
       outcome (backend e) (posterCall e c) = Failed err ->
       step y (PosterSettled e) = Some y' ->
       generatedImage (ui y') = None) /\
    (forall selected y',
       step y (KeySelectionSettled selected) = Some y' ->
       generatedImage (ui y') = None).
Proof.
  intros y R.
  destruct (reachable_Inv y R) as (Hids & Han & P).
  assert (G : generating y <> GenIdle -> generatedImage (ui y) = None).
  { intro Hg. unfold phaseInv in P.
    destruct (generating y), (refining y); try contradiction;
      try (exfalso; apply Hg; reflexivity);
      destruct P as (_ & _ & _ & P); exact P. }
  split; [|split; [|split; [|split]]].
  - intros e c err y' Hr Ho S.
    unfold step, segment in S. rewrite Hr, Ho in S.
    injection S as <-. split; [|reflexivity].
    unfold phaseInv in P. rewrite Hr in P.
    destruct (generating y); try contradiction.
    destruct P as (_ & _ & _ & P). exact P.
  - intros y' S.
    unfold step, segment, guard, generateDisabled, handleGenerate_start in S.
    destruct (apiKeySet (ui y)); [|discriminate S].
    destruct (actorFile (ui y)); [|discriminate S].
    destruct (refFile (ui y)); [|discriminate S].
    cbn [isFile negb orb andb] in S.
    destruct (negb (isProcessing (ui y) || isRefining (ui y)));
      [|discriminate S].
    injection S as <-.
    destruct (truthy (analysisText (ui y))); reflexivity.
  - exact G.
  - intros e c err y' Hg Ho S.
    assert (N : generatedImage (ui y) = None).
    { apply G. rewrite Hg. discriminate. }
    unfold step, segment in S. rewrite Hg, Ho in S.
    unfold handleGenerate_settled, handleGenerate_failed in S.
    destruct (includes "Requested entity was not found"
                (orElse (message err) "Unknown error"));
      [destruct (aistudio y)|]; injection S as <-; exact N.
  - intros selected y' S.
    unfold step, segment in S.
    destruct (generating y) eqn:Hg; try discriminate S.
    assert (N : generatedImage (ui y) = None).
    { apply G. discriminate. }
    destruct selected; injection S as <-; exact N.
Qed.

Lemma failed_attempts_and_the_artifact_witness :
  generatedImage (ui refiningNow) = Some "data:image/png;base64,UkVOREVS" /\
  generatedImage (ui afterFailedRefine) = generatedImage (ui refiningNow).
Proof.
  exact (proj1 (failed_attempts_and_the_artifact refiningNow
                  reachable_refiningNow)
           failingEnv
           {| r_generatedImage := "data:image/png;base64,UkVOREVS";
              r_refinePrompt := "Fix the index finger";
              r_outputType := AD_FEED |}
           (newError "503 Service Unavailable")
           afterFailedRefine eq_refl eq_refl eq_refl).
Defined.

Import Notions MoreExamples.


(** * Further properties of the service *)

(** ** Strings, continued *)

Lemma includes_prefix (p x : string) :
  String.prefix p x = true -> includes p x = true.
Proof.
  intro E. destruct x; cbn [includes]; rewrite E; reflexivity.
Qed.

Lemma prefix_append_l (p a s : string) :
  String.prefix p a = true -> String.prefix p (a ++ s) = true.
Proof.
  revert a. induction p as [|c p IH]; intros a H.
  - destruct (a ++ s); reflexivity.
  - destruct a as [|d a]; simpl in *; [discriminate H|].
    destruct (Ascii.ascii_dec c d); [apply IH, H | discriminate H].
Qed.

Lemma includes_append_l (p a s : string) :
  includes p a = true -> includes p (a ++ s) = true.
Proof.
  induction a as [|c a IH]; intro H.
  - cbn [includes] in H. rewrite orb_false_r in H.
    apply includes_prefix.
    destruct p; [destruct (EmptyString ++ s); reflexivity | discriminate H].
  - cbn [includes] in H. apply orb_true_iff in H. destruct H as [H|H].
    + apply includes_prefix. apply prefix_append_l, H.
    + change (String c a ++ s) with (String c (a ++ s)).
      cbn [includes]. rewrite (IH H). apply orb_true_r.
Qed.

Lemma split_commaFree (s : string) :
  commaFree s = true -> split ","%char s = [s].
Proof.
  induction s as [|c s IH]; simpl; intro H; [reflexivity|].
  apply andb_true_iff in H. destruct H as [Hc Hs].
  apply negb_true_iff in Hc. rewrite Hc, (IH Hs). reflexivity.
Qed.

Lemma split_nonempty (sep : ascii) (s : string) : split sep s <> [].
Proof.
  destruct s as [|c s]; simpl; [discriminate|].
  destruct (Ascii.eqb c sep); [discriminate|].
  destruct (split sep s); discriminate.
Qed.

Lemma split_append_comma (a b : string) :
  commaFree a = true ->
  split ","%char (a ++ String ","%char b) = a :: split ","%char b.
Proof.
  induction a as [|c a IH]; simpl; intro H; [reflexivity|].
  apply andb_true_iff in H. destruct H as [Hc Hs].
  apply negb_true_iff in Hc. rewrite Hc, (IH Hs). reflexivity.
Qed.

Lemma payload_of_data_url (head payload : string) :
  commaFree head = true -> commaFree payload = true ->
  nth_error (split ","%char (head ++ String ","%char payload)) 1
  = Some payload.
Proof.
  intros Hh Hp. rewrite (split_append_comma head payload Hh).
  rewrite (split_commaFree payload Hp). reflexivity.
Qed.



Lemma orElse_truthy (o : option string) (d : string) :
  truthyStr d = true -> truthyStr (orElse o d) = true.
Proof.
  intro H. destruct o as [[|c s]|]; simpl; try exact H. reflexivity.
Qed.

Lemma orElse_of_truthy (o : option string) (d : string) :
  truthy o = true -> Some (orElse o d) = o.
Proof.
  destruct o as [[|c s]|]; simpl; intro H; try discriminate H. reflexivity.
Qed.

(** X1. [analyzeImageStructure] never fails and never returns the empty
    string: whatever the key, the file and the backend, it settles on a
    non-empty text after at most one request.  Without a key, or when the
    file cannot be read, it makes no request and returns "Analysis
    unavailable."; when it makes its request, the result is the text of
    the response, "Analysis failed to produce text." when that text is
    empty or missing, and "Analysis unavailable." when the call rejects. *)
Theorem analyzeImageStructure_never_fails :
  forall key imageFile backend,
    (exists c t,
       outcome backend (analyzeImageStructure key imageFile)
       = Fulfilled (String c t)) /\
    length (requests backend (analyzeImageStructure key imageFile)) <= 1 /\
    (truthy key = false \/ (exists e, readAsDataURL imageFile = ReadFailed e) ->
       run backend (analyzeImageStructure key imageFile)
       = ([], Fulfilled "Analysis unavailable.")) /\
    (forall req,
       In req (requests backend (analyzeImageStructure key imageFile)) ->
       outcome backend (analyzeImageStructure key imageFile)
       = match backend req with
         | Resolved response =>
             Fulfilled (orElse (responseText response)
                          "Analysis failed to produce text.")
         | Rejected _ => Fulfilled "Analysis unavailable."
         end).
Proof.
  intros key f backend.
  unfold analyzeImageStructure, getAiClient, fileToBase64, requests, outcome.
  destruct (truthy key); cbn [bind tryCatch run fst snd].
  2:{ repeat split; try (eexists _, _; reflexivity); auto.
      intros req []. }
  destruct (readAsDataURL f) as [result|e]; cbn [bind tryCatch run fst snd].
  2:{ repeat split; try (eexists _, _; reflexivity); auto.
      intros req []. }
  cbn [generateContent bind tryCatch run].
  match goal with
  | |- context [backend ?r] => generalize r; intro req
  end.
  destruct (backend req) as [response|e] eqn:B; cbn [bind tryCatch run fst snd].
  - split; [|split; [|split]].
    + pose proof (orElse_truthy (responseText response)
                    "Analysis failed to produce text." eq_refl) as T.
      destruct (orElse (responseText response)
                  "Analysis failed to produce text."); [discriminate T|].
      eexists _, _. reflexivity.
    + cbn. lia.
    + intros [H|[e H]]; discriminate H.
    + intros r [<-|[]]. rewrite B. reflexivity.
  - split; [|split; [|split]].
    + eexists _, _. reflexivity.
    + cbn. lia.
    + intros [H|[e' H]]; discriminate H.
    + intros r [<-|[]]. rewrite B. reflexivity.
Qed.

Lemma without_key key :
  truthy key = false ->
  (forall af rf ot lp ac pt ct cp,
     generateFinalPoster key af rf ot lp ac pt ct cp
     = Throw (newError "API Key not found. Please select an API Key.")) /\
  (forall img prompt ot,
     refinePoster key img prompt ot
     = Throw (newError "API Key not found. Please select an API Key.")).
Proof.
  intros Hk. split; intros;
    unfold generateFinalPoster, composeRequest, refinePoster, getAiClient;
    rewrite Hk; reflexivity.
Qed.

(** X2. Without a usable key (none, or the empty string)
    [generateFinalPoster] and [refinePoster] throw "API Key not found.
    Please select an API Key." at once, whatever their other arguments: no
    file is read and no request is made. *)
Theorem missing_key_fails_before_anything :
  forall key,
    truthy key = false ->
    (forall actorFile referenceFile outputType landingPosition
            analysisContext preserveText customText creativePrompt,
       generateFinalPoster key actorFile referenceFile outputType
         landingPosition analysisContext preserveText customText
         creativePrompt
       = Throw (newError "API Key not found. Please select an API Key.")) /\
    (forall currentImageBase64 refinementPrompt outputType,
       refinePoster key currentImageBase64 refinementPrompt outputType
       = Throw (newError "API Key not found. Please select an API Key.")).
Proof.
  intros key Hk. destruct (without_key key Hk) as [G R].
  split; intros; [apply G | apply R].
Qed.

Lemma missing_key_fails_before_anything_witness :
  generateFinalPoster (Some EmptyString) (Some portrait) (Some poster)
    "thumbnail" "center" None false EmptyString EmptyString
  = Throw (newError "API Key not found. Please select an API Key.").
Proof.
  apply (proj1 (missing_key_fails_before_anything (Some EmptyString) eq_refl)).
Defined.

(** X3. Nothing is retried: one call of [generateFinalPoster] makes at
    most one backend request, and one call of [refinePoster] makes exactly
    one when a key is present and none otherwise. *)
Theorem at_most_one_request :
  forall backend,
    (forall key actorFile referenceFile outputType landingPosition
            analysisContext preserveText customText creativePrompt,
       length (requests backend
                 (generateFinalPoster key actorFile referenceFile outputType
                    landingPosition analysisContext preserveText customText
                    creativePrompt)) <= 1) /\
    (forall key currentImageBase64 refinementPrompt outputType,
       length (requests backend
                 (refinePoster key currentImageBase64 refinementPrompt
                    outputType))
       = if truthy key then 1 else 0).
Proof.
  intro backend. split.
  - intros key af rf ot lp ac pt ct cp.
    destruct (generateFinalPoster_run key af rf ot lp ac pt ct cp backend)
      as [T R].
    destruct (composeRequest_settles key af rf ot lp ac pt ct cp)
      as [[[sc req] E]|[e E]].
    + destruct (R _ _ E) as [-> _]. cbn. lia.
    + unfold requests. rewrite (T _ E). cbn. lia.
  - intros key img prompt ot. destruct (truthy key) eqn:Hk.
    + destruct (refinePoster_run key img prompt ot backend Hk)
        as [req [_ [-> _]]]. reflexivity.
    + rewrite (proj2 (without_key key Hk)).
      reflexivity.
Qed.


(** X4. When the backend call rejects with [e], both functions fail with
    a new error whose message is the message of [e] when that is non-empty,
    and "Failed to generate poster.", respectively "Failed to refine
    image.", when it is empty or missing. *)
Theorem backend_rejection_is_passed_through :
  forall backend e,
    (forall key actorFile referenceFile outputType landingPosition
            analysisContext preserveText customText creativePrompt req,
       In req (requests backend
                 (generateFinalPoster key actorFile referenceFile outputType
                    landingPosition analysisContext preserveText customText
                    creativePrompt)) ->
       backend req = Rejected e ->
       exists m,
         outcome backend
           (generateFinalPoster key actorFile referenceFile outputType
              landingPosition analysisContext preserveText customText
              creativePrompt)
         = Failed (newError m) /\
         (forall c s, message e = Some (String c s) -> m = String c s) /\
         (truthy (message e) = false -> m = "Failed to generate poster.")) /\
    (forall key currentImageBase64 refinementPrompt outputType req,
       In req (requests backend
                 (refinePoster key currentImageBase64 refinementPrompt
                    outputType)) ->
       backend req = Rejected e ->
       exists m,
         outcome backend
           (refinePoster key currentImageBase64 refinementPrompt outputType)
         = Failed (newError m) /\
         (forall c s, message e = Some (String c s) -> m = String c s) /\
         (truthy (message e) = false -> m = "Failed to refine image.")).
Proof.
  intros backend e.
  assert (O : forall d,
            (forall c s, message e = Some (String c s) ->
                         orElse (message e) d = String c s) /\
            (truthy (message e) = false -> orElse (message e) d = d)).
  { intro d. destruct (message e) as [[|c s]|]; simpl; split;
      intros; try discriminate; try reflexivity.
    match goal with H : Some _ = Some _ |- _ => injection H as <- <- end.
    reflexivity. }
  split.
  - intros key af rf ot lp ac pt ct cp req Hin Hb.
    destruct (requests_generateFinalPoster _ _ _ _ _ _ _ _ _ _ _ Hin)
      as [sc E].
    destruct (generateFinalPoster_run key af rf ot lp ac pt ct cp backend)
      as [_ R]. destruct (R _ _ E) as [_ [Rj _]].
    eexists. split; [apply (Rj e Hb) | apply O].
  - intros key img prompt ot req Hin Hb.
    destruct (truthy key) eqn:Hk.
    + destruct (refinePoster_run key img prompt ot backend Hk)
        as [req' [_ [Q [Rj _]]]].
      rewrite Q in Hin. destruct Hin as [<-|[]].
      eexists. split; [apply (Rj e Hb) | apply O].
    + rewrite (proj2 (without_key key Hk)) in Hin. destruct Hin.
Qed.

Lemma firstImage_app (pre : list Part) (p : Part) (post : list Part) d :
  Forall (fun q => imageData q = None) pre ->
  imageData p = Some d ->
  firstImage (pre ++ p :: post) = Some d.
Proof.
  induction 1 as [|q pre Hq _ IH]; simpl; intro Hp.
  - rewrite Hp. reflexivity.
  - rewrite Hq. apply IH, Hp.
Qed.

(** X5. When [p] is the first part of the first candidate that carries
    image data, [d], both functions return the data URI of [d] labelled
    image/png: the text parts before it and whatever follows it, further
    images included, play no role. *)
Theorem first_image_wins :
  forall backend response pre p post d,
    firstCandidateParts response = Some (pre ++ p :: post)%list ->
    Forall (fun q => imageData q = None) pre ->
    imageData p = Some d ->
    (forall key actorFile referenceFile outputType landingPosition
            analysisContext preserveText customText creativePrompt req,
       In req (requests backend
                 (generateFinalPoster key actorFile referenceFile outputType
                    landingPosition analysisContext preserveText customText
                    creativePrompt)) ->
       backend req = Resolved response ->
       outcome backend
         (generateFinalPoster key actorFile referenceFile outputType
            landingPosition analysisContext preserveText customText
            creativePrompt)
       = Fulfilled ("data:image/png;base64," ++ d)) /\
    (forall key currentImageBase64 refinementPrompt outputType req,
       In req (requests backend
                 (refinePoster key currentImageBase64 refinementPrompt
                    outputType)) ->
       backend req = Resolved response ->
       outcome backend
         (refinePoster key currentImageBase64 refinementPrompt outputType)
       = Fulfilled ("data:image/png;base64," ++ d)).
Proof.
  intros backend response pre p post d Hps Hpre Hp.
  pose proof (firstImage_app pre p post d Hpre Hp) as F.
  split.
  - intros key af rf ot lp ac pt ct cp req Hin Hb.
    destruct (requests_generateFinalPoster _ _ _ _ _ _ _ _ _ _ _ Hin)
      as [sc E].
    destruct (generateFinalPoster_run key af rf ot lp ac pt ct cp backend)
      as [_ R]. destruct (R _ _ E) as [_ [_ Rs]].
    apply (Rs response Hb). unfold readGenerated. rewrite Hps, F.
    reflexivity.
  - intros key img prompt ot req Hin Hb.
    destruct (truthy key) eqn:Hk.
    + destruct (refinePoster_run key img prompt ot backend Hk)
        as [req' [_ [Q [_ Rs]]]].
      rewrite Q in Hin. destruct Hin as [<-|[]].
      apply (Rs response Hb). unfold readRefined. rewrite Hps, F.
      reflexivity.
    + rewrite (proj2 (without_key key Hk)) in Hin. destruct Hin.
Qed.

Lemma first_image_wins_witness :
  outcome (backend paintingEnv)
    (generateFinalPoster (Some "key") (Some portrait) (Some poster)
       "landing_hero" "left" None false EmptyString EmptyString)
  = Fulfilled "data:image/png;base64,UkVOREVS".
Proof.
  apply (proj1 (first_image_wins (backend paintingEnv) paintingResponse
                  [ textOnlyPart "Here is your poster." ]
                  (inlineDataPart (Some "image/jpeg") (Some "UkVOREVS")) []
                  "UkVOREVS" eq_refl
                  (Forall_cons (textOnlyPart "Here is your poster.")
                     (eq_refl None) (Forall_nil _))
                  eq_refl))
    with (req := transferRequest).
  - vm_compute. left. reflexivity.
  - reflexivity.
Defined.

Lemma findText_none (ps : list Part) :
  Forall (fun p => truthy (text p) = false) ps -> findText ps = None.
Proof.
  unfold findText. induction 1 as [|p ps Hp _ IH]; simpl; [reflexivity|].
  rewrite Hp. exact IH.
Qed.

(** X6. A response with no first candidate, or whose parts carry neither
    image data nor text, makes [generateFinalPoster] fail with "No image
    data returned."; a response with no first candidate or no image data
    makes [refinePoster] fail with "Refinement failed.", also when it holds
    text. *)
Theorem response_without_image :
  forall backend response,
    (forall key actorFile referenceFile outputType landingPosition
            analysisContext preserveText customText creativePrompt req,
       In req (requests backend
                 (generateFinalPoster key actorFile referenceFile outputType
                    landingPosition analysisContext preserveText customText
                    creativePrompt)) ->
       backend req = Resolved response ->
       (firstCandidateParts response = None \/
        exists ps, firstCandidateParts response = Some ps /\
                   Forall (fun p => imageData p = None) ps /\
                   Forall (fun p => truthy (text p) = false) ps) ->
       outcome backend
         (generateFinalPoster key actorFile referenceFile outputType
            landingPosition analysisContext preserveText customText
            creativePrompt)
       = Failed (newError "No image data returned.")) /\
    (forall key currentImageBase64 refinementPrompt outputType req,
       In req (requests backend
                 (refinePoster key currentImageBase64 refinementPrompt
                    outputType)) ->
       backend req = Resolved response ->
       (firstCandidateParts response = None \/
        exists ps, firstCandidateParts response = Some ps /\
                   Forall (fun p => imageData p = None) ps) ->
       outcome backend
         (refinePoster key currentImageBase64 refinementPrompt outputType)
       = Failed (newError "Refinement failed.")).
Proof.
  intros backend response. split.
  - intros key af rf ot lp ac pt ct cp req Hin Hb H.
    destruct (requests_generateFinalPoster _ _ _ _ _ _ _ _ _ _ _ Hin)
      as [sc E].
    destruct (generateFinalPoster_run key af rf ot lp ac pt ct cp backend)
      as [_ R]. destruct (R _ _ E) as [_ [_ Rs]].
    apply (Rs response Hb). unfold readGenerated.
    destruct H as [->|[ps [-> [Hi Ht]]]]; [reflexivity|].
    rewrite (firstImage_none ps Hi), (findText_none ps Ht). reflexivity.
  - intros key img prompt ot req Hin Hb H.
    destruct (truthy key) eqn:Hk.
    + destruct (refinePoster_run key img prompt ot backend Hk)
        as [req' [_ [Q [_ Rs]]]].
      rewrite Q in Hin. destruct Hin as [<-|[]].
      apply (Rs response Hb). unfold readRefined.
      destruct H as [->|[ps [-> Hi]]]; [reflexivity|].
      rewrite (firstImage_none ps Hi). reflexivity.
    + rewrite (proj2 (without_key key Hk)) in Hin. destruct Hin.
Qed.


(** What [buildScenario] returns, branch by branch. *)
Lemma buildScenario_inv af ab rf rb fi ac cp ti c :
  buildScenario af ab rf rb fi ac cp ti = Return c ->
  match scenario c with
  | IdentityTransfer =>
      isFile af = true /\ isFile rf = true /\
      truthy ab = true /\ truthy rb = true /\
      mediaParts c = [ inlineDataPart (option_map type rf) rb;
                       inlineDataPart (option_map type af) ab ] /\
      systemPrompt c = identityTransferPrompt fi ac cp ti
  | GenerativePlacement =>
      isFile af = true /\ isFile rf = false /\ truthy ab = true /\
      mediaParts c = [ inlineDataPart (option_map type af) ab ] /\
      systemPrompt c = generativePlacementPrompt fi cp ti
  | GuidedReimagination =>
      isFile af = false /\ isFile rf = true /\ truthy rb = true /\
      mediaParts c = [ inlineDataPart (option_map type rf) rb ] /\
      systemPrompt c = guidedReimaginationPrompt fi cp ti
  | PureSynthesis =>
      isFile af = false /\ isFile rf = false /\ truthyStr cp = true /\
      mediaParts c = [] /\
      systemPrompt c = pureSynthesisPrompt fi cp ti
  end.
Proof.
  unfold buildScenario.
  destruct (isFile af), (truthy ab), (isFile rf), (truthy rb),
    (truthyStr cp); cbn [andb negb];
    intro H; try discriminate H; injection H as <-; cbn [scenario];
    repeat split.
Qed.

Lemma imageData_inlineDataPart (m d : option string) :
  truthy d = true -> imageData (inlineDataPart m d) = d.
Proof.
  intro H. unfold imageData, inlineDataPart. cbn. rewrite H. reflexivity.
Qed.

(** X7. The request of [generateFinalPoster], in each of the four
    scenarios: its contents are the media parts of the scenario, each with
    the image data read from its file and no text, followed by exactly one
    text part; there is one media part per file given. *)
Theorem request_is_media_then_one_text :
  forall key actorFile referenceFile outputType landingPosition
         analysisContext preserveText customText creativePrompt sc req,
    composeRequest key actorFile referenceFile outputType landingPosition
      analysisContext preserveText customText creativePrompt
    = Return (sc, req) ->
    exists actorBase64 referenceBase64 prompt,
      prepareInput actorFile = Return actorBase64 /\
      prepareInput referenceFile = Return referenceBase64 /\
      let actor := inlineDataPart (option_map type actorFile) actorBase64 in
      let reference :=
        inlineDataPart (option_map type referenceFile) referenceBase64 in
      let media :=
        match sc with
        | IdentityTransfer => [reference; actor]
        | GenerativePlacement => [actor]
        | GuidedReimagination => [reference]
        | PureSynthesis => []
        end in
      contents req = (media ++ [textOnlyPart prompt])%list /\
      Forall (fun p => exists d, imageData p = Some d /\ text p = None) media /\
      length media
      = (if isFile actorFile then 1 else 0)
        + (if isFile referenceFile then 1 else 0).
Proof.
  intros key af rf ot lp ac pt ct cp sc req H.
  destruct (composeRequest_inv _ _ _ _ _ _ _ _ _ _ _ H)
    as [ab [rb [c [Hk [Ea [Er [Eb [-> ->]]]]]]]].
  exists ab, rb, (systemPrompt c).
  split; [exact Ea|]. split; [exact Er|].
  pose proof (buildScenario_inv _ _ _ _ _ _ _ _ _ Eb) as I.
  cbn [contents].
  assert (P : forall m d, truthy d = true ->
                exists x, imageData (inlineDataPart m d) = Some x
                          /\ text (inlineDataPart m d) = None).
  { intros m d T. rewrite (imageData_inlineDataPart m d T).
    destruct d as [x|]; [|discriminate T]. exists x. split; reflexivity. }
  destruct (scenario c).
  - destruct I as (Ha & Hr & Ta & Tr & -> & _). rewrite Ha, Hr.
    repeat split. repeat constructor; apply P; assumption.
  - destruct I as (Ha & Hr & Ta & -> & _). rewrite Ha, Hr.
    repeat split. repeat constructor; apply P; assumption.
  - destruct I as (Ha & Hr & Tr & -> & _). rewrite Ha, Hr.
    repeat split. repeat constructor; apply P; assumption.
  - destruct I as (Ha & Hr & _ & -> & _). rewrite Ha, Hr.
    repeat split. constructor.
Qed.

Lemma request_is_media_then_one_text_witness :
  exists prompt,
    contents reimaginationRequest
    = [ inlineDataPart (Some "image/png") (Some "UE9TVEVS");
        textOnlyPart prompt ].
Proof.
  destruct (request_is_media_then_one_text (Some "key") None (Some poster)
              "thumbnail" "center" (Some "85mm, key light at ten") false
              EmptyString "make it a winter scene" GuidedReimagination
              reimaginationRequest eq_refl)
    as (ab & rb & prompt & _ & Er & Hc & _).
  exists prompt. vm_compute in Er. injection Er as <-. exact Hc.
Defined.

Ltac find_in_prompt :=
  repeat first [ apply includes_here
               | apply includes_append_l; assumption
               | apply includes_append_r ].

Lemma includes_additionalInstruction (cp : string) :
  includes cp (additionalInstruction cp) = true.
Proof.
  unfold additionalInstruction. destruct cp as [|c s]; [reflexivity|].
  cbn [truthyStr]. apply includes_append_r.
  apply includes_prefix. rewrite <- (prefix_append (String c s) EmptyString).
  f_equal. induction (String c s) as [|x y IH]; simpl; [reflexivity|].
  rewrite <- IH. reflexivity.
Qed.

Lemma includes_techSpecs (c : ascii) (s : string) :
  includes (String c s) (techSpecs (Some (String c s))) = true.
Proof.
  unfold techSpecs. apply includes_append_r.
  apply includes_prefix. rewrite <- (prefix_append (String c s) EmptyString).
  f_equal. induction (String c s) as [|x y IH]; simpl; [reflexivity|].
  rewrite <- IH. reflexivity.
Qed.

(** X8. The last part of the request is the instruction text, and this
    text holds, as substrings, the format instruction of the output type
    and landing position, the creative prompt and the text instruction; in
    an identity transfer it also holds the analysis context, when one is
    given. *)
Theorem instruction_text_holds_its_segments :
  forall key actorFile referenceFile outputType landingPosition
         analysisContext preserveText customText creativePrompt sc req,
    composeRequest key actorFile referenceFile outputType landingPosition
      analysisContext preserveText customText creativePrompt
    = Return (sc, req) ->
    exists prompt,
      last (contents req) (textOnlyPart EmptyString) = textOnlyPart prompt /\
      includes (snd (prepareFormat outputType landingPosition)) prompt = true /\
      includes creativePrompt prompt = true /\
      includes (prepareText preserveText customText) prompt = true /\
      (sc = IdentityTransfer ->
       forall c s, analysisContext = Some (String c s) ->
                   includes (String c s) prompt = true).
Proof.
  intros key af rf ot lp ac pt ct cp sc req H.
  destruct (composeRequest_inv _ _ _ _ _ _ _ _ _ _ _ H)
    as [ab [rb [c [Hk [Ea [Er [Eb [-> ->]]]]]]]].
  exists (systemPrompt c). cbn [contents].
  split; [apply last_last|].
  pose proof (buildScenario_inv _ _ _ _ _ _ _ _ _ Eb) as I.
  pose proof (includes_additionalInstruction cp) as A.
  destruct (scenario c).
  - destruct I as (_ & _ & _ & _ & _ & ->).
    unfold identityTransferPrompt.
    split; [find_in_prompt|]. split; [find_in_prompt|].
    split; [find_in_prompt|].
    intros _ x s ->. pose proof (includes_techSpecs x s) as T.
    find_in_prompt.
  - destruct I as (_ & _ & _ & _ & ->).
    unfold generativePlacementPrompt.
    split; [find_in_prompt|]. split; [find_in_prompt|].
    split; [find_in_prompt|]. intro X; discriminate X.
  - destruct I as (_ & _ & _ & _ & ->).
    unfold guidedReimaginationPrompt.
    split; [find_in_prompt|]. split; [find_in_prompt|].
    split; [find_in_prompt|]. intro X; discriminate X.
  - destruct I as (_ & _ & _ & _ & ->).
    unfold pureSynthesisPrompt.
    split; [find_in_prompt|]. split; [find_in_prompt|].
    split; [find_in_prompt|]. intro X; discriminate X.
Qed.

Lemma instruction_text_holds_its_segments_witness :
  exists prompt,
    last (contents reimaginationRequest) (textOnlyPart EmptyString)
    = textOnlyPart prompt /\
    includes "make it a winter scene" prompt = true /\
    includes cleanInstruction prompt = true.
Proof.
  destruct (instruction_text_holds_its_segments (Some "key") None
              (Some poster) "thumbnail" "center"
              (Some "85mm, key light at ten") false EmptyString
              "make it a winter scene" GuidedReimagination
              reimaginationRequest eq_refl)
    as (prompt & L & _ & C & T & _).
  exists prompt. split; [exact L|]. split; [exact C | exact T].
Defined.


Lemma prepareInput_throws (f : option File) (e : Thrown) :
  prepareInput f = Throw e ->
  exists file, f = Some file /\ readAsDataURL file = ReadFailed e.
Proof.
  destruct f as [file|]; simpl; [|discriminate].
  unfold fileToBase64. destruct (readAsDataURL file) as [r|e'] eqn:R;
    [discriminate|].
  intro H. injection H as ->. exists file. split; [reflexivity | exact R].
Qed.

Lemma composeRequest_throws key af rf ot lp ac pt ct cp e :
  composeRequest key af rf ot lp ac pt ct cp = Throw e ->
  truthy (message e) = true \/
  exists file, (af = Some file \/ rf = Some file)
               /\ readAsDataURL file = ReadFailed e.
Proof.
  unfold composeRequest, getAiClient.
  destruct (truthy key); cbn [bind].
  2:{ intro H. injection H as <-. left. reflexivity. }
  destruct (prepareInput af) as [ab|ea|? ?] eqn:Ea; cbn [bind].
  3:{ destruct af; simpl in Ea; [|discriminate Ea].
      unfold fileToBase64 in Ea. destruct (readAsDataURL f); discriminate Ea. }
  2:{ intro H. injection H as ->.
      destruct (prepareInput_throws _ _ Ea) as [file [-> R]].
      right. exists file. split; [left; reflexivity | exact R]. }
  destruct (prepareInput rf) as [rb|er|? ?] eqn:Er; cbn [bind].
  3:{ destruct rf; simpl in Er; [|discriminate Er].
      unfold fileToBase64 in Er. destruct (readAsDataURL f); discriminate Er. }
  2:{ intro H. injection H as ->.
      destruct (prepareInput_throws _ _ Er) as [file [-> R]].
      right. exists file. split; [right; reflexivity | exact R]. }
  destruct (prepareFormat ot lp) as [ar fi].
  unfold buildScenario.
  repeat match goal with
         | |- context [if ?b then _ else _] => destruct b
         end; cbn [bind]; intro H; try discriminate H.
  injection H as <-. left. reflexivity.
Qed.

(** X9. Every failure of [generateFinalPoster] is an error with a
    non-empty message, or the very error with which the reading of one of
    its two files failed; every failure of [refinePoster] is an error with
    a non-empty message. *)
Theorem failures_carry_a_message :
  forall backend e,
    (forall key actorFile referenceFile outputType landingPosition
            analysisContext preserveText customText creativePrompt,
       outcome backend
         (generateFinalPoster key actorFile referenceFile outputType
            landingPosition analysisContext preserveText customText
            creativePrompt) = Failed e ->
       truthy (message e) = true \/
       exists file, (actorFile = Some file \/ referenceFile = Some file)
                    /\ readAsDataURL file = ReadFailed e) /\
    (forall key currentImageBase64 refinementPrompt outputType,
       outcome backend
         (refinePoster key currentImageBase64 refinementPrompt outputType)
       = Failed e ->
       truthy (message e) = true).
Proof.
  intros backend e. split.
  - intros key af rf ot lp ac pt ct cp H.
    destruct (generateFinalPoster_run key af rf ot lp ac pt ct cp backend)
      as [T R].
    destruct (composeRequest_settles key af rf ot lp ac pt ct cp)
      as [[[sc req] E]|[e' E]].
    + left. destruct (R _ _ E) as [_ [Rj Rs]].
      destruct (backend req) as [response|x] eqn:B.
      * destruct (Rs response eq_refl) as [Ok Ko].
        destruct (readGenerated_settles response) as [[url G]|[c [m G]]].
        -- rewrite (Ok _ G) in H. discriminate H.
        -- rewrite (Ko _ G) in H. injection H as <-. reflexivity.
      * rewrite (Rj x eq_refl) in H. injection H as <-.
        apply (orElse_truthy (message x) "Failed to generate poster.").
        reflexivity.
    + unfold outcome in H. rewrite (T _ E) in H. injection H as ->.
      apply (composeRequest_throws _ _ _ _ _ _ _ _ _ _ E).
  - intros key img prompt ot H.
    destruct (truthy key) eqn:Hk.
    + destruct (refinePoster_run key img prompt ot backend Hk)
        as [req [_ [_ [Rj Rs]]]].
      destruct (backend req) as [response|x] eqn:B.
      * destruct (Rs response eq_refl) as [Ok Ko].
        destruct (readRefined_settles response) as [[url G]|[c [m G]]].
        -- rewrite (Ok _ G) in H. discriminate H.
        -- rewrite (Ko _ G) in H. injection H as <-. reflexivity.
      * rewrite (Rj x eq_refl) in H. injection H as <-.
        apply (orElse_truthy (message x) "Failed to refine image.").
        reflexivity.
    + unfold outcome in H. rewrite (proj2 (without_key key Hk)) in H.
      injection H as <-. reflexivity.
Qed.

Lemma fulfilled_generation key af rf ot lp ac pt ct cp backend url :
  outcome backend (generateFinalPoster key af rf ot lp ac pt ct cp)
  = Fulfilled url ->
  exists d, url = "data:image/png;base64," ++ d.
Proof.
  intro H.
  destruct (generateFinalPoster_run key af rf ot lp ac pt ct cp backend)
    as [T R].
  destruct (composeRequest_settles key af rf ot lp ac pt ct cp)
    as [[[sc req] E]|[e E]].
  - destruct (R _ _ E) as [_ [Rj Rs]].
    destruct (backend req) as [response|x] eqn:B.
    + destruct (Rs response eq_refl) as [Ok Ko].
      unfold readGenerated in Ok, Ko.
      destruct (firstCandidateParts response) as [ps|].
      2:{ rewrite (Ko _ eq_refl) in H. discriminate H. }
      destruct (firstImage ps) as [d|].
      { exists d. rewrite (Ok _ eq_refl) in H. injection H as <-.
        reflexivity. }
      destruct (findText ps) as [tp|].
      2:{ rewrite (Ko _ eq_refl) in H. discriminate H. }
      destruct (text tp) as [[|c t]|];
        rewrite (Ko _ eq_refl) in H; discriminate H.
    + rewrite (Rj x eq_refl) in H. discriminate H.
  - unfold outcome in H. rewrite (T _ E) in H. discriminate H.
Qed.

(** X10. Generation and refinement compose: a URL returned by
    [generateFinalPoster] is "data:image/png;base64," followed by a
    payload, and when it is given to [refinePoster] (with a key) the one
    request made carries exactly this payload as an image/png part,
    followed by one text part, provided the payload holds no comma, as
    base64 text does not. *)
Theorem refinement_sends_back_the_payload :
  forall key actorFile referenceFile outputType landingPosition
         analysisContext preserveText customText creativePrompt backend url,
    outcome backend
      (generateFinalPoster key actorFile referenceFile outputType
         landingPosition analysisContext preserveText customText
         creativePrompt) = Fulfilled url ->
    exists d,
      url = "data:image/png;base64," ++ d /\
      (commaFree d = true ->
       forall key' refinementPrompt outputType' backend',
         truthy key' = true ->
         exists req prompt,
           requests backend'
             (refinePoster key' url refinementPrompt outputType')
           = [req] /\
           contents req =
             [ inlineDataPart (Some "image/png") (Some d);
               textOnlyPart prompt ]).
Proof.
  intros key af rf ot lp ac pt ct cp backend url H.
  destruct (fulfilled_generation _ _ _ _ _ _ _ _ _ _ _ H) as [d ->].
  exists d. split; [reflexivity|].
  intros Hd key' prompt ot' backend' Hk.
  destruct (refinePoster_run key' ("data:image/png;base64," ++ d) prompt ot'
              backend' Hk) as [req [-> [R _]]].
  eexists _, _. split; [exact R|]. cbn [contents].
  change ("data:image/png;base64," ++ d)
    with ("data:image/png;base64" ++ String ","%char d).
  rewrite (payload_of_data_url "data:image/png;base64" d eq_refl Hd).
  reflexivity.
Qed.

Lemma refinement_sends_back_the_payload_witness :
  exists req prompt,
    requests (backend failingEnv)
      (refinePoster (Some "key") "data:image/png;base64,UkVOREVS"
         "Fix the index finger" "landing_hero")
    = [req] /\
    contents req =
      [ inlineDataPart (Some "image/png") (Some "UkVOREVS");
        textOnlyPart prompt ].
Proof.
  destruct (refinement_sends_back_the_payload (Some "key") (Some portrait)
              (Some poster) "landing_hero" "left" None false EmptyString
              EmptyString (backend paintingEnv)
              "data:image/png;base64,UkVOREVS" eq_refl)
    as (d & E & H).
  simpl in E. injection E as <-.
  apply (H eq_refl (Some "key") "Fix the index finger" "landing_hero"
           (backend failingEnv) eq_refl).
Defined.

Lemma commaFree_append (a b : string) :
  commaFree (a ++ b) = commaFree a && commaFree b.
Proof.
  induction a as [|c a IH]; simpl; [reflexivity|].
  rewrite IH. apply andb_assoc.
Qed.

Lemma append_assoc (a b c : string) : (a ++ b) ++ c = a ++ b ++ c.
Proof.
  induction a as [|x a IH]; simpl; [reflexivity|]. rewrite IH. reflexivity.
Qed.

(** X11. [fileToBase64] returns what stands after the first comma of the
    data URL read: the payload of a URL data:<mime>;base64,<payload> whose
    MIME type and payload hold no comma.  It resolves to [undefined] when
    the URL holds no comma, and rejects with the error of the reader. *)
Theorem fileToBase64_cuts_the_payload :
  forall file,
    (forall mime payload,
       readAsDataURL file = Loaded ("data:" ++ mime ++ ";base64," ++ payload) ->
       commaFree mime = true -> commaFree payload = true ->
       fileToBase64 file = Return (Some payload)) /\
    (forall result,
       readAsDataURL file = Loaded result -> commaFree result = true ->
       fileToBase64 file = Return None) /\
    (forall e, readAsDataURL file = ReadFailed e ->
       fileToBase64 file = Throw e).
Proof.
  intro file. unfold fileToBase64. split; [|split].
  - intros mime payload -> Hm Hp. f_equal.
    change (";base64," ++ payload) with (";base64" ++ String ","%char payload).
    rewrite <- (append_assoc mime ";base64" (String ","%char payload)).
    change ("data:" ++ (mime ++ ";base64") ++ String ","%char payload)
      with (("data:" ++ (mime ++ ";base64")) ++ String ","%char payload)
      || rewrite <- (append_assoc "data:" (mime ++ ";base64")
                       (String ","%char payload)).
    apply payload_of_data_url; [|exact Hp].
    rewrite !commaFree_append, Hm. reflexivity.
  - intros result -> H. rewrite (split_commaFree result H). reflexivity.
  - intros e ->. reflexivity.
Qed.


Lemma ratio_agrees (ot lp : string) :
  fst (prepareFormat ot lp) = refineAspectRatio ot.
Proof.
  unfold prepareFormat, refineAspectRatio.
  destruct (ot =? "ad_stories") eqn:E1; [reflexivity|].
  destruct (ot =? "thumbnail") eqn:E2.
  { apply String.eqb_eq in E2. subst ot. reflexivity. }
  destruct (ot =? "landing_hero") eqn:E3.
  { apply String.eqb_eq in E3. subst ot. reflexivity. }
  destruct (ot =? "landing_mobile") eqn:E4; reflexivity.
Qed.

(** X12. A refinement asked with the output type of a generation sends
    the image configuration (aspect ratio and 4K size) and names the model
    that the request of the generation did, whatever the landing position
    of the generation was. *)
Theorem refinement_keeps_the_ratio_of_the_generation :
  forall key actorFile referenceFile outputType landingPosition
         analysisContext preserveText customText creativePrompt sc req,
    composeRequest key actorFile referenceFile outputType landingPosition
      analysisContext preserveText customText creativePrompt
    = Return (sc, req) ->
    forall key' currentImageBase64 refinementPrompt backend,
      truthy key' = true ->
      exists req',
        requests backend
          (refinePoster key' currentImageBase64 refinementPrompt outputType)
        = [req'] /\
        imageConfig req' = imageConfig req /\
        model req' = model req.
Proof.
  intros key af rf ot lp ac pt ct cp sc req H key' img prompt backend Hk.
  destruct (composeRequest_inv _ _ _ _ _ _ _ _ _ _ _ H)
    as [ab [rb [c [_ [_ [_ [_ [_ ->]]]]]]]].
  destruct (refinePoster_run key' img prompt ot backend Hk)
    as [req' [-> [R _]]].
  eexists. split; [exact R|]. cbn [imageConfig model].
  rewrite ratio_agrees. split; reflexivity.
Qed.

Lemma refinement_keeps_the_ratio_of_the_generation_witness :
  exists req',
    requests (backend failingEnv)
      (refinePoster (Some "key") "data:image/png;base64,UkVOREVS"
         "Fix the index finger" "landing_hero")
    = [req'] /\
    imageConfig req' = imageConfig transferRequest /\
    model req' = model transferRequest.
Proof.
  exact (refinement_keeps_the_ratio_of_the_generation (Some "key")
           (Some portrait) (Some poster) "landing_hero" "left" None false
           EmptyString EmptyString IdentityTransfer transferRequest eq_refl
           (Some "key") "data:image/png;base64,UkVOREVS"
           "Fix the index finger" (backend failingEnv) eq_refl).
Defined.

(** X13. The landing position never changes the aspect ratio, and for an
    output type other than the two landing formats it changes nothing at
    all: the request composed, or the failure, is the same for any two
    positions. *)
Theorem landing_position_matters_only_for_landing_pages :
  forall outputType landingPosition landingPosition',
    fst (prepareFormat outputType landingPosition)
    = fst (prepareFormat outputType landingPosition') /\
    (~ In outputType ["landing_hero"; "landing_mobile"] ->
     forall key actorFile referenceFile analysisContext preserveText
            customText creativePrompt,
       composeRequest key actorFile referenceFile outputType landingPosition
         analysisContext preserveText customText creativePrompt
       = composeRequest key actorFile referenceFile outputType
           landingPosition' analysisContext preserveText customText
           creativePrompt).
Proof.
  intros ot lp lp'. split.
  - rewrite !ratio_agrees. reflexivity.
  - intros H key af rf ac pt ct cp.
    assert (E : prepareFormat ot lp = prepareFormat ot lp').
    { unfold prepareFormat.
      rewrite (eqb_false_of_not_in ot _ H "landing_hero") by (simpl; auto).
      rewrite (eqb_false_of_not_in ot _ H "landing_mobile") by (simpl; auto).
      reflexivity. }
    unfold composeRequest. rewrite E. reflexivity.
Qed.

(** X14. The analysis context is read by the identity transfer only: in
    the three other scenarios, and between two contexts that are both
    empty or missing, changing it leaves the scenario and the request as
    they are. *)
Theorem analysis_context_reaches_identity_transfer_only :
  forall key actorFile referenceFile outputType landingPosition
         analysisContext preserveText customText creativePrompt sc req,
    composeRequest key actorFile referenceFile outputType landingPosition
      analysisContext preserveText customText creativePrompt
    = Return (sc, req) ->
    forall analysisContext',
      sc <> IdentityTransfer \/
      (truthy analysisContext = false /\ truthy analysisContext' = false) ->
      composeRequest key actorFile referenceFile outputType landingPosition
        analysisContext' preserveText customText creativePrompt
      = Return (sc, req).
Proof.
  intros key af rf ot lp ac pt ct cp sc req H ac' Hsc.
  revert H. unfold composeRequest, getAiClient.
  destruct (truthy key); cbn [bind]; [|discriminate].
  destruct (prepareInput af) as [ab|ea|? ?]; cbn [bind]; try discriminate.
  destruct (prepareInput rf) as [rb|er|? ?]; cbn [bind]; try discriminate.
  destruct (prepareFormat ot lp) as [ar fi].
  unfold buildScenario.
  repeat match goal with
         | |- context [if ?b then _ else _] => destruct b
         end; cbn [bind scenario mediaParts systemPrompt];
    intro H; try discriminate H; injection H as <- <-;
    try reflexivity.
  destruct Hsc as [Hsc|[T T']]; [contradiction Hsc; reflexivity|].
  unfold identityTransferPrompt, techSpecs.
  destruct ac as [[|x s]|], ac' as [[|x' s']|];
    try discriminate T; try discriminate T'; reflexivity.
Qed.

Lemma analysis_context_reaches_identity_transfer_only_witness :
  composeRequest (Some "key") None (Some poster) "thumbnail" "center" None
    false EmptyString "make it a winter scene"
  = Return (GuidedReimagination, reimaginationRequest).
Proof.
  apply (analysis_context_reaches_identity_transfer_only (Some "key") None
           (Some poster) "thumbnail" "center"
           (Some "85mm, key light at ten") false EmptyString
           "make it a winter scene" GuidedReimagination reimaginationRequest
           eq_refl None).
  left. discriminate.
Defined.

(** * Further properties of the page *)

(** The further states of the page are reachable. *)
Lemma reachable_uploaded : reachable uploaded.
Proof.
  exists false, [ KeyDetected; UploadActor portrait; UploadRef poster ].
  reflexivity.
Qed.

Lemma reachable_firstAwaitingPoster : reachable firstAwaitingPoster.
Proof.
  exists false,
    [ KeyDetected; UploadActor portrait; UploadRef poster;
      AnalysisSettled 0 paintingEnv;
      ClickGenerate; Timer1Fired; Timer2Fired ].
  reflexivity.
Qed.

Ltac unfold_segment H :=
  unfold segment, guard, handleFileUpload_actor, handleFileUpload_ref,
    handleAnalyze_start, handleAnalyze_settled, handleGenerate_start,
    handleGenerate_timer1, handleGenerate_timer2, handleGenerate_settled,
    handleGenerate_failed, handleGenerate_keySelected, handleRefine_start,
    handleRefine_settled, generateDisabled, refineBarActive in H;
  cbn [ui steps generating refining isProcessing isRefining generatedImage
       analysisText apiKeySet preserveText analyzing actorFile refFile
       refinePrompt aistudio outputType landingPos customText] in H.

Lemma segment_keeps_stages (y : Sys) (ev : Event) (us : list (Sys -> Sys)) :
  map id (steps (ui y)) = stepIds ->
  segment y ev = Some us ->
  Forall (sameStages y) (through us y) /\ sameStages y (applyAll us y).
Proof.
  intros Hids S.
  destruct (five_steps _ Hids)
    as (n1 & s1 & d1 & n2 & s2 & d2 & n3 & s3 & d3 & n4 & s4 & d4
        & n5 & s5 & d5 & Hst).
  destruct y as [u ais g r an].
  destruct u as [aks af rf ot lp pt ct ip ia at_ gi st rp ir].
  cbn [ui steps] in *. subst st.
  unfold_segment S.
  destruct ev; try discriminate S;
    try (destruct g as [|c|c|c|]; try discriminate S);
    split_guards S;
    try (injection S as <-);
    unfold resetSteps;
    repeat match goal with
           | E : truthy at_ = _ |- _ => rewrite ?E; clear E
           end;
    cbn [through];
    (split;
     [ repeat (apply Forall_cons; [unfold sameStages; cbn; split; reflexivity|]);
       apply Forall_nil
     | unfold sameStages; cbn; split; reflexivity ]).
Qed.

Lemma stages_of_reachable (y : Sys) :
  reachable y ->
  map id (steps (ui y)) = stepIds /\ map name (steps (ui y)) = stageNames.
Proof.
  intros [ais [evs H]].
  assert (G : forall evs y0 y1,
             Inv y0 -> map name (steps (ui y0)) = stageNames ->
             runEvents y0 evs = Some y1 ->
             Inv y1 /\ map name (steps (ui y1)) = stageNames).
  { clear. induction evs as [|ev evs IH]; intros y0 y1 I N H; simpl in H.
    - injection H as <-. split; assumption.
    - destruct (step y0 ev) as [y'|] eqn:S; [|discriminate H].
      pose proof (step_keeps_Inv _ _ _ I S) as I'.
      unfold step in S. destruct (segment y0 ev) as [us|] eqn:Sg;
        [|discriminate S]. injection S as <-.
      destruct (segment_keeps_stages y0 ev us (proj1 I) Sg) as [_ [_ Nn]].
      apply (IH _ _ I'); [|exact H]. rewrite Nn. exact N. }
  destruct (G evs _ _ (Inv_initial ais) eq_refl H) as [I N].
  split; [exact (proj1 I) | exact N].
Qed.

(** X15. In every state the page can show, the states between two
    updates of a handler included, the pipeline holds the same five
    stages, with the ids 1 to 5 and the names of the initial state, in
    this order: handlers change statuses and details only. *)
Theorem the_five_stages_never_change :
  forall y,
    observable y ->
    map id (steps (ui y)) = ["1"; "2"; "3"; "4"; "5"] /\
    map name (steps (ui y))
    = [ "Segmentation Engine"; "Hero Replacement"; "Relighting & Texture";
        "Identity Blocker"; "Final 4K Render" ].
Proof.
  intros y [R|[y0 [ev [us [R [S Hin]]]]]].
  - apply (stages_of_reachable y R).
  - destruct (stages_of_reachable y0 R) as [I N].
    destruct (segment_keeps_stages y0 ev us I S) as [F _].
    rewrite Forall_forall in F. destruct (F y Hin) as [Fi Fn].
    rewrite Fi, Fn. split; assumption.
Qed.

Lemma the_five_stages_never_change_witness :
  map name (steps (ui afterGeneration))
  = [ "Segmentation Engine"; "Hero Replacement"; "Relighting & Texture";
      "Identity Blocker"; "Final 4K Render" ].
Proof.
  exact (proj2 (the_five_stages_never_change afterGeneration
                  (or_introl reachable_afterGeneration))).
Defined.


(** X16. In every reachable state of the page [isProcessing] is set
    exactly while a [handleGenerate] is suspended and [isRefining] exactly
    while a [handleRefine] is, and the two never overlap.  During the
    first timer of a generation the statuses are completed, processing and
    three times pending, during the second twice completed, processing and
    twice pending; when nothing runs, none of the first four stages is
    left processing. *)
Theorem flags_and_statuses_follow_the_suspended_call :
  forall y,
    reachable y ->
    (isProcessing (ui y) = true <-> generating y <> GenIdle) /\
    (isRefining (ui y) = true <-> refining y <> None) /\
    (generating y <> GenIdle -> refining y = None) /\
    (forall c, generating y = AwaitTimer1 c ->
       statuses y = [Completed; Processing; Pending; Pending; Pending]) /\
    (forall c, generating y = AwaitTimer2 c ->
       statuses y = [Completed; Completed; Processing; Pending; Pending]) /\
    (generating y = GenIdle -> refining y = None ->
       ~ In Processing (firstn 4 (statuses y))).
Proof.
  intros y R. destruct (reachable_Inv y R) as (_ & _ & P).
  unfold phaseInv in P.
  destruct (generating y) as [|c|c|c|], (refining y) as [rc|];
    try contradiction.
  - destruct P as (-> & -> & _).
    repeat split; try discriminate; try (intro H; contradiction H; reflexivity).
  - destruct P as (-> & -> & P).
    repeat split; try discriminate; try (intro H; contradiction H; reflexivity).
    intros _ _.
    destruct P as [[s1 [-> [[->| ->] _]]]|[s5 ->]]; cbn;
      intros [H|[H|[H|[H|[]]]]]; discriminate H.
  - destruct P as (-> & -> & -> & _).
    repeat split; try discriminate; try reflexivity;
      try (intro H; contradiction H; reflexivity).
  - destruct P as (-> & -> & -> & _).
    repeat split; try discriminate; try reflexivity;
      try (intro H; contradiction H; reflexivity).
  - destruct P as (-> & -> & -> & _).
    repeat split; try discriminate; try reflexivity;
      try (intro H; contradiction H; reflexivity).
  - destruct P as (-> & -> & -> & _).
    repeat split; try discriminate; try reflexivity;
      try (intro H; contradiction H; reflexivity).
Qed.

Lemma flags_and_statuses_follow_the_suspended_call_witness :
  statuses regenerating = [Completed; Processing; Pending; Pending; Pending].
Proof.
  destruct (flags_and_statuses_follow_the_suspended_call regenerating
              reachable_regenerating) as (_ & _ & _ & H & _).
  eapply H. reflexivity.
Defined.

Lemma posterCall_fulfilled e c url :
  outcome (backend e) (posterCall e c) = Fulfilled url ->
  exists d, url = "data:image/png;base64," ++ d.
Proof.
  unfold posterCall. apply fulfilled_generation.
Qed.

(** X17. What the page holds once the call of [handleGenerate] has
    settled.  On success all five stages are completed, the last with
    "Render finished", the image held is the URL returned, a PNG data URI,
    and processing is over.  On a failure whose message holds "Requested
    entity was not found", inside AI Studio, the key is unset and the
    handler waits for the key dialog with the statuses as they were.  On
    any other failure stage 5 is in error with details of at most 50
    characters (the message itself when it is that short), the first four
    stages stay completed and processing is over. *)
Theorem a_settled_generation :
  forall y e c y',
    reachable y ->
    generating y = AwaitPoster c ->
    step y (PosterSettled e) = Some y' ->
    match outcome (backend e) (posterCall e c) with
    | Fulfilled url =>
        generating y' = GenIdle /\ isProcessing (ui y') = false /\
        generatedImage (ui y') = Some url /\
        (exists d, url = "data:image/png;base64," ++ d) /\
        statuses y' = [Completed; Completed; Completed; Completed; Completed] /\
        detailsAt 4 y' = Some "Render finished"
    | Failed err =>
        let msg := orElse (message err) "Unknown error" in
        if includes "Requested entity was not found" msg && aistudio y
        then
          generating y' = AwaitKey /\ isProcessing (ui y') = true /\
          apiKeySet (ui y') = false /\ statuses y' = statuses y
        else
          generating y' = GenIdle /\ isProcessing (ui y') = false /\
          apiKeySet (ui y')
          = apiKeySet (ui y)
            && negb (includes "Requested entity was not found" msg) /\
          statuses y' = [Completed; Completed; Completed; Completed; Error] /\
          exists d, detailsAt 4 y' = Some d /\ String.length d <= 50 /\
                    (String.length msg <= 50 -> d = msg)
    end.
Proof.
  intros y e c y' R Hg S.
  destruct (reachable_Inv y R) as (Hids & _ & P).
  destruct (five_steps _ Hids)
    as (n1 & s1 & d1 & n2 & s2 & d2 & n3 & s3 & d3 & n4 & s4 & d4
        & n5 & s5 & d5 & Hst).
  unfold phaseInv in P. rewrite Hg in P.
  destruct (refining y); [contradiction|].
  destruct P as (Hp & Hr & Hs & Hi).
  unfold step, segment in S. rewrite Hg in S. cbn [option_map] in S.
  injection S as <-.
  unfold statuses in *. rewrite Hst in Hs. cbn [map status] in Hs.
  injection Hs as -> -> -> -> ->.
  destruct (outcome (backend e) (posterCall e c)) as [url|err] eqn:O.
  - unfold handleGenerate_settled, detailsAt. cbn. rewrite Hst. cbn.
    repeat split. apply (posterCall_fulfilled e c url O).
  - unfold handleGenerate_settled, handleGenerate_failed, detailsAt.
    cbv zeta.
    destruct (50 <? String.length (orElse (message err) "Unknown error"))%nat
      eqn:L;
      (destruct (includes "Requested entity was not found"
                   (orElse (message err) "Unknown error")) eqn:Inc;
       [destruct (aistudio y) eqn:Ais|]); cbn [andb negb];
      cbn; rewrite Hst; cbn; rewrite ?andb_false_r, ?andb_true_r;
      repeat split; try assumption;
      eexists; (split; [reflexivity|]); split;
      try (cbn; lia); try reflexivity;
      try (intro H; apply Nat.ltb_lt in L; lia);
      try (apply Nat.ltb_ge in L; exact L).
Qed.

Lemma a_settled_generation_witness :
  generatedImage (ui afterGeneration) = Some "data:image/png;base64,UkVOREVS" /\
  statuses afterGeneration
  = [Completed; Completed; Completed; Completed; Completed].
Proof.
  pose proof (a_settled_generation firstAwaitingPoster paintingEnv
                firstClosure afterGeneration reachable_firstAwaitingPoster
                eq_refl eq_refl) as H.
  change (outcome (backend paintingEnv) (posterCall paintingEnv firstClosure))
    with (Fulfilled "data:image/png;base64,UkVOREVS") in H.
  destruct H as (_ & _ & I & _ & S & _). split; [exact I | exact S].
Defined.


Lemma cleanPlate_initial (ais : bool) : cleanPlateOk (initialSys ais).
Proof.
  split; [reflexivity|]. intros c H. discriminate H.
Qed.

Lemma segment_keeps_cleanPlate (y : Sys) (ev : Event) (us : list (Sys -> Sys)) :
  cleanPlateOk y -> segment y ev = Some us -> cleanPlateOk (applyAll us y).
Proof.
  intros [U C] S.
  destruct y as [u ais g r an].
  destruct u as [aks af rf ot lp pt ct ip ia at_ gi st rp ir].
  cbn [ui generating preserveText customText] in *.
  unfold_segment S.
  destruct ev; try discriminate S;
    try (destruct g as [|c|c|c|]; try discriminate S);
    split_guards S;
    try (injection S as <-);
    unfold cleanPlateOk; cbn;
    (split; [ try exact U; try reflexivity; try (intro X; discriminate X)
            | try exact C;
              try (intros c0 X; discriminate X);
              try (intros c0 X; injection X as <-; cbn; try exact U;
                   apply (C _ eq_refl)) ]).
  all: try (apply andb_true_iff in E; destruct E as [_ E]; cbn in E;
            subst pt; intro X; discriminate X).
Qed.

Lemma cleanPlate_of_reachable (y : Sys) : reachable y -> cleanPlateOk y.
Proof.
  intros [ais [evs H]].
  assert (G : forall evs y0 y1, cleanPlateOk y0 ->
                runEvents y0 evs = Some y1 -> cleanPlateOk y1).
  { clear. induction evs as [|ev evs IH]; intros y0 y1 I H; simpl in H.
    - injection H as <-. exact I.
    - destruct (step y0 ev) as [y'|] eqn:S; [|discriminate H].
      unfold step in S. destruct (segment y0 ev) as [us|] eqn:Sg;
        [|discriminate S]. injection S as <-.
      apply (IH _ _ (segment_keeps_cleanPlate _ _ _ I Sg) H). }
  apply (G evs _ _ (cleanPlate_initial ais) H).
Qed.

(** X18. In every reachable state of the page, clean plate mode holds no
    custom text (choosing it empties the field, which only layout mode
    offers), and a generation started in clean plate mode has captured the
    empty custom text. *)
Theorem clean_plate_holds_no_custom_text :
  forall y,
    reachable y ->
    (preserveText (ui y) = false -> customText (ui y) = EmptyString) /\
    (forall c, closureOf (generating y) = Some c ->
       g_preserveText c = false -> g_customText c = EmptyString).
Proof.
  intros y R. exact (cleanPlate_of_reachable y R).
Qed.

Lemma clean_plate_holds_no_custom_text_witness :
  g_customText firstClosure = EmptyString.
Proof.
  exact (proj2 (clean_plate_holds_no_custom_text firstAwaitingPoster
                  reachable_firstAwaitingPoster)
           firstClosure eq_refl eq_refl).
Defined.

(** X19. Every request the page makes for a generation is an identity
    transfer: its contents are the reference image, then the actor image,
    both with the payload read from the captured file, then the identity
    transfer text composed with an empty creative prompt.  The three other
    scenarios of the service are not reached from the page, and the call
    makes this one request only. *)
Theorem the_page_only_asks_for_identity_transfer :
  forall e c req,
    In req (requests (backend e) (posterCall e c)) ->
    requests (backend e) (posterCall e c) = [req] /\
    exists actorBase64 referenceBase64,
      fileToBase64 (g_actorFile c) = Return actorBase64 /\
      fileToBase64 (g_refFile c) = Return referenceBase64 /\
      contents req =
        [ inlineDataPart (Some (type (g_refFile c))) referenceBase64;
          inlineDataPart (Some (type (g_actorFile c))) actorBase64;
          textOnlyPart
            (identityTransferPrompt
               (snd (prepareFormat (outputTypeValue (g_outputType c))
                       (landingPositionValue (g_landingPos c))))
               (if truthy (g_analysisText c) then g_analysisText c else None)
               EmptyString
               (prepareText (g_preserveText c) (g_customText c))) ].
Proof.
  intros e c req Hin. unfold posterCall in *.
  destruct (requests_generateFinalPoster _ _ _ _ _ _ _ _ _ _ _ Hin)
    as [sc H].
  split.
  { apply (generateFinalPoster_run _ _ _ _ _ _ _ _ _ (backend e)) in H.
    apply H. }
  destruct (composeRequest_inv _ _ _ _ _ _ _ _ _ _ _ H)
    as [ab [rb [k [_ [Ea [Er [Eb [_ ->]]]]]]]].
  exists ab, rb. split; [exact Ea|]. split; [exact Er|].
  pose proof (buildScenario_inv _ _ _ _ _ _ _ _ _ Eb) as I.
  cbn [contents].
  destruct (scenario k).
  - destruct I as (_ & _ & _ & _ & -> & ->). reflexivity.
  - destruct I as (_ & X & _). discriminate X.
  - destruct I as (X & _). discriminate X.
  - destruct I as (X & _). discriminate X.
Qed.

Lemma the_page_only_asks_for_identity_transfer_witness :
  requests (backend paintingEnv) (posterCall paintingEnv firstClosure)
  = [ analysedRequest ].
Proof.
  apply (the_page_only_asks_for_identity_transfer paintingEnv firstClosure
           analysedRequest).
  vm_compute. left. reflexivity.
Defined.

Lemma removeNth_length {A : Type} (l : list A) :
  forall n x, nth_error l n = Some x ->
              S (length (removeNth n l)) = length l.
Proof.
  induction l as [|h t IH]; intros [|n] x H; simpl in *; try discriminate H.
  - reflexivity.
  - rewrite (IH n x H). reflexivity.
Qed.

Lemma analysis_text_truthy key file backend :
  exists c t, outcome backend (analyzeImageStructure key file)
              = Fulfilled (String c t).
Proof.
  unfold analyzeImageStructure, getAiClient, fileToBase64, outcome.
  destruct (truthy key); cbn [bind tryCatch run snd];
    [|eexists _, _; reflexivity].
  destruct (readAsDataURL file); cbn [bind tryCatch run snd];
    [|eexists _, _; reflexivity].
  cbn [generateContent bind tryCatch run].
  match goal with
  | |- context [backend ?r] => destruct (backend r) as [response|e]
  end; cbn [bind tryCatch run snd]; [|eexists _, _; reflexivity].
  pose proof (orElse_truthy (responseText response)
                "Analysis failed to produce text." eq_refl) as T.
  destruct (orElse (responseText response)
              "Analysis failed to produce text."); [discriminate T|].
  eexists _, _. reflexivity.
Qed.

(** X20. When an analysis settles, the page always holds a non-empty
    analysis text, stage 1 is completed with "Lighting topology mapped",
    the other four statuses are as they were and [isAnalyzing] is cleared,
    also when the service failed inside: with this service the [catch] of
    [handleAnalyze] and its "Analysis skipped (auto-mode)" are never
    reached.  One pending analysis is consumed. *)
Theorem a_settled_analysis :
  forall y n e y',
    reachable y ->
    step y (AnalysisSettled n e) = Some y' ->
    truthy (analysisText (ui y')) = true /\
    nth_error (statuses y') 0 = Some Completed /\
    detailsAt 0 y' = Some "Lighting topology mapped" /\
    tl (statuses y') = tl (statuses y) /\
    isAnalyzing (ui y') = false /\
    S (length (analyzing y')) = length (analyzing y).
Proof.
  intros y n e y' R S.
  destruct (reachable_Inv y R) as (Hids & _ & _).
  destruct (five_steps _ Hids)
    as (n1 & s1 & d1 & n2 & s2 & d2 & n3 & s3 & d3 & n4 & s4 & d4
        & n5 & s5 & d5 & Hst).
  unfold step, segment in S.
  destruct (nth_error (analyzing y) n) as [file|] eqn:N; [|discriminate S].
  destruct (analysis_text_truthy (API_KEY e) file (backend e)) as [c [t O]].
  rewrite O in S. cbn [option_map handleAnalyze_settled app] in S.
  injection S as <-.
  unfold statuses, detailsAt. cbn. rewrite Hst. cbn.
  repeat split. apply (removeNth_length _ _ _ N).
Qed.

Lemma a_settled_analysis_witness :
  truthy (analysisText (ui analysed)) = true /\
  nth_error (statuses analysed) 0 = Some Completed.
Proof.
  destruct (a_settled_analysis uploaded 0 paintingEnv analysed
              reachable_uploaded eq_refl) as (T & S & _).
  split; [exact T | exact S].
Defined.

(** * Properties of the output format controls *)

Module LandingFacts.
Import Js GeminiService.
Import App (OutputType, AD_FEED, AD_STORIES, LANDING_HERO, LANDING_MOBILE,
            THUMBNAIL, LandingPosition, LEFT, CENTER, RIGHT, TOP, BOTTOM,
            outputTypeValue, landingPositionValue).
Import Landing.

(** X21. The effect that aligns the output type with the device settles
    in one run: a second run changes nothing.  It never changes the
    device, does nothing outside landing mode, and in landing mode leaves
    the output type of the device (hero for desktop, mobile for mobile)
    with a position that this device offers. *)
Theorem landing_effect_settles_in_one_run :
  forall c,
    afterEffect (afterEffect c) = afterEffect c /\
    landingDevice (afterEffect c) = landingDevice c /\
    (isLanding (outputType c) = false -> afterEffect c = c) /\
    (isLanding (outputType c) = true ->
     consistent (afterEffect c) = true /\
     outputType (afterEffect c)
     = match landingDevice c with
       | desktop => LANDING_HERO
       | mobile => LANDING_MOBILE
       end).
Proof.
  intros [o p d].
  destruct o, p, d; cbn;
    (split; [reflexivity|]); (split; [reflexivity|]);
    (split; [ intro H; try discriminate H; reflexivity
            | intro H; try discriminate H; split; reflexivity ]).
Qed.

Lemma click_keeps_consistent (c c' : Config) (k : Click) :
  consistent c = true -> click c k = Some c' -> consistent c' = true.
Proof.
  destruct c as [o p d]. unfold click.
  destruct k as [o'|d'|p']; [destruct o'|destruct d'|destruct p'];
    destruct o, p, d; cbn; intros H S;
    try discriminate H; try discriminate S; injection S as <-; reflexivity.
Qed.

Lemma reachable_consistent (c : Config) : reachable c -> consistent c = true.
Proof.
  intros [ks H].
  assert (G : forall ks c0 c1, consistent c0 = true ->
                clicks c0 ks = Some c1 -> consistent c1 = true).
  { clear. induction ks as [|k ks IH]; intros c0 c1 I H; simpl in H.
    - injection H as <-. exact I.
    - destruct (click c0 k) as [c'|] eqn:S; [|discriminate H].
      apply (IH _ _ (click_keeps_consistent _ _ _ I S) H). }
  apply (G ks initialConfig c); [reflexivity | exact H].
Qed.

(** X22. After any sequence of clicks on the format, device and position
    controls, each followed by the effect, the effect has nothing left to
    do; a landing hero goes with the desktop device and a left, center or
    right position, a landing mobile with the mobile device and a top or
    bottom position.  So the format instruction of a landing format always
    holds a layout clause, and its ratio is 16:9 on desktop and 9:16 on
    mobile. *)
Theorem landing_formats_always_carry_a_layout :
  forall c,
    reachable c ->
    afterEffect c = c /\
    (outputType c = LANDING_HERO ->
     landingDevice c = desktop /\ In (landingPos c) [LEFT; CENTER; RIGHT]) /\
    (outputType c = LANDING_MOBILE ->
     landingDevice c = mobile /\ In (landingPos c) [TOP; BOTTOM]) /\
    (isLanding (outputType c) = true ->
     includes " LAYOUT: "
       (snd (prepareFormat (outputTypeValue (outputType c))
               (landingPositionValue (landingPos c)))) = true /\
     fst (prepareFormat (outputTypeValue (outputType c))
            (landingPositionValue (landingPos c)))
     = match landingDevice c with
       | desktop => "16:9"
       | mobile => "9:16"
       end).
Proof.
  intros c R. pose proof (reachable_consistent c R) as I.
  destruct c as [o p d].
  destruct o, p, d; try discriminate I; cbn;
    (split; [reflexivity|]); (split; [|split]);
    intro H; try discriminate H;
    try (split; [reflexivity | simpl; auto 6]);
    split; reflexivity.
Qed.

Lemma landing_formats_always_carry_a_layout_witness :
  includes " LAYOUT: " (snd (prepareFormat "landing_mobile" "top")) = true /\
  fst (prepareFormat "landing_mobile" "top") = "9:16".
Proof.
  refine (proj2 (proj2 (proj2
    (landing_formats_always_carry_a_layout
       {| outputType := LANDING_MOBILE; landingPos := TOP;
          landingDevice := mobile |} _))) eq_refl).
  exists [ ClickFormat LANDING_HERO; ClickDevice mobile ]. reflexivity.
Defined.

End LandingFacts.

(** * Properties of the assistant *)


Module ChatFacts.
Import Js GeminiService ChatAssistant ChatExamples.

Lemma conversation_extend (u m : Message) :
  role u = RoleUser -> role m = RoleModel ->
  forall n h, length h <= n -> conversation h = true ->
              conversation (h ++ [u; m]) = true.
Proof.
  intros Hu Hm. induction n as [|n IH]; intros h L C.
  - destruct h; [discriminate C | simpl in L; lia].
  - destruct h as [|a [|b rest]]; [discriminate C| |].
    + simpl in *. destruct (role a); [discriminate C|].
      rewrite Hu, Hm. reflexivity.
    + simpl in C. destruct (role a) eqn:Ra; [discriminate C|].
      destruct (role b) eqn:Rb; [|discriminate C].
      change ((a :: b :: rest) ++ [u; m])%list
        with (a :: b :: (rest ++ [u; m]))%list.
      simpl. rewrite Ra, Rb. apply IH; [simpl in L; lia | exact C].
Qed.

Lemma reply_is_truthy key h m backend t :
  snd (runChat backend (sendChatMessage key h m)) = Fulfilled t ->
  truthyStr t = true.
Proof.
  unfold sendChatMessage, getAiClient.
  destruct (truthy key); cbn; [|discriminate].
  match goal with
  | |- context [backend ?c] => destruct (backend c) as [rt|e]
  end; [|discriminate].
  intro H. injection H as <-.
  apply orElse_truthy. reflexivity.
Qed.

Lemma chatInv_initial : chatInv initialSys.
Proof. split; reflexivity. Qed.

Lemma step_keeps_chatInv (y y' : Sys) (ev : Event) :
  chatInv y -> step y ev = Some y' -> chatInv y'.
Proof.
  unfold chatInv, step, segment, guard, handleSend_start, handleSend_settled.
  destruct y as [[op ms inp ld] [[h m]|]]; cbn [ui sending isLoading messages
    isOpen input].
  - intros (-> & C & -> & T).
    destruct ev as [| |t0| |e]; try (destruct op); cbn; intro S;
      rewrite ?orb_true_r in S; cbn in S;
      try discriminate S;
      try (injection S as <-; cbn; repeat split;
           solve [reflexivity | assumption]).
    all: destruct (snd (runChat (backend e) (sendChatMessage (API_KEY e) h m)))
      as [t|err]; injection S as <-; cbn; (split; [reflexivity|]);
      unfold push; rewrite <- app_assoc;
      cbn [app];
      (apply conversation_extend with (n := length h);
       [reflexivity | reflexivity | apply le_n | exact C]).
  - intros (-> & C).
    destruct ev as [| |t0| |e]; try (destruct op); cbn; intro S;
      try discriminate S;
      try (injection S as <-; cbn; split; [reflexivity | assumption]).
    all: rewrite orb_false_r in S;
      destruct (truthyStr (trim inp)) eqn:T; cbn in S; injection S as <-; cbn;
      repeat split; solve [reflexivity | assumption].
Qed.

Lemma reachable_chatInv (y : Sys) : reachable y -> chatInv y.
Proof.
  intros [evs H].
  assert (G : forall evs y0 y1, chatInv y0 -> runEvents y0 evs = Some y1 ->
                                chatInv y1).
  { clear. induction evs as [|ev evs IH]; intros y0 y1 I H; simpl in H.
    - injection H as <-. exact I.
    - destruct (step y0 ev) as [y'|] eqn:S; [|discriminate H].
      apply (IH _ _ (step_keeps_chatInv _ _ _ I S) H). }
  apply (G evs _ _ chatInv_initial H).
Qed.

Lemma reachable_asked : reachable asked.
Proof.
  exists [ OpenChat; TypeInput "How do I start?"; Send ]. reflexivity.
Qed.

Lemma reachable_answered : reachable answered.
Proof.
  exists [ OpenChat; TypeInput "How do I start?"; Send;
           ReplySettled helpfulEnv ].
  reflexivity.
Qed.

(** X23. In every reachable state of the assistant [isLoading] is set
    exactly while a call is pending.  The messages start with a message of
    the model and then alternate user, model: they end on the model when
    idle and, while loading, are the history given to the call followed by
    the pending question.  No event removes or changes a message: each
    appends at most one. *)
Theorem the_conversation_alternates_and_only_grows :
  forall y,
    reachable y ->
    (isLoading (ui y) = true <-> sending y <> None) /\
    (sending y = None -> conversation (messages (ui y)) = true) /\
    (forall h m, sending y = Some (h, m) ->
       conversation h = true /\
       messages (ui y) = (h ++ [ {| role := RoleUser; text := m |} ])%list) /\
    (forall ev y', step y ev = Some y' ->
       exists added, messages (ui y') = (messages (ui y) ++ added)%list
                     /\ length added <= 1).
Proof.
  intros y R. pose proof (reachable_chatInv y R) as I.
  unfold chatInv in I.
  split; [|split; [|split]].
  - destruct (sending y) as [[h m]|].
    + destruct I as (-> & _). split; [discriminate | reflexivity].
    + destruct I as (-> & _). split; [discriminate|].
      intro H. contradiction H. reflexivity.
  - intro N. rewrite N in I. apply I.
  - intros h m N. rewrite N in I. destruct I as (_ & C & M & _).
    split; assumption.
  - intros ev y'. unfold step, segment, guard, handleSend_start,
      handleSend_settled.
    destruct ev as [| |t0| |e].
    + destruct (negb (isOpen (ui y))); intro S; [|discriminate S].
      injection S as <-. exists []. rewrite app_nil_r. split; [reflexivity|].
      simpl. lia.
    + destruct (isOpen (ui y)); intro S; [|discriminate S].
      injection S as <-. exists []. rewrite app_nil_r. split; [reflexivity|].
      simpl. lia.
    + destruct (isOpen (ui y)); intro S; [|discriminate S].
      injection S as <-. exists []. rewrite app_nil_r. split; [reflexivity|].
      simpl. lia.
    + destruct (isOpen (ui y)); intro S; [|discriminate S].
      destruct (negb (truthyStr (trim (input (ui y)))) || isLoading (ui y));
        injection S as <-.
      * exists []. rewrite app_nil_r. split; [reflexivity|]. simpl. lia.
      * eexists. split; [reflexivity|]. simpl. lia.
    + destruct (sending y) as [[h m]|]; intro S; [|discriminate S].
      destruct (snd (runChat (backend e) (sendChatMessage (API_KEY e) h m)));
        injection S as <-; eexists; (split; [reflexivity|]); simpl; lia.
Qed.

Lemma the_conversation_alternates_and_only_grows_witness :
  conversation (messages (ui answered)) = true.
Proof.
  exact (proj1 (proj2 (the_conversation_alternates_and_only_grows answered
                         reachable_answered)) eq_refl).
Defined.

(** X24. When the call of [handleSend] settles, one message of the model
    is appended after the question, never an empty one, loading ends and
    the text typed meanwhile is kept.  With a key, the one call made
    carries as history the messages held when the question was sent, roles
    and texts in order, and the question as new message; the message
    appended is the text of the response, "I couldn't generate a
    response." when that is empty or missing, and the apology when the
    call rejects.  Without a key no call is made and the apology is
    appended. *)
Theorem an_exchange_with_the_assistant :
  forall y h m e y',
    reachable y ->
    sending y = Some (h, m) ->
    step y (ReplySettled e) = Some y' ->
    exists reply,
      messages (ui y')
      = (h ++ [ {| role := RoleUser; text := m |};
                {| role := RoleModel; text := reply |} ])%list /\
      truthyStr reply = true /\
      isLoading (ui y') = false /\ sending y' = None /\
      input (ui y') = input (ui y) /\
      if truthy (API_KEY e) then
        exists call,
          fst (runChat (backend e) (sendChatMessage (API_KEY e) h m))
          = [call] /\
          map contentRole (history call) = map role h /\
          map contentParts (history call)
          = map (fun x => [ textOnlyPart (text x) ]) h /\
          newMessage call = m /\
          reply = match backend e call with
                  | ChatResolved t =>
                      orElse t "I couldn't generate a response."
                  | ChatRejected _ => text apology
                  end
      else
        fst (runChat (backend e) (sendChatMessage (API_KEY e) h m)) = [] /\
        reply = text apology.
Proof.
  intros y h m e y' R N S.
  pose proof (reachable_chatInv y R) as I. unfold chatInv in I.
  rewrite N in I. destruct I as (_ & _ & M & _).
  unfold step, segment in S. rewrite N in S. cbn [option_map] in S.
  injection S as <-.
  unfold sendChatMessage, getAiClient.
  destruct (truthy (API_KEY e)); cbn [runChat fst snd].
  - match goal with
    | |- context [backend e ?c] => set (call := c)
    end.
    destruct (backend e call) as [t|err] eqn:B; cbn; rewrite M;
      unfold push; rewrite <- app_assoc; eexists;
      (split; [reflexivity|]);
      (split; [try reflexivity; apply orElse_truthy; reflexivity|]);
      repeat (split; [reflexivity|]);
      exists call; rewrite B; subst call; cbn [history newMessage];
      rewrite !map_map; repeat split.
  - cbn. rewrite M. unfold push. rewrite <- app_assoc. eexists.
    repeat split.
Qed.

Lemma an_exchange_with_the_assistant_witness :
  exists reply,
    messages (ui answered)
    = [ greeting; question; {| role := RoleModel; text := reply |} ] /\
    truthyStr reply = true.
Proof.
  destruct (an_exchange_with_the_assistant asked [ greeting ]
              "How do I start?" helpfulEnv answered reachable_asked
              eq_refl eq_refl) as (reply & M & T & _).
  exists reply. split; [exact M | exact T].
Defined.

End ChatFacts.
